(** * Delivery-agent dispatch and order change feed

    A shallow embedding of
      - [src/controllers/deliveryAgent.controller.js]
        ([updateLocation], [getNearbyOrders], [acceptOrder],
        [completeDelivery], [rejectOrder] and the smaller handlers), and
      - [src/utils/changeStreams.js]
        ([createOrderChangeStream], [closeChangeStreams]),
      - [src/middlewares/isAuthenticated.js] and the [origin] function of
        [src/index.js],
    together with the properties of the dispatch engine that the
    specification states about them and further properties of the code.

    Layout: the JavaScript values the handlers compute with, the documents
    and the store, the handlers, the change-feed watcher, the middleware,
    then the lemmas. *)

From Stdlib Require Import ZArith QArith Qround Qabs Qpower Lqa Lia Bool.
From Stdlib Require Import List Permutation Sorted.
From Stdlib Require Import Ascii String DecimalString DecimalN DecimalPos.
Import ListNotations.

Set Implicit Arguments.

(* ================================================================== *)
(** * JavaScript values *)
(* ================================================================== *)

Module JS.

Local Open Scope Z_scope.

(** A JavaScript Number is an IEEE binary64 value.  A finite one is kept
    by its exact rational value; [-0] is not told apart from [0], which no
    handler does either ([!x], [<], [<=], [Math.round] followed by a
    template literal and [toFixed] treat both alike). *)
Inductive number : Type :=
| NaN
| Infinity (negative : bool)
| Num (q : Q).

Definition zero : number := Num 0.

(** [2^p] as a rational, for an exponent of either sign. *)
Definition Qpow2 (p : Z) : Q := (2 ^ p)%Q.

(** Nearest integer, ties to even: the rounding of every binary64
    operation. *)
Definition round_half_even (x : Q) : Z :=
  let f := Qfloor x in
  match (x - inject_Z f ?= 1 # 2)%Q with
  | Lt => f
  | Gt => f + 1
  | Eq => if Z.even f then f else f + 1
  end.

(** [floor (log2 q)] for a positive rational. *)
Definition Qlog2 (q : Q) : Z :=
  let e := Z.log2 (Qnum q) - Z.log2 (Zpos (Qden q)) in
  if Qle_bool (Qpow2 e) q then e else e - 1.

(** Rounding of a positive real to binary64: 53 significant bits, gradual
    underflow below [2^-1022], overflow to infinity from [2^1024]. *)
Definition round_pos (q : Q) : number :=
  let p := Z.max (Qlog2 q - 52) (-1074) in
  let m := round_half_even (q / Qpow2 p) in
  let r := (inject_Z m * Qpow2 p)%Q in
  if Qle_bool (Qpow2 1024) r then Infinity false else Num r.

Definition number_neg (a : number) : number :=
  match a with
  | NaN => NaN
  | Infinity s => Infinity (negb s)
  | Num q => Num (- q)
  end.

Definition round_binary64 (q : Q) : number :=
  match (q ?= 0)%Q with
  | Eq => Num 0
  | Gt => round_pos q
  | Lt => number_neg (round_pos (- q))
  end.

(** [a < b] and [a <= b]: false as soon as one side is [NaN]. *)
Definition number_lt (a b : number) : bool :=
  match a, b with
  | NaN, _ | _, NaN => false
  | Num p, Num q => negb (Qle_bool q p)
  | Num _, Infinity s => negb s
  | Infinity s, Num _ => s
  | Infinity s, Infinity t => s && negb t
  end.

Definition number_le (a b : number) : bool :=
  match a, b with
  | NaN, _ | _, NaN => false
  | Num p, Num q => Qle_bool p q
  | Num _, Infinity s => negb s
  | Infinity s, Num _ => s
  | Infinity s, Infinity t => s || negb t
  end.

(** [a / b]. *)
Definition number_div (a b : number) : number :=
  match a, b with
  | NaN, _ | _, NaN => NaN
  | Infinity _, Infinity _ => NaN
  | Infinity s, Num q => Infinity (xorb s (negb (Qle_bool 0 q)))
  | Num _, Infinity _ => Num 0
  | Num p, Num q =>
      match (q ?= 0)%Q with
      | Eq => match (p ?= 0)%Q with
              | Eq => NaN
              | Gt => Infinity false
              | Lt => Infinity true
              end
      | _ => round_binary64 (p / q)
      end
  end.

(** [a - b] as the comparison function of [sort] uses it.  Only the sign
    of the result is inspected there, and the rounded difference of two
    binary64 values is negative, zero or positive exactly when the exact
    difference is, so the exact difference is kept. *)
Definition number_sub (a b : number) : number :=
  match a, b with
  | NaN, _ | _, NaN => NaN
  | Infinity s, Infinity t => if Bool.eqb s t then NaN else Infinity s
  | Infinity s, Num _ => Infinity s
  | Num _, Infinity t => Infinity (negb t)
  | Num p, Num q => Num (p - q)
  end.

(** [Math.round]: the integer closest to the argument, the larger one at
    a tie. *)
Definition Math_round (a : number) : number :=
  match a with
  | Num q => Num (inject_Z (Qfloor (q + (1 # 2))))
  | _ => a
  end.

Definition MAX_SAFE_INTEGER : number := Num (inject_Z (2 ^ 53 - 1)).

(** ** Numbers to strings *)

Local Open Scope string_scope.

(** Decimal digits of a natural number. *)
Definition decimal (n : Z) : string :=
  NilZero.string_of_uint (N.to_uint (Z.to_N n)).

Definition ten21 : Q := inject_Z (10 ^ 21).

Definition is_integer (q : Q) : bool := Qeq_bool q (inject_Z (Qfloor q)).

Section ToString.

(** The digit generation of [Number::toString] for values that are not
    integers below [10^21] in magnitude (shortest round-trip digits,
    exponent notation) belongs to the engine and is left open. *)
Variable shortest : Q -> string.

Definition Number_toString (a : number) : string :=
  match a with
  | NaN => "NaN"
  | Infinity false => "Infinity"
  | Infinity true => "-Infinity"
  | Num q =>
      if is_integer q && negb (Qle_bool ten21 (Qabs q)) then
        if Qle_bool 0 q then decimal (Qfloor q)
        else "-" ++ decimal (- Qfloor q)
      else shortest q
  end.

Fixpoint zeros (k : nat) : string :=
  match k with
  | O => ""
  | S k' => String "0" (zeros k')
  end.

(** [Number.prototype.toFixed (f)], steps of the standard: for a finite
    [x] below [10^21] in magnitude, [n] is the integer with [n / 10^f]
    closest to [|x|] (the larger at a tie), written in decimal, padded on
    the left to [f + 1] digits and split [f] digits from the right. *)
Definition toFixed (f : nat) (a : number) : string :=
  match a with
  | Num q =>
      if Qle_bool ten21 (Qabs q) then Number_toString a
      else
        let s := if Qle_bool 0 q then "" else "-" in
        let x := Qabs q in
        let n := Qfloor (x * inject_Z (10 ^ Z.of_nat f) + (1 # 2)) in
        let m := decimal n in
        let m := zeros (S f - String.length m) ++ m in
        let k := String.length m in
        match f with
        | O => s ++ m
        | _ => s ++ substring 0 (k - f) m ++ "." ++ substring (k - f) f m
        end
  | _ => Number_toString a
  end.

End ToString.

(** ** Values and truthiness *)

Inductive jsval : Type :=
| VUndefined
| VNull
| VBool (b : bool)
| VNumber (n : number)
| VString (s : string).

(** [ToBoolean]: what [!v] and [if (v)] look at. *)
Definition truthy (v : jsval) : bool :=
  match v with
  | VUndefined | VNull => false
  | VBool b => b
  | VNumber NaN => false
  | VNumber (Infinity _) => true
  | VNumber (Num q) => negb (Qeq_bool q 0)
  | VString s => negb (String.eqb s "")
  end.

(** [typeof v === 'number'] and [typeof v === 'boolean']. *)
Definition is_number (v : jsval) : bool :=
  match v with VNumber _ => true | _ => false end.

Definition is_boolean (v : jsval) : bool :=
  match v with VBool _ => true | _ => false end.

(** [const [a, b] = arr] binds the first two elements, [undefined] where
    the array is shorter. *)
Definition element (i : nat) (arr : list jsval) : jsval :=
  nth i arr VUndefined.

(** ** Dates

    A [Date] is its time value, milliseconds since the epoch.  Local time
    is taken at a fixed offset [tza] from UTC. *)

Definition msPerMinute : Z := 60000.
Definition msPerHour : Z := 3600000.
Definition msPerDay : Z := 86400000.

Definition Day (t : Z) : Z := t / msPerDay.
Definition HourFromTime (t : Z) : Z := (t / msPerHour) mod 24.
Definition MinFromTime (t : Z) : Z := (t / msPerMinute) mod 60.
Definition SecFromTime (t : Z) : Z := (t / 1000) mod 60.
Definition msFromTime (t : Z) : Z := t mod 1000.

Definition MakeTime (h m s ms : Z) : Z :=
  h * msPerHour + m * msPerMinute + s * 1000 + ms.
Definition MakeDate (day time : Z) : Z := day * msPerDay + time.

Section Dates.

Variable tza : Z.

Definition LocalTime (t : Z) : Z := t + tza.
Definition UTC (t : Z) : Z := t - tza.

(** [d.getMinutes()] *)
Definition getMinutes (t : Z) : Z := MinFromTime (LocalTime t).

(** [d.setMinutes(min)] *)
Definition setMinutes (t : Z) (min : Z) : Z :=
  let l := LocalTime t in
  UTC (MakeDate (Day l)
         (MakeTime (HourFromTime l) min (SecFromTime l) (msFromTime l))).

End Dates.

End JS.

(* ================================================================== *)
(** * Documents and the store *)
(* ================================================================== *)

(** An [ObjectId] is kept by its hexadecimal text, which is also what a
    template literal makes of it. *)
Definition ObjectId := string.

(** A GeoJSON point, [{ type: "Point", coordinates: [longitude, latitude] }];
    [coordinates] may be absent on a stored document. *)
Record GeoPoint : Type := mkGeoPoint {
  geo_type : string;
  coordinates : option (list JS.jsval)
}.

(** One entry of an order's [statusHistory]. *)
Record StatusEntry : Type := mkStatusEntry {
  entry_status : string;
  timestamp : Z;
  location : option GeoPoint;
  note : string
}.

Module Order.

Record t : Type := mk {
  _id : ObjectId;
  user : ObjectId;
  status : string;
  pickupLocation : option GeoPoint;
  deliveryAgent : option ObjectId;
  statusHistory : list StatusEntry;
  estimatedDeliveryTime : option Z;
  actualDeliveryTime : option Z;
  updatedAt : option Z
}.

Definition set_status (v : string) (o : t) : t :=
  mk (_id o) (user o) v (pickupLocation o) (deliveryAgent o)
     (statusHistory o) (estimatedDeliveryTime o) (actualDeliveryTime o)
     (updatedAt o).

Definition set_deliveryAgent (v : option ObjectId) (o : t) : t :=
  mk (_id o) (user o) (status o) (pickupLocation o) v
     (statusHistory o) (estimatedDeliveryTime o) (actualDeliveryTime o)
     (updatedAt o).

Definition set_estimatedDeliveryTime (v : option Z) (o : t) : t :=
  mk (_id o) (user o) (status o) (pickupLocation o) (deliveryAgent o)
     (statusHistory o) v (actualDeliveryTime o) (updatedAt o).

Definition set_actualDeliveryTime (v : option Z) (o : t) : t :=
  mk (_id o) (user o) (status o) (pickupLocation o) (deliveryAgent o)
     (statusHistory o) (estimatedDeliveryTime o) v (updatedAt o).

(** [order.statusHistory.push(e)] *)
Definition push_statusHistory (e : StatusEntry) (o : t) : t :=
  mk (_id o) (user o) (status o) (pickupLocation o) (deliveryAgent o)
     (statusHistory o ++ [e]) (estimatedDeliveryTime o)
     (actualDeliveryTime o) (updatedAt o).

End Order.

Module DeliveryAgent.

Record t : Type := mk {
  _id : ObjectId;
  user : ObjectId;
  vehicleType : JS.jsval;
  vehicleNumber : JS.jsval;
  isAvailable : bool;
  isVerified : bool;
  currentLocation : option GeoPoint;
  activeOrders : list ObjectId;
  rejectedOrders : option (list ObjectId);
  deliveryHistory : list ObjectId;
  rating : JS.number;
  totalRatings : JS.number
}.

Definition set_isAvailable (v : bool) (a : t) : t :=
  mk (_id a) (user a) (vehicleType a) (vehicleNumber a) v (isVerified a)
     (currentLocation a) (activeOrders a) (rejectedOrders a)
     (deliveryHistory a) (rating a) (totalRatings a).

Definition set_isVerified (v : bool) (a : t) : t :=
  mk (_id a) (user a) (vehicleType a) (vehicleNumber a) (isAvailable a) v
     (currentLocation a) (activeOrders a) (rejectedOrders a)
     (deliveryHistory a) (rating a) (totalRatings a).

Definition set_currentLocation (v : option GeoPoint) (a : t) : t :=
  mk (_id a) (user a) (vehicleType a) (vehicleNumber a) (isAvailable a)
     (isVerified a) v (activeOrders a) (rejectedOrders a)
     (deliveryHistory a) (rating a) (totalRatings a).

Definition set_activeOrders (v : list ObjectId) (a : t) : t :=
  mk (_id a) (user a) (vehicleType a) (vehicleNumber a) (isAvailable a)
     (isVerified a) (currentLocation a) v (rejectedOrders a)
     (deliveryHistory a) (rating a) (totalRatings a).

Definition set_rejectedOrders (v : option (list ObjectId)) (a : t) : t :=
  mk (_id a) (user a) (vehicleType a) (vehicleNumber a) (isAvailable a)
     (isVerified a) (currentLocation a) (activeOrders a) v
     (deliveryHistory a) (rating a) (totalRatings a).

Definition set_deliveryHistory (v : list ObjectId) (a : t) : t :=
  mk (_id a) (user a) (vehicleType a) (vehicleNumber a) (isAvailable a)
     (isVerified a) (currentLocation a) (activeOrders a)
     (rejectedOrders a) v (rating a) (totalRatings a).

(** [agent.activeOrders.push(id)] *)
Definition push_activeOrders (id : ObjectId) (a : t) : t :=
  set_activeOrders (activeOrders a ++ [id]) a.

(** [agent.deliveryHistory.push(id)] *)
Definition push_deliveryHistory (id : ObjectId) (a : t) : t :=
  set_deliveryHistory (deliveryHistory a ++ [id]) a.

(** [agent.rejectedOrders.push(id)], on an array that exists. *)
Definition push_rejectedOrders (id : ObjectId) (a : t) : t :=
  set_rejectedOrders
    (Some (match rejectedOrders a with
           | Some l => l ++ [id]
           | None => [id]
           end)) a.

End DeliveryAgent.

Module User.

Record t : Type := mk {
  _id : ObjectId;
  username : string;
  roles : list string
}.

End User.

(** The three collections, each in the natural order of its documents. *)
Record Store : Type := mkStore {
  orders : list Order.t;
  agents : list DeliveryAgent.t;
  users : list User.t
}.

Definition with_orders (l : list Order.t) (s : Store) : Store :=
  mkStore l (agents s) (users s).
Definition with_agents (l : list DeliveryAgent.t) (s : Store) : Store :=
  mkStore (orders s) l (users s).
Definition with_users (l : list User.t) (s : Store) : Store :=
  mkStore (orders s) (agents s) l.

(** How [doc.save()] writes a loaded document back.  Mongoose sends the
    modified paths only ([$set] for an assignment, [$push] for an array
    push), so a push lands on the array as stored at that moment; a store
    adapter that writes the whole loaded document is the other reading of
    [save].  Both are kept: they agree whenever the document did not
    change between its load and its save. *)
Inductive save_mode : Type := ModifiedPaths | WholeDocument.

Section Collections.

Variable doc : Type.
Variable id_of : doc -> ObjectId.

(** [Model.findOne(pred)] / [Model.findById(id)]: the first match. *)
Definition findOne (p : doc -> bool) (coll : list doc) : option doc :=
  find p coll.

Definition findById (id : ObjectId) (coll : list doc) : option doc :=
  find (fun d => String.eqb (id_of d) id) coll.

(** Apply [f] to the stored document with this id. *)
Fixpoint update_by_id (id : ObjectId) (f : doc -> doc) (coll : list doc)
  : list doc :=
  match coll with
  | [] => []
  | d :: rest =>
      if String.eqb (id_of d) id then f d :: rest
      else d :: update_by_id id f rest
  end.

(** [loaded.save()] after the in-memory changes [changes] were made to
    the document that was loaded as [loaded]. *)
Definition save (mode : save_mode) (loaded : doc) (changes : doc -> doc)
           (coll : list doc) : list doc :=
  update_by_id (id_of loaded)
    (match mode with
     | ModifiedPaths => changes
     | WholeDocument => fun _ => changes loaded
     end) coll.

End Collections.

(** [MongooseArray.prototype.includes] on object ids compares by value. *)
Definition includes (ids : list ObjectId) (id : ObjectId) : bool :=
  existsb (String.eqb id) ids.

(** [a.equals(b)] on object ids. *)
Definition equals (a b : ObjectId) : bool := String.eqb a b.

(* ================================================================== *)
(** * Responses and socket events *)
(* ================================================================== *)

(** [orderObj.distance] *)
Record Distance : Type := mkDistance {
  value : JS.number;
  unit : string;
  text : string;
  error : option string
}.

(** An order of the listing: the plain object of the order with its
    [distance] and, for a candidate, [withinDeliveryRange]. *)
Record Listed : Type := mkListed {
  order : Order.t;
  distance : Distance;
  withinDeliveryRange : option bool
}.

Inductive payload : Type :=
| P_agent (agent : DeliveryAgent.t)
| P_agents (count : nat) (agents : list DeliveryAgent.t)
| P_profile (agent : DeliveryAgent.t) (completedDeliveries : nat)
| P_location (currentLocation : option GeoPoint)
| P_order (order : Order.t)
| P_orderId (orderId : ObjectId)
| P_confirmed (count : nat) (orders : list Order.t)
| P_orders (count : nat) (includeAllConfirmed : bool)
           (maxDistance : JS.number) (orders : list Listed).

(** What a handler answers: [next(createError(code, message))], which the
    global error handler turns into a failure body, or
    [res.status(code).json({ success: true, message, ... })], the last
    also without a [message]. *)
Inductive response : Type :=
| Failure (statusCode : nat) (message : string)
| Success (statusCode : nat) (message : string) (body : payload)
| Plain (statusCode : nat) (body : payload).

Inductive event_data : Type :=
| DeliveryLocationUpdate (orderId agentId : ObjectId)
    (location : option GeoPoint) (timestamp : Z)
| OutForDelivery (orderId : ObjectId) (status : string)
    (estimatedDeliveryTime : Z) (agentId : ObjectId) (name : string)
    (vehicleType vehicleNumber : JS.jsval)
| Delivered (orderId : ObjectId) (status : string) (deliveredAt : option Z)
| OrderRoomUpdate (orderId : ObjectId) (status : string)
    (updatedAt : option Z) (latestStatus : option StatusEntry)
| OrderUpdate (orderId : ObjectId) (status : string) (updatedAt : option Z).

(** [io.to(room).emit(event, data)] *)
Record Emit : Type := mkEmit {
  room : string;
  event : string;
  data : event_data
}.

Record Outcome : Type := mkOutcome {
  answer : response;
  after : Store;
  emitted : list Emit
}.

(** The authenticated principal, [req.user]. *)
Record Principal : Type := mkPrincipal {
  id : ObjectId;
  username : string
}.

(** The successive results of [new Date()] during one handler run. *)
Definition clock := nat -> Z.

(* ================================================================== *)
(** * The delivery-agent controller *)
(* ================================================================== *)

Module Controller.

Import JS.
Local Open Scope string_scope.
Local Open Scope bool_scope.

Definition by_user (uid : ObjectId) (a : DeliveryAgent.t) : bool :=
  String.eqb (DeliveryAgent.user a) uid.

(** [DeliveryAgent.findOne({ user: req.user.id })] *)
Definition agent_of (req : Principal) (s : Store) : option DeliveryAgent.t :=
  findOne (by_user (id req)) (agents s).

Definition is_some {A : Type} (o : option A) : bool :=
  match o with Some _ => true | None => false end.

Section Handlers.

Variable mode : save_mode.

Definition save_order := save Order._id mode.
Definition save_agent := save DeliveryAgent._id mode.

(** ** registerAsDeliveryAgent

    [fresh] is the id the driver gives the new document; the paths the
    constructor call does not name start out empty. *)
Definition registerAsDeliveryAgent (req : Principal) (fresh : ObjectId)
           (vehicleType vehicleNumber : jsval) (s : Store) : Outcome :=
  match agent_of req s with
  | Some _ =>
      mkOutcome
        (Failure 400 "You are already registered as a delivery agent") s []
  | None =>
      let newAgent :=
        DeliveryAgent.mk fresh (id req) vehicleType vehicleNumber
          true false None [] (Some []) [] zero zero in
      let s1 := with_agents (agents s ++ [newAgent]) s in
      let addRole (u : User.t) :=
        if existsb (String.eqb "delivery_agent") (User.roles u) then u
        else User.mk (User._id u) (User.username u)
               (User.roles u ++ ["delivery_agent"]) in
      let s2 := with_users (update_by_id User._id (id req) addRole (users s1))
                  s1 in
      mkOutcome
        (Success 201
           "Registered as delivery agent successfully. Awaiting verification."
           (P_agent newAgent)) s2 []
  end.

(** ** updateAvailability *)
Definition updateAvailability (req : Principal) (isAvailable : jsval)
           (s : Store) : Outcome :=
  match isAvailable with
  | VBool b =>
      match agent_of req s with
      | None => mkOutcome (Failure 404 "Delivery agent profile not found") s []
      | Some agent =>
          let changes := DeliveryAgent.set_isAvailable b in
          mkOutcome
            (Success 200
               ("Availability updated to "
                  ++ (if b then "available" else "unavailable"))
               (P_agent (changes agent)))
            (with_agents (save_agent agent changes (agents s)) s) []
      end
  | _ => mkOutcome (Failure 400 "isAvailable must be a boolean value") s []
  end.

(** ** updateLocation *)

(** [Order.find({ _id: { $in: ids }, status: { $in: statuses } })] *)
Definition find_in (ids : list ObjectId) (statuses : list string)
           (coll : list Order.t) : list Order.t :=
  filter (fun o => includes ids (Order._id o)
                   && existsb (String.eqb (Order.status o)) statuses) coll.

(** The broadcast loop; the [i]-th order is stamped with the [i]-th
    reading of the clock. *)
Fixpoint locationUpdates (now : clock) (i : nat) (agent : DeliveryAgent.t)
         (os : list Order.t) : list Emit :=
  match os with
  | [] => []
  | o :: rest =>
      mkEmit ("order_" ++ Order._id o) "deliveryLocationUpdate"
        (DeliveryLocationUpdate (Order._id o) (DeliveryAgent._id agent)
           (DeliveryAgent.currentLocation agent) (now i))
      :: locationUpdates now (S i) agent rest
  end.

Definition updateLocation (req : Principal) (longitude latitude : jsval)
           (now : clock) (s : Store) : Outcome :=
  if negb (truthy longitude) || negb (truthy latitude)
     || negb (is_number longitude) || negb (is_number latitude)
  then mkOutcome
         (Failure 400 "Valid longitude and latitude coordinates are required")
         s []
  else
    match agent_of req s with
    | None => mkOutcome (Failure 404 "Delivery agent profile not found") s []
    | Some loaded =>
        let changes :=
          DeliveryAgent.set_currentLocation
            (Some (mkGeoPoint "Point" (Some [longitude; latitude]))) in
        let agent := changes loaded in
        let s1 := with_agents (save_agent loaded changes (agents s)) s in
        let broadcast :=
          match DeliveryAgent.activeOrders agent with
          | [] => []
          | _ :: _ =>
              locationUpdates now 0 agent
                (find_in (DeliveryAgent.activeOrders agent)
                   ["confirmed"; "preparing"; "out_for_delivery"]
                   (orders s1))
          end in
        mkOutcome
          (Success 200 "Location updated successfully"
             (P_location (DeliveryAgent.currentLocation agent)))
          s1 broadcast
    end.

(** ** getNearbyOrders *)

(** A computation that may throw: [inl message] is the thrown error. *)
Definition throws (A : Type) : Type := (string + A)%type.

(** [const [a, b] = loc.coordinates]: a [TypeError] when [loc] or its
    [coordinates] is missing. *)
Definition destructure (loc : option GeoPoint) : throws (jsval * jsval) :=
  match loc with
  | None => inl "Cannot read properties of undefined (reading 'coordinates')"
  | Some p =>
      match coordinates p with
      | None => inl "undefined is not iterable"
      | Some arr => inr (element 0 arr, element 1 arr)
      end
  end.

(** [calculateDistance (lat1, lon1, lat2, lon2)] is called by the handler
    and is neither defined nor imported in the controller; it is left
    open, free to return a number or to throw. *)
Variable calculateDistance : jsval -> jsval -> jsval -> jsval -> throws number.

(** The store's [$near] test of a pickup location against a centre
    [[longitude, latitude]] and a [$maxDistance]. *)
Variable geoNear : list jsval -> number -> Order.t -> bool.

Variable shortest : Q -> string.

Definition maxDistance : number := Num 2000.

(** The [text] of a distance. *)
Definition distance_text (exactDistance : number) : string :=
  if number_lt exactDistance (Num 1000)
  then Number_toString shortest (Math_round exactDistance) ++ " m"
  else toFixed shortest 2 (number_div exactDistance (Num 1000)) ++ " km".

Definition exact_distance (latitude longitude : jsval) (o : Order.t)
  : throws number :=
  match destructure (Order.pickupLocation o) with
  | inl e => inl e
  | inr (orderLongitude, orderLatitude) =>
      calculateDistance latitude longitude orderLatitude orderLongitude
  end.

(** The callback of [allConfirmedOrders.map], with its [try]/[catch]. *)
Definition with_distance (latitude longitude : jsval) (o : Order.t)
  : Listed :=
  match exact_distance latitude longitude o with
  | inr exactDistance =>
      mkListed o
        (mkDistance exactDistance "meters" (distance_text exactDistance) None)
        (Some (number_le exactDistance maxDistance))
  | inl _ =>
      mkListed o
        (mkDistance MAX_SAFE_INTEGER "meters" "Unknown"
           (Some "Invalid coordinates"))
        (Some false)
  end.

(** [Array.prototype.sort (comparefn)]: stable; [a] goes after [b] when
    [comparefn a b > 0], and a [NaN] result counts as [0].  (Where the
    comparison function is not a consistent ordering the engine is free
    in the order it produces.) *)
Section Sort.
Variable A : Type.
Variable comparefn : A -> A -> number.

Definition goes_after (a b : A) : bool := number_lt zero (comparefn a b).

Fixpoint insert (x : A) (l : list A) : list A :=
  match l with
  | [] => [x]
  | y :: rest => if goes_after x y then y :: insert x rest else x :: l
  end.

Fixpoint sort (l : list A) : list A :=
  match l with
  | [] => []
  | x :: rest => insert x (sort rest)
  end.
End Sort.

Definition by_distance (a b : Listed) : number :=
  number_sub (value (distance a)) (value (distance b)).

(** [Order.find(orderQuery)] *)
Definition candidate (rejectedOrderIds : list ObjectId)
           (includeAllConfirmed : bool) (longitude latitude : jsval)
           (o : Order.t) : bool :=
  negb (includes rejectedOrderIds (Order._id o))
  && negb (is_some (Order.deliveryAgent o))
  && String.eqb (Order.status o) "confirmed"
  && (includeAllConfirmed || geoNear [longitude; latitude] maxDistance o).

(** The candidates, annotated and ranked. *)
Definition ordersWithDistance (rejectedOrderIds : list ObjectId)
           (includeAllConfirmed : bool) (longitude latitude : jsval)
           (s : Store) : list Listed :=
  sort by_distance
    (map (with_distance latitude longitude)
       (filter (candidate rejectedOrderIds includeAllConfirmed
                  longitude latitude) (orders s))).

(** The callbacks of [activeOrders.map] under [Promise.all]: no
    [catch] here, the first error rejects the whole. *)
Fixpoint activeOrdersWithDistance (latitude longitude : jsval)
         (os : list Order.t) : throws (list Listed) :=
  match os with
  | [] => inr []
  | o :: rest =>
      match exact_distance latitude longitude o with
      | inl e => inl e
      | inr exactDistance =>
          match activeOrdersWithDistance latitude longitude rest with
          | inl e => inl e
          | inr l =>
              inr (mkListed o
                     (mkDistance exactDistance "meters"
                        (distance_text exactDistance) None) None :: l)
          end
      end
  end.

Definition getNearbyOrders (req : Principal) (includeAllQuery : jsval)
           (s : Store) : Outcome :=
  let includeAllConfirmed :=
    match includeAllQuery with
    | VString q => String.eqb q "true"
    | _ => false
    end in
  match agent_of req s with
  | None => mkOutcome (Failure 404 "Delivery agent profile not found") s []
  | Some agent =>
      if negb (DeliveryAgent.isVerified agent) then
        mkOutcome
          (Failure 403 "Your account is not yet verified to accept orders")
          s []
      else if negb (DeliveryAgent.isAvailable agent) then
        mkOutcome
          (Failure 400 "You are currently set as unavailable for deliveries")
          s []
      else
        match destructure (DeliveryAgent.currentLocation agent) with
        | inl e =>
            mkOutcome (Failure 500 ("Error fetching nearby orders: " ++ e))
              s []
        | inr (longitude, latitude) =>
            let rejectedOrderIds :=
              match DeliveryAgent.rejectedOrders agent with
              | Some l => l
              | None => []
              end in
            let ranked :=
              ordersWithDistance rejectedOrderIds includeAllConfirmed
                longitude latitude s in
            let activeOrders :=
              find_in (DeliveryAgent.activeOrders agent)
                ["out_for_delivery"] (orders s) in
            match activeOrdersWithDistance latitude longitude activeOrders
            with
            | inl e =>
                mkOutcome
                  (Failure 500 ("Error fetching nearby orders: " ++ e)) s []
            | inr active =>
                let allOrders := (ranked ++ active)%list in
                mkOutcome
                  (Success 200
                     (if includeAllConfirmed
                      then "All confirmed orders fetched successfully"
                      else "Nearby orders fetched successfully")
                     (P_orders (List.length allOrders) includeAllConfirmed
                        maxDistance allOrders))
                  s []
            end
        end
  end.

(** ** acceptOrder *)

(** Offset of local time from UTC, in milliseconds. *)
Variable tza : Z.

(** [d = new Date(); d.setMinutes(d.getMinutes() + 30)] *)
Definition in_30_minutes (d : Z) : Z :=
  setMinutes tza d (getMinutes tza d + 30).

(** The assignments and the push made on the loaded order. *)
Definition accept_changes (req : Principal) (agent : DeliveryAgent.t)
           (estimatedDeliveryTime : Z) (stamp : Z) (o : Order.t) : Order.t :=
  Order.push_statusHistory
    (mkStatusEntry "out_for_delivery" stamp
       (DeliveryAgent.currentLocation agent)
       ("Assigned to delivery agent: " ++ username req))
    (Order.set_estimatedDeliveryTime (Some estimatedDeliveryTime)
       (Order.set_status "out_for_delivery"
          (Order.set_deliveryAgent (Some (DeliveryAgent._id agent)) o))).

Definition accept_notice (req : Principal) (agent : DeliveryAgent.t)
           (estimatedDeliveryTime : Z) (o : Order.t) : Emit :=
  mkEmit ("user_" ++ Order.user o) "orderStatusUpdate"
    (OutForDelivery (Order._id o) "out_for_delivery" estimatedDeliveryTime
       (DeliveryAgent._id agent) (username req)
       (DeliveryAgent.vehicleType agent) (DeliveryAgent.vehicleNumber agent)).

Definition acceptOrder (req : Principal) (orderId : ObjectId) (now : clock)
           (s : Store) : Outcome :=
  match agent_of req s with
  | None => mkOutcome (Failure 404 "Delivery agent profile not found") s []
  | Some agent =>
      if negb (DeliveryAgent.isVerified agent) then
        mkOutcome
          (Failure 403 "Your account is not yet verified to accept orders")
          s []
      else if negb (DeliveryAgent.isAvailable agent) then
        mkOutcome
          (Failure 400
             "You need to set yourself as available to accept orders") s []
      else
        match findById Order._id orderId (orders s) with
        | None => mkOutcome (Failure 404 "Order not found") s []
        | Some loaded =>
            if is_some (Order.deliveryAgent loaded) then
              mkOutcome
                (Failure 400
                   "This order has already been assigned to a delivery agent")
                s []
            else if negb (String.eqb (Order.status loaded) "confirmed") then
              mkOutcome (Failure 400 "Order is not available for delivery")
                s []
            else
              let estimatedDeliveryTime := in_30_minutes (now 0%nat) in
              let changes :=
                accept_changes req agent estimatedDeliveryTime (now 1%nat) in
              let order := changes loaded in
              let s1 :=
                with_orders (save_order loaded changes (orders s)) s in
              let s2 :=
                with_agents
                  (save_agent agent
                     (DeliveryAgent.push_activeOrders (Order._id order))
                     (agents s1)) s1 in
              mkOutcome
                (Success 200 "Order accepted for delivery" (P_order order))
                s2 [accept_notice req agent estimatedDeliveryTime order]
        end
  end.

(** ** completeDelivery *)

Definition complete_changes (agent : DeliveryAgent.t)
           (actualDeliveryTime : Z) (stamp : Z) (o : Order.t) : Order.t :=
  Order.push_statusHistory
    (mkStatusEntry "delivered" stamp (DeliveryAgent.currentLocation agent)
       "Order delivered successfully")
    (Order.set_actualDeliveryTime (Some actualDeliveryTime)
       (Order.set_status "delivered" o)).

(** The agent's records: [activeOrders] is assigned the filtered copy of
    the loaded array, [deliveryHistory] is pushed to. *)
Definition complete_agent_changes (loaded : DeliveryAgent.t)
           (orderId : ObjectId) (a : DeliveryAgent.t) : DeliveryAgent.t :=
  DeliveryAgent.push_deliveryHistory orderId
    (DeliveryAgent.set_activeOrders
       (filter (fun i => negb (equals i orderId))
          (DeliveryAgent.activeOrders loaded)) a).

Definition completeDelivery (req : Principal) (orderId : ObjectId)
           (now : clock) (s : Store) : Outcome :=
  match agent_of req s with
  | None => mkOutcome (Failure 404 "Delivery agent profile not found") s []
  | Some agent =>
      match findById Order._id orderId (orders s) with
      | None => mkOutcome (Failure 404 "Order not found") s []
      | Some loaded =>
          if match Order.deliveryAgent loaded with
             | None => true
             | Some assigned =>
                 negb (equals assigned (DeliveryAgent._id agent))
             end
          then
            mkOutcome (Failure 403 "This order is not assigned to you") s []
          else if negb (String.eqb (Order.status loaded) "out_for_delivery")
          then mkOutcome (Failure 400 "Order is not out for delivery") s []
          else
            let changes :=
              complete_changes agent (now 0%nat) (now 1%nat) in
            let order := changes loaded in
            let s1 := with_orders (save_order loaded changes (orders s)) s in
            let s2 :=
              with_agents
                (save_agent agent
                   (complete_agent_changes agent (Order._id order))
                   (agents s1)) s1 in
            mkOutcome
              (Success 200 "Delivery completed successfully" (P_order order))
              s2
              [mkEmit ("user_" ++ Order.user order) "orderStatusUpdate"
                 (Delivered (Order._id order) "delivered"
                    (Order.actualDeliveryTime order))]
      end
  end.

(** ** getAgentProfile, getAllAgents, getConfirmedOrders *)

Definition getAgentProfile (req : Principal) (s : Store) : Outcome :=
  match agent_of req s with
  | None => mkOutcome (Failure 404 "Delivery agent profile not found") s []
  | Some agent =>
      mkOutcome
        (Plain 200
           (P_profile agent
              (List.length (DeliveryAgent.deliveryHistory agent)))) s []
  end.

Definition getAllAgents (s : Store) : Outcome :=
  mkOutcome
    (Plain 200 (P_agents (List.length (agents s)) (agents s))) s [].

Definition getConfirmedOrders (req : Principal) (s : Store) : Outcome :=
  match agent_of req s with
  | None => mkOutcome (Failure 404 "Delivery agent profile not found") s []
  | Some _ =>
      let confirmedOrders :=
        filter (fun o => String.eqb (Order.status o) "confirmed"
                         && negb (is_some (Order.deliveryAgent o)))
          (orders s) in
      mkOutcome
        (Success 200 "Confirmed orders fetched successfully"
           (P_confirmed (List.length confirmedOrders) confirmedOrders)) s []
  end.

(** ** verifyDeliveryAgent *)

Definition verifyDeliveryAgent (agentId : ObjectId) (isVerified : jsval)
           (s : Store) : Outcome :=
  match isVerified with
  | VBool b =>
      match findById DeliveryAgent._id agentId (agents s) with
      | None => mkOutcome (Failure 404 "Delivery agent not found") s []
      | Some agent =>
          let changes := DeliveryAgent.set_isVerified b in
          mkOutcome
            (Success 200
               ("Agent " ++ (if b then "verified" else "unverified")
                  ++ " successfully")
               (P_agent (changes agent)))
            (with_agents (save_agent agent changes (agents s)) s) []
      end
  | _ => mkOutcome (Failure 400 "isVerified must be a boolean value") s []
  end.

(** ** rejectOrder *)

(** The agent's list after [if (!agent.rejectedOrders) agent.rejectedOrders = []]. *)
Definition rejected_or_empty (a : DeliveryAgent.t) : list ObjectId :=
  match DeliveryAgent.rejectedOrders a with
  | Some l => l
  | None => []
  end.

(** What [save] has to write: the whole array when it was just created,
    a push otherwise. *)
Definition reject_changes (loaded : DeliveryAgent.t) (orderId : ObjectId)
           (a : DeliveryAgent.t) : DeliveryAgent.t :=
  match DeliveryAgent.rejectedOrders loaded with
  | None => DeliveryAgent.set_rejectedOrders (Some [orderId]) a
  | Some _ => DeliveryAgent.push_rejectedOrders orderId a
  end.

Definition rejectOrder (req : Principal) (orderId : ObjectId) (s : Store)
  : Outcome :=
  match agent_of req s with
  | None => mkOutcome (Failure 404 "Delivery agent profile not found") s []
  | Some agent =>
      if negb (DeliveryAgent.isVerified agent) then
        mkOutcome
          (Failure 403 "Your account is not yet verified to reject orders")
          s []
      else if negb (DeliveryAgent.isAvailable agent) then
        mkOutcome
          (Failure 400
             "You need to set yourself as available to manage orders") s []
      else
        match findById Order._id orderId (orders s) with
        | None => mkOutcome (Failure 404 "Order not found") s []
        | Some order =>
            if is_some (Order.deliveryAgent order) then
              mkOutcome
                (Failure 400
                   "This order has already been assigned to a delivery agent")
                s []
            else
              let s1 :=
                if negb (includes (rejected_or_empty agent) (Order._id order))
                then
                  with_agents
                    (save_agent agent
                       (reject_changes agent (Order._id order)) (agents s)) s
                else s in
              mkOutcome
                (Success 200 "Order rejected successfully"
                   (P_orderId (Order._id order))) s1 []
        end
  end.

End Handlers.

(** ** The distance function as the module has it

    The handler calls [calculateDistance], a name that the module neither
    declares nor imports: the reference does not resolve and the call
    throws [ReferenceError: calculateDistance is not defined] before
    anything is computed. *)
Definition not_defined (name : string) : string := name ++ " is not defined".

Definition calculateDistance_as_written (lat1 lon1 lat2 lon2 : jsval)
  : throws number :=
  inl (not_defined "calculateDistance").

End Controller.

(* ================================================================== *)
(** * Requests *)
(* ================================================================== *)

(** The routes of the controller, as one type of requests. *)
Inductive request : Type :=
| Register (req : Principal) (fresh : ObjectId)
    (vehicleType vehicleNumber : JS.jsval)
| UpdateAvailability (req : Principal) (isAvailable : JS.jsval)
| UpdateLocation (req : Principal) (longitude latitude : JS.jsval)
| GetNearbyOrders (req : Principal) (includeAllConfirmed : JS.jsval)
| AcceptOrder (req : Principal) (orderId : ObjectId)
| CompleteDelivery (req : Principal) (orderId : ObjectId)
| GetAgentProfile (req : Principal)
| VerifyDeliveryAgent (agentId : ObjectId) (isVerified : JS.jsval)
| GetAllAgents
| GetConfirmedOrders (req : Principal)
| RejectOrder (req : Principal) (orderId : ObjectId).

(** What the handlers take from their surroundings. *)
Record Platform : Type := mkPlatform {
  mode : save_mode;
  tza : Z;
  shortest : Q -> string;
  calculateDistance :
    JS.jsval -> JS.jsval -> JS.jsval -> JS.jsval -> Controller.throws JS.number;
  geoNear : list JS.jsval -> JS.number -> Order.t -> bool
}.

Definition handle (P : Platform) (r : request) (now : clock) (s : Store)
  : Outcome :=
  match r with
  | Register req fresh vt vn =>
      Controller.registerAsDeliveryAgent req fresh vt vn s
  | UpdateAvailability req v => Controller.updateAvailability (mode P) req v s
  | UpdateLocation req lon lat =>
      Controller.updateLocation (mode P) req lon lat now s
  | GetNearbyOrders req q =>
      Controller.getNearbyOrders (calculateDistance P) (geoNear P)
        (shortest P) req q s
  | AcceptOrder req orderId =>
      Controller.acceptOrder (mode P) (tza P) req orderId now s
  | CompleteDelivery req orderId =>
      Controller.completeDelivery (mode P) req orderId now s
  | GetAgentProfile req => Controller.getAgentProfile req s
  | VerifyDeliveryAgent agentId v =>
      Controller.verifyDeliveryAgent (mode P) agentId v s
  | GetAllAgents => Controller.getAllAgents s
  | GetConfirmedOrders req => Controller.getConfirmedOrders req s
  | RejectOrder req orderId => Controller.rejectOrder (mode P) req orderId s
  end.

(** Requests served one after the other, each with its own clock. *)
Fixpoint serve (P : Platform) (rs : list (request * clock)) (s : Store)
  : Store :=
  match rs with
  | [] => s
  | (r, now) :: rest => serve P rest (after (handle P r now s))
  end.

(* ================================================================== *)
(** * acceptOrder between its awaits *)
(* ================================================================== *)

(** A handler runs alone from one [await] to the next and is suspended at
    each; other requests run meanwhile.  [acceptOrder] has four awaits
    ([DeliveryAgent.findOne], [Order.findById], [order.save()],
    [agent.save()]).  A step below is the store operation awaited for,
    followed by the code up to the next [await]. *)
Module Interleaving.

Import JS Controller.
Local Open Scope string_scope.
Local Open Scope bool_scope.

Inductive accept_state : Type :=
| Received
    (* awaiting [DeliveryAgent.findOne] *)
| FindingOrder (agent : DeliveryAgent.t)
    (* awaiting [Order.findById] *)
| SavingOrder (agent : DeliveryAgent.t) (loaded : Order.t)
    (estimatedDeliveryTime stamp : Z)
    (* the order is changed in memory; awaiting [order.save()] *)
| SavingAgent (agent : DeliveryAgent.t) (order : Order.t)
    (estimatedDeliveryTime : Z)
    (* the order is pushed to [agent.activeOrders]; awaiting [agent.save()] *)
| Responded (answer : response) (emitted : list Emit).

Section Steps.

Variable mode : save_mode.
Variable tza : Z.

Definition accept_step (req : Principal) (orderId : ObjectId) (now : clock)
           (s : Store) (st : accept_state) : Store * accept_state :=
  match st with
  | Received =>
      match agent_of req s with
      | None =>
          (s, Responded (Failure 404 "Delivery agent profile not found") [])
      | Some agent =>
          if negb (DeliveryAgent.isVerified agent) then
            (s, Responded
                  (Failure 403
                     "Your account is not yet verified to accept orders") [])
          else if negb (DeliveryAgent.isAvailable agent) then
            (s, Responded
                  (Failure 400
                     "You need to set yourself as available to accept orders")
                  [])
          else (s, FindingOrder agent)
      end
  | FindingOrder agent =>
      match findById Order._id orderId (orders s) with
      | None => (s, Responded (Failure 404 "Order not found") [])
      | Some loaded =>
          if is_some (Order.deliveryAgent loaded) then
            (s, Responded
                  (Failure 400
                     "This order has already been assigned to a delivery agent")
                  [])
          else if negb (String.eqb (Order.status loaded) "confirmed") then
            (s, Responded (Failure 400 "Order is not available for delivery")
                  [])
          else
            (s, SavingOrder agent loaded (in_30_minutes tza (now 0%nat))
                  (now 1%nat))
      end
  | SavingOrder agent loaded estimatedDeliveryTime stamp =>
      let changes := accept_changes req agent estimatedDeliveryTime stamp in
      (with_orders (save_order mode loaded changes (orders s)) s,
       SavingAgent agent (changes loaded) estimatedDeliveryTime)
  | SavingAgent agent order estimatedDeliveryTime =>
      (with_agents
         (save_agent mode agent
            (DeliveryAgent.push_activeOrders (Order._id order)) (agents s)) s,
       Responded (Success 200 "Order accepted for delivery" (P_order order))
         [accept_notice req agent estimatedDeliveryTime order])
  | Responded _ _ => (s, st)
  end.

(** [n] steps of one attempt, nobody else moving. *)
Fixpoint steps (n : nat) (req : Principal) (orderId : ObjectId)
         (now : clock) (s : Store) (st : accept_state)
  : Store * accept_state :=
  match n with
  | O => (s, st)
  | S k =>
      let (s', st') := accept_step req orderId now s st in
      steps k req orderId now s' st'
  end.

(** A request in flight. *)
Record Attempt : Type := mkAttempt {
  who : Principal;
  target : ObjectId;
  now : clock;
  state : accept_state
}.

Definition start (req : Principal) (orderId : ObjectId) (now : clock)
  : Attempt := mkAttempt req orderId now Received.

(** The [i]-th attempt makes its next step. *)
Fixpoint step_nth (i : nat) (s : Store) (rs : list Attempt)
  : Store * list Attempt :=
  match rs with
  | [] => (s, [])
  | r :: rest =>
      match i with
      | O =>
          let (s', st') := accept_step (who r) (target r) (now r) s (state r) in
          (s', mkAttempt (who r) (target r) (now r) st' :: rest)
      | S j =>
          let (s', rest') := step_nth j s rest in
          (s', r :: rest')
      end
  end.

(** A schedule names the attempt that moves next. *)
Fixpoint run (schedule : list nat) (s : Store) (rs : list Attempt)
  : Store * list Attempt :=
  match schedule with
  | [] => (s, rs)
  | i :: later =>
      let (s', rs') := step_nth i s rs in
      run later s' rs'
  end.

Definition succeeded (r : Attempt) : bool :=
  match state r with
  | Responded (Success _ _ _) _ => true
  | _ => false
  end.

Definition conflicted (r : Attempt) : bool :=
  match state r with
  | Responded
      (Failure 400 "This order has already been assigned to a delivery agent")
      _ => true
  | _ => false
  end.

End Steps.

End Interleaving.

(* ================================================================== *)
(** * The order change feed *)
(* ================================================================== *)

Module ChangeStreams.

Local Open Scope string_scope.
Local Open Scope bool_scope.

(** A change event of the stream. *)
Record Change : Type := mkChange {
  operationType : string;
  fullDocument : option Order.t
}.

(** [order.statusHistory[order.statusHistory.length - 1]], or [null]. *)
Definition latest (h : list StatusEntry) : option StatusEntry :=
  match h with
  | [] => None
  | e :: rest => Some (last rest e)
  end.

(** The listener of ['change']. *)
Definition on_change (change : Change) : list Emit :=
  if String.eqb (operationType change) "update"
     || String.eqb (operationType change) "insert"
     || String.eqb (operationType change) "replace"
  then
    match fullDocument change with
    | None => []
    | Some order =>
        [ mkEmit ("order_" ++ Order._id order) "orderUpdate"
            (OrderRoomUpdate (Order._id order) (Order.status order)
               (Order.updatedAt order) (latest (Order.statusHistory order)));
          mkEmit ("user_" ++ Order.user order) "orderUpdate"
            (OrderUpdate (Order._id order) (Order.status order)
               (Order.updatedAt order)) ]
        ++ match Order.deliveryAgent order with
           | Some agentId =>
               [ mkEmit ("agent_" ++ agentId) "orderUpdate"
                   (OrderUpdate (Order._id order) (Order.status order)
                      (Order.updatedAt order)) ]
           | None => []
           end
    end
  else [].

(** ** The watcher

    [orderChangeStream] is the module's global variable; a stream is named
    by the number [Order.watch] gave it.  [watching] are the streams that
    are open, each with the three listeners of [createOrderChangeStream];
    [timers] are the due times of the pending
    [setTimeout(createOrderChangeStream, 5000)]; [readyState] is
    [mongoose.connection.readyState]. *)
Record Watcher : Type := mkWatcher {
  orderChangeStream : option nat;
  readyState : nat;
  watching : list nat;
  created : nat;
  timers : list Z
}.

Definition delay : Z := 5000.

Definition setTimeout (due : Z) (w : Watcher) : Watcher :=
  mkWatcher (orderChangeStream w) (readyState w) (watching w) (created w)
    (timers w ++ [due]).

(** The listener of ['close']. *)
Definition on_close (time : Z) (w : Watcher) : Watcher :=
  if Nat.eqb (readyState w) 1 then setTimeout (time + delay)%Z w else w.

(** The listener of ['error']. *)
Definition on_error (time : Z) (w : Watcher) : Watcher :=
  setTimeout (time + delay)%Z w.

Definition unwatch (h : nat) (w : Watcher) : Watcher :=
  mkWatcher (orderChangeStream w) (readyState w)
    (filter (fun k => negb (Nat.eqb k h)) (watching w)) (created w) (timers w).

(** A stream that ends, by [stream.close()] or by itself: the driver
    emits ['close'] on an open stream, once, and its listener runs. *)
Definition closes (h : nat) (time : Z) (w : Watcher) : Watcher :=
  if existsb (Nat.eqb h) (watching w) then on_close time (unwatch h w) else w.

(** [createOrderChangeStream]; [watch_throws] tells whether [Order.watch]
    throws this time.  The result is the function's [true] or [false]. *)
Definition createOrderChangeStream (watch_throws : bool) (time : Z)
           (w : Watcher) : Watcher * bool :=
  let w1 :=
    match orderChangeStream w with
    | Some h => closes h time w
    | None => w
    end in
  if watch_throws then (setTimeout (time + delay)%Z w1, false)
  else
    (mkWatcher (Some (created w1)) (readyState w1)
       (watching w1 ++ [created w1]) (S (created w1)) (timers w1), true).

(** [closeChangeStreams] *)
Definition closeChangeStreams (time : Z) (w : Watcher) : Watcher :=
  match orderChangeStream w with
  | Some h =>
      let w1 := closes h time w in
      mkWatcher None (readyState w1) (watching w1) (created w1) (timers w1)
  | None => w
  end.

(** What happens to the watcher. *)
Inductive occurrence : Type :=
| StreamCloses (h : nat)      (* the feed ends a stream by itself *)
| StreamErrors (h : nat)      (* the feed reports an error on a stream *)
| Connected (watch_throws : bool)
                              (* [mongoose.connection] emits ['connected'] *)
| Disconnected                (* ... emits ['disconnected'] *)
| TimerFires (watch_throws : bool)   (* the first pending timer is due *)
| Shutdown.                   (* [gracefulShutdown] calls [closeChangeStreams] *)

Definition react (time : Z) (o : occurrence) (w : Watcher) : Watcher :=
  match o with
  | StreamCloses h => closes h time w
  | StreamErrors h =>
      if existsb (Nat.eqb h) (watching w) then on_error time w else w
  | Connected watch_throws =>
      fst (createOrderChangeStream watch_throws time
             (mkWatcher (orderChangeStream w) 1 (watching w) (created w)
                (timers w)))
  | Disconnected =>
      mkWatcher (orderChangeStream w) 0 (watching w) (created w) (timers w)
  | TimerFires watch_throws =>
      match timers w with
      | [] => w
      | _ :: pending =>
          fst (createOrderChangeStream watch_throws time
                 (mkWatcher (orderChangeStream w) (readyState w) (watching w)
                    (created w) pending))
      end
  | Shutdown => closeChangeStreams time w
  end.

(** A history of the watcher: occurrences with their times. *)
Fixpoint history (os : list (Z * occurrence)) (w : Watcher) : Watcher :=
  match os with
  | [] => w
  | (time, o) :: later => history later (react time o w)
  end.

(** [Order.watch] was called [created w] times. *)
Definition reconnects_between (w w' : Watcher) : nat := created w' - created w.

End ChangeStreams.

(* ================================================================== *)
(** * The authentication middleware *)
(* ================================================================== *)

(** [src/middlewares/isAuthenticated.js], the first of the two versions
    in the file. *)
Module Auth.

Local Open Scope string_scope.
Local Open Scope bool_scope.

(** The user document, with the paths the middleware reads. *)
Record UserDoc : Type := mkUserDoc {
  _id : ObjectId;
  username : string;
  email : JS.jsval;
  isAdmin : JS.jsval
}.

(** What the middleware reads of the request:
    [req.headers.authorization] and [req.cookies?.token]. *)
Record Request : Type := mkRequest {
  authorization : option string;
  cookie_token : option string
}.

(** [req.user] *)
Record ReqUser : Type := mkReqUser {
  id : ObjectId;
  name : string;
  mail : JS.jsval;
  admin : JS.jsval
}.

(** The middleware answers itself, [res.status(code).json({ success:
    false, statusCode: code, message })], or sets [req.id] and [req.user]
    and calls [next()]. *)
Inductive result : Type :=
| Answered (statusCode : nat) (message : string)
| Next (req_id : option ObjectId) (user : ReqUser).

(** [s.substring (7)] *)
Definition substring7 (s : string) : string :=
  substring 7 (String.length s - 7) s.

(** A string that is not empty, what [if (s)] tests on a string. *)
Definition nonempty (s : string) : bool := negb (String.eqb s "").

Definition fallback : string := "fallback-secret-key-for-development".

Section Middleware.

(** [jwt.verify (token, key)]: [None] when it throws, otherwise the
    [userId] of the decoded payload, which may be missing. *)
Variable jwt_verify : string -> string -> option (option ObjectId).

(** [User.findById (id)], which may throw. *)
Variable User_findById :
  option ObjectId -> Controller.throws (option UserDoc).

(** [process.env.SECRET_KEY] *)
Variable SECRET_KEY : option string.

(** The token the request carries, as the two branches find it. *)
Definition token_of (req : Request) : option string :=
  let from_cookie :=
    match cookie_token req with
    | Some c => if nonempty c then Some c else None
    | None => None
    end in
  match authorization req with
  | Some authHeader =>
      if nonempty authHeader && prefix "Bearer " authHeader
      then Some (substring7 authHeader)
      else from_cookie
  | None => from_cookie
  end.

(** [process.env.SECRET_KEY || 'fallback-secret-key-for-development'] *)
Definition secretKey : string :=
  match SECRET_KEY with
  | Some k => if nonempty k then k else fallback
  | None => fallback
  end.

Definition isAuthenticated (req : Request) : result :=
  match token_of req with
  | None => Answered 401 "You are not authenticated"
  | Some token =>
      if negb (nonempty token) then Answered 401 "You are not authenticated"
      else
        match jwt_verify token secretKey with
        | None => Answered 401 "Invalid or expired token"
        | Some userId =>
            match User_findById userId with
            | inl _ => Answered 401 "Authentication failed"
            | inr None => Answered 404 "User not found"
            | inr (Some user) =>
                Next userId
                  (mkReqUser (_id user) (username user) (email user)
                     (if JS.truthy (isAdmin user) then isAdmin user
                      else JS.VBool false))
            end
        end
  end.

End Middleware.

End Auth.

(* ================================================================== *)
(** * The origins the server lets in *)
(* ================================================================== *)

(** The [origin] function given to [cors] in [src/index.js]. *)
Module Cors.

Local Open Scope string_scope.

Definition allowedOrigins : list string :=
  [ "https://food-delivery-frontend-r4bs.vercel.app";
    "https://food-delivery-frontend.vercel.app";
    "http://localhost:5173";
    "http://localhost:3000" ].

(** [allowedOrigins.indexOf (origin) !== -1] *)
Definition listed (origin : string) : bool :=
  existsb (String.eqb origin) allowedOrigins.

(** What the function does with an origin, [None] being a request
    without one: the second argument it gives to [callback], and whether
    it wrote the warning. *)
Definition origin (o : option string) : bool * bool :=
  match o with
  | None => (true, false)
  | Some origin =>
      if String.eqb origin "" then (true, false)
      else if listed origin then (true, false)
      else (true, true)
  end.

End Cors.

(* ================================================================== *)
(** * Sample data *)
(* ================================================================== *)

Module Sample.

Import JS.
Local Open Scope string_scope.

Definition bangalore : GeoPoint :=
  mkGeoPoint "Point"
    (Some [VNumber (Num (775946 # 10000)); VNumber (Num (129716 # 10000))]).

Definition delhi : GeoPoint :=
  mkGeoPoint "Point"
    (Some [VNumber (Num (772090 # 10000)); VNumber (Num (286139 # 10000))]).

Definition asha : Principal := mkPrincipal "u1" "asha".
Definition ravi : Principal := mkPrincipal "u2" "ravi".

Definition agentA : DeliveryAgent.t :=
  DeliveryAgent.mk "a1" "u1" (VString "bike") (VString "KA01") true true
    (Some bangalore) [] (Some []) [] zero zero.

Definition agentB : DeliveryAgent.t :=
  DeliveryAgent.mk "a2" "u2" (VString "scooter") (VString "KA02") true true
    (Some bangalore) [] (Some []) [] zero zero.

Definition placed : StatusEntry :=
  mkStatusEntry "confirmed" 1000 None "Order confirmed".

(** A confirmed order that nobody has taken. *)
Definition order1 : Order.t :=
  Order.mk "o1" "u9" "confirmed" (Some bangalore) None [placed] None None
    (Some 1000%Z).

(** A confirmed order far away. *)
Definition order2 : Order.t :=
  Order.mk "o2" "u9" "confirmed" (Some delhi) None [placed] None None
    (Some 1000%Z).

(** A confirmed order without a pickup location. *)
Definition order3 : Order.t :=
  Order.mk "o3" "u9" "confirmed" None None [placed] None None (Some 1000%Z).

Definition store : Store :=
  mkStore [order1; order2; order3] [agentA; agentB]
    [User.mk "u1" "asha" []; User.mk "u2" "ravi" []].

(** A clock that reads [2000], [2001], ... *)
Definition ticking : clock := fun k => (2000 + Z.of_nat k)%Z.

(** A stand-in for the distance function on the sample data: [0] between
    equal points, [1 700 000] metres otherwise; it throws on what is not a
    number. *)
Definition sample_distance (lat1 lon1 lat2 lon2 : jsval)
  : Controller.throws number :=
  match lat1, lon1, lat2, lon2 with
  | VNumber (Num a), VNumber (Num b), VNumber (Num c), VNumber (Num d) =>
      if Qeq_bool a c && Qeq_bool b d then inr (Num 0)
      else inr (Num (inject_Z 1700000))
  | _, _, _, _ => inl "Invalid coordinates"
  end.

(** A stand-in for the store's proximity test on the sample data: near
    exactly when the pickup point is the centre. *)
Definition sample_near (centre : list jsval) (radius : number) (o : Order.t)
  : bool :=
  match Controller.exact_distance sample_distance
          (element 1 centre) (element 0 centre) o with
  | inr d => number_le d radius
  | inl _ => false
  end.

Definition no_exponent (q : Q) : string := "".

Definition platform (m : save_mode) : Platform :=
  mkPlatform m 19800000 no_exponent sample_distance sample_near.

End Sample.

(** The sample data further on. *)
Module Sequel.

Import JS.
Local Open Scope string_scope.

(** The first agent has taken the first order. *)
Definition taken : Store :=
  after (Controller.acceptOrder ModifiedPaths 19800000 Sample.asha "o1"
           Sample.ticking Sample.store).

(** ... and has delivered it. *)
Definition delivered : Store :=
  after (Controller.completeDelivery ModifiedPaths Sample.asha "o1"
           Sample.ticking taken).

(** An order on its way whose pickup location is missing. *)
Definition order4 : Order.t :=
  Order.mk "o4" "u9" "out_for_delivery" None (Some "a1") [Sample.placed]
    None None (Some 1000%Z).

(** The first agent, busy with that order. *)
Definition busyA : DeliveryAgent.t :=
  DeliveryAgent.push_activeOrders "o4" Sample.agentA.

Definition busy : Store :=
  mkStore [Sample.order1; order4] [busyA; Sample.agentB]
    [User.mk "u1" "asha" []; User.mk "u2" "ravi" []].

(** A user without an agent profile. *)
Definition mira : Principal := mkPrincipal "u3" "mira".

(** The agent's place in the sample. *)
Definition longitude : jsval := VNumber (Num (775946 # 10000)).
Definition latitude : jsval := VNumber (Num (129716 # 10000)).

(** The watcher at work after an error on its stream. *)
Definition stirred : ChangeStreams.Watcher :=
  ChangeStreams.react 100 (ChangeStreams.StreamErrors 0)
    (ChangeStreams.mkWatcher (Some 0%nat) 1 [0%nat] 1 []).

(** A confirmed order that nobody has taken, 0.0135 degrees of latitude,
    about 1500 m, north of the agents' place. *)
Definition order5 : Order.t :=
  Order.mk "o5" "u9" "confirmed"
    (Some (mkGeoPoint "Point"
             (Some [VNumber (Num (775946 # 10000));
                    VNumber (Num (129851 # 10000))])))
    None [Sample.placed] None None (Some 1000%Z).

Definition scenario : Store :=
  mkStore [order5] [Sample.agentA; Sample.agentB]
    [User.mk "u1" "asha" []; User.mk "u2" "ravi" []].

End Sequel.

(* ================================================================== *)
(** * What is stated about the handlers *)
(* ================================================================== *)

(** Ids are unique in the agents' collection. *)
Definition unique_agents (s : Store) : Prop :=
  NoDup (map DeliveryAgent._id (agents s)).

(** ** The status history *)

(** Entries in the order of their timestamps. *)
Definition chronological (h : list StatusEntry) : Prop :=
  Sorted Z.le (map timestamp h).

(** No entry is stamped later than [t]. *)
Definition not_after (t : Z) (h : list StatusEntry) : Prop :=
  Forall (fun e => (timestamp e <= t)%Z) h.

(** [o'] is the order [o] with [added] put at the end of its history. *)
Definition extended_by (added : list StatusEntry) (o o' : Order.t) : Prop :=
  Order._id o' = Order._id o
  /\ Order.statusHistory o' = Order.statusHistory o ++ added.

(** What a request served at clock [now] may do to an order's history. *)
Definition grows (now : clock) (o o' : Order.t) : Prop :=
  exists added,
    extended_by added o o'
    /\ (List.length added <= 1)%nat
    /\ (List.length (Order.statusHistory o)
        <= List.length (Order.statusHistory o'))%nat
    /\ (chronological (Order.statusHistory o) ->
        not_after (now 1%nat) (Order.statusHistory o) ->
        chronological (Order.statusHistory o')).

(** ** Coordinates *)

(** The number zero. *)
Definition is_zero (v : JS.jsval) : Prop :=
  exists q, v = JS.VNumber (JS.Num q) /\ (q == 0)%Q.

(** A number other than zero (and other than [NaN]). *)
Definition nonzero_number (v : JS.jsval) : Prop :=
  match v with
  | JS.VNumber (JS.Num q) => ~ (q == 0)%Q
  | JS.VNumber (JS.Infinity _) => True
  | _ => False
  end.

(** ** Rooms *)

(** The rooms a change is sent to. *)
Definition rooms (c : ChangeStreams.Change) : list string :=
  map room (ChangeStreams.on_change c).

(** The rooms as the specification names them, with a colon. *)
Definition rooms_with_colon (o : Order.t) : list string :=
  [("order:" ++ Order._id o)%string; ("user:" ++ Order.user o)%string]
  ++ match Order.deliveryAgent o with
     | Some a => [("agent:" ++ a)%string]
     | None => []
     end.

(** An event of the stream: the pipeline lets through these three. *)
Definition observed (c : ChangeStreams.Change) : Prop :=
  In (ChangeStreams.operationType c) ["update"; "insert"; "replace"]%string.

(** ** Attempts in flight *)

(** Two agents, [agentA] then [agentB], each step of the one followed by
    the same step of the other. *)
Definition both_attempts : list Interleaving.Attempt :=
  [Interleaving.start Sample.asha "o1"%string Sample.ticking;
   Interleaving.start Sample.ravi "o1"%string Sample.ticking].

Definition alternating : list nat := [0; 1; 0; 1; 0; 1; 0; 1]%nat.

(** A watcher at work: connected, its first stream open, no timer. *)
Definition watcher_at_work : ChangeStreams.Watcher :=
  ChangeStreams.mkWatcher (Some 0%nat) 1 [0%nat] 1 [].

(** ** Digits *)

Definition is_digit (c : ascii) : bool :=
  (48 <=? nat_of_ascii c)%nat && (nat_of_ascii c <=? 57)%nat.

Fixpoint all_digits (s : string) : bool :=
  match s with
  | EmptyString => true
  | String c rest => is_digit c && all_digits rest
  end.

(** The digits [toFixed (2)] prints for a value: the nearest number of
    hundredths, on three places at least. *)
Definition hundredths (x : Q) : string :=
  let d := JS.decimal (Qfloor (x * 100 + (1 # 2))) in
  (JS.zeros (3 - String.length d) ++ d)%string.

(** ** Ranking *)





Section Resolution.

Variable calculateDistance :
  JS.jsval -> JS.jsval -> JS.jsval -> JS.jsval -> Controller.throws JS.number.




End Resolution.

(** ** The handlers case by case *)

(** What [acceptOrder] asks of the store before it writes. *)
Definition may_accept (req : Principal) (orderId : ObjectId) (s : Store)
           (agent : DeliveryAgent.t) (o : Order.t) : Prop :=
  Controller.agent_of req s = Some agent
  /\ DeliveryAgent.isVerified agent = true
  /\ DeliveryAgent.isAvailable agent = true
  /\ findById Order._id orderId (orders s) = Some o
  /\ Order.deliveryAgent o = None
  /\ Order.status o = "confirmed"%string.

(** What [completeDelivery] asks of the store before it writes. *)
Definition may_complete (req : Principal) (orderId : ObjectId) (s : Store)
           (agent : DeliveryAgent.t) (o : Order.t) : Prop :=
  Controller.agent_of req s = Some agent
  /\ findById Order._id orderId (orders s) = Some o
  /\ Order.deliveryAgent o = Some (DeliveryAgent._id agent)
  /\ Order.status o = "out_for_delivery"%string.

(** What [rejectOrder] asks of the store. *)
Definition may_reject (req : Principal) (orderId : ObjectId) (s : Store)
           (agent : DeliveryAgent.t) (o : Order.t) : Prop :=
  Controller.agent_of req s = Some agent
  /\ DeliveryAgent.isVerified agent = true
  /\ DeliveryAgent.isAvailable agent = true
  /\ findById Order._id orderId (orders s) = Some o
  /\ Order.deliveryAgent o = None.

(** A request that was refused: a failure, the store untouched, nothing
    emitted. *)
Definition refused (s : Store) (out : Outcome) : Prop :=
  (exists code msg, answer out = Failure code msg)
  /\ after out = s /\ emitted out = [].

Definition went_through (out : Outcome) : Prop :=
  exists code msg body, answer out = Success code msg body.

(** One move of an order: it stays, it is taken by an agent, or it is
    delivered by the agent it has. *)
Definition order_move (o o' : Order.t) : Prop :=
  o' = o
  \/ (Order.status o = "confirmed"%string
      /\ Order.deliveryAgent o = None
      /\ Order.status o' = "out_for_delivery"%string
      /\ Order.deliveryAgent o' <> None)
  \/ (Order.status o = "out_for_delivery"%string
      /\ Order.deliveryAgent o <> None
      /\ Order.status o' = "delivered"%string
      /\ Order.deliveryAgent o' = Order.deliveryAgent o).

(** An order has an agent exactly when it is out for delivery or
    delivered. *)
Definition assigned_when_moving (o : Order.t) : Prop :=
  Order.deliveryAgent o <> None
  <-> (Order.status o = "out_for_delivery"%string
       \/ Order.status o = "delivered"%string).

(** Ids are unique in the orders' collection. *)
Definition unique_orders (s : Store) : Prop :=
  NoDup (map Order._id (orders s)).

(** What a request may change on the agent it concerns. *)
Definition edit_of (r : request) (x : DeliveryAgent.t)
           (changes : DeliveryAgent.t -> DeliveryAgent.t) : Prop :=
  match r with
  | UpdateAvailability _ (JS.VBool b) =>
      changes = DeliveryAgent.set_isAvailable b
  | UpdateLocation _ longitude latitude =>
      changes = DeliveryAgent.set_currentLocation
                  (Some (mkGeoPoint "Point" (Some [longitude; latitude])))
  | AcceptOrder _ orderId => changes = DeliveryAgent.push_activeOrders orderId
  | CompleteDelivery _ orderId =>
      changes = Controller.complete_agent_changes x orderId
  | VerifyDeliveryAgent _ (JS.VBool b) =>
      changes = DeliveryAgent.set_isVerified b
  | RejectOrder _ orderId =>
      changes = Controller.reject_changes x orderId
      /\ includes (Controller.rejected_or_empty x) orderId = false
  | _ => False
  end.

(** One move of an agent under a request: it stays, or it is the agent of
    the request and takes the request's change. *)
Definition agent_move (r : request) (x y : DeliveryAgent.t) : Prop :=
  y = x \/ exists changes, edit_of r x changes /\ y = changes x.

(** The agent a registration creates. *)
Definition new_agent (req : Principal) (fresh : ObjectId)
           (vehicleType vehicleNumber : JS.jsval) : DeliveryAgent.t :=
  DeliveryAgent.mk fresh (id req) vehicleType vehicleNumber true false None
    [] (Some []) [] JS.zero JS.zero.

(** The agents after a request: each in its place, moved or not; a
    successful registration puts its new agent at the end. *)
Definition agents_step (r : request) (before after : list DeliveryAgent.t)
  : Prop :=
  Forall2 (agent_move r) before after
  \/ exists req fresh vt vn,
       r = Register req fresh vt vn
       /\ find (Controller.by_user (id req)) before = None
       /\ after = before ++ [new_agent req fresh vt vn].

(** At most one agent profile for a user. *)
Definition one_profile_per_user (s : Store) : Prop :=
  NoDup (map DeliveryAgent.user (agents s)).

(** No agent holds an order twice among its rejected orders. *)
Definition rejections_distinct (s : Store) : Prop :=
  Forall (fun a => NoDup (Controller.rejected_or_empty a)) (agents s).

(** At most one stream is open, and it is the one in
    [orderChangeStream]. *)
Definition one_stream (w : ChangeStreams.Watcher) : Prop :=
  ChangeStreams.watching w = []
  \/ exists h, ChangeStreams.orderChangeStream w = Some h
               /\ ChangeStreams.watching w = [h].

(** A stream is open and stored, the connection is up and a timer is
    pending. *)
Definition restless (w : ChangeStreams.Watcher) : Prop :=
  ChangeStreams.readyState w = 1%nat
  /\ (exists h, ChangeStreams.orderChangeStream w = Some h
                /\ ChangeStreams.watching w = [h])
  /\ ChangeStreams.timers w <> [].

(** [n] timers fire, at the given times, [Order.watch] succeeding. *)
Definition timers_fire (times : list Z) : list (Z * ChangeStreams.occurrence) :=
  map (fun t => (t, ChangeStreams.TimerFires false)) times.

(** An order as the [catch] of the candidates' callback returns it. *)
Definition marked_unknown (o : Order.t) : Listed :=
  mkListed o
    (mkDistance JS.MAX_SAFE_INTEGER "meters"%string "Unknown"%string
       (Some "Invalid coordinates"%string))
    (Some false).

(* ================================================================== *)
(** * Lemmas on the store *)
(* ================================================================== *)

Section CollectionFacts.

Variable doc : Type.
Variable id_of : doc -> ObjectId.

Lemma findById_id (id : ObjectId) (coll : list doc) (d : doc) :
  findById id_of id coll = Some d -> id_of d = id.
Proof.
  unfold findById. intros H. apply find_some in H.
  destruct H as [_ H]. now apply String.eqb_eq.
Qed.

Lemma findById_In (id : ObjectId) (coll : list doc) (d : doc) :
  findById id_of id coll = Some d -> In d coll.
Proof.
  unfold findById. intros H. now apply find_some in H.
Qed.

(** The document found first under a predicate is also the one found
    under its id, ids being unique. *)
Lemma findOne_findById (p : doc -> bool) (coll : list doc) (d : doc) :
  NoDup (map id_of coll) ->
  findOne p coll = Some d ->
  findById id_of (id_of d) coll = Some d.
Proof.
  unfold findOne, findById.
  induction coll as [|x rest IH]; simpl; intros Hnd H; [discriminate|].
  inversion Hnd as [|? ? Hx Hrest]; subst.
  destruct (p x).
  - injection H as ->. now rewrite String.eqb_refl.
  - destruct (String.eqb (id_of x) (id_of d)) eqn:E.
    + apply String.eqb_eq in E. exfalso. apply Hx. rewrite E.
      apply in_map. now apply find_some in H.
    + now apply IH.
Qed.

(** After an update the document is found changed. *)
Lemma findById_update (id : ObjectId) (f : doc -> doc) (coll : list doc)
      (d : doc) :
  (forall x, id_of (f x) = id_of x) ->
  findById id_of id coll = Some d ->
  findById id_of id (update_by_id id_of id f coll) = Some (f d).
Proof.
  unfold findById. intros Hf.
  induction coll as [|x rest IH]; simpl; intros H; [discriminate|].
  destruct (String.eqb (id_of x) id) eqn:E.
  - injection H as ->. simpl. now rewrite Hf, E.
  - simpl. rewrite E. now apply IH.
Qed.

(** Documents with another id are found as before. *)
Lemma findById_update_other (id id' : ObjectId) (f : doc -> doc)
      (coll : list doc) :
  (forall x, id_of (f x) = id_of x) ->
  id' <> id ->
  findById id_of id' (update_by_id id_of id f coll) = findById id_of id' coll.
Proof.
  unfold findById. intros Hf Hne.
  induction coll as [|x rest IH]; simpl; [reflexivity|].
  destruct (String.eqb (id_of x) id) eqn:E.
  - simpl. rewrite Hf. apply String.eqb_eq in E.
    destruct (String.eqb (id_of x) id') eqn:E'; [|reflexivity].
    apply String.eqb_eq in E'. congruence.
  - simpl. now rewrite IH.
Qed.

Lemma findOne_update (p : doc -> bool) (f : doc -> doc) (coll : list doc)
      (d : doc) :
  NoDup (map id_of coll) ->
  p (f d) = true ->
  findOne p coll = Some d ->
  findOne p (update_by_id id_of (id_of d) f coll) = Some (f d).
Proof.
  unfold findOne.
  induction coll as [|x rest IH]; simpl; intros Hnd Hp H; [discriminate|].
  inversion Hnd as [|? ? Hx Hrest]; subst.
  destruct (p x) eqn:Px.
  - injection H as ->. rewrite String.eqb_refl. simpl. now rewrite Hp.
  - destruct (String.eqb (id_of x) (id_of d)) eqn:E.
    + apply String.eqb_eq in E. exfalso. apply Hx. rewrite E.
      apply in_map. now apply find_some in H.
    + simpl. rewrite Px. now apply IH.
Qed.

(** Both ways of saving write the same when the document is still as it
    was loaded. *)
Lemma save_as_loaded (m : save_mode) (loaded : doc) (changes : doc -> doc)
      (coll : list doc) :
  findById id_of (id_of loaded) coll = Some loaded ->
  save id_of m loaded changes coll
  = update_by_id id_of (id_of loaded) changes coll.
Proof.
  unfold save, findById. destruct m; [reflexivity|].
  induction coll as [|x rest IH]; simpl; intros H; [reflexivity|].
  destruct (String.eqb (id_of x) (id_of loaded)) eqn:E.
  - now injection H as ->.
  - now rewrite IH.
Qed.

Lemma update_by_id_ids (id : ObjectId) (f : doc -> doc) (coll : list doc) :
  (forall x, id_of (f x) = id_of x) ->
  map id_of (update_by_id id_of id f coll) = map id_of coll.
Proof.
  intros Hf. induction coll as [|x rest IH]; simpl; [reflexivity|].
  destruct (String.eqb (id_of x) id); simpl; now rewrite ?Hf, ?IH.
Qed.

Lemma update_by_id_length (id : ObjectId) (f : doc -> doc)
      (coll : list doc) :
  List.length (update_by_id id_of id f coll) = List.length coll.
Proof.
  induction coll as [|x rest IH]; simpl; [reflexivity|].
  destruct (String.eqb (id_of x) id); simpl; now rewrite ?IH.
Qed.

(** An update relates the old documents to the new ones one by one. *)
Lemma update_by_id_Forall2 (R : doc -> doc -> Prop) (id : ObjectId)
      (f : doc -> doc) (coll : list doc) :
  (forall x, R x x) ->
  (forall x, In x coll -> R x (f x)) ->
  Forall2 R coll (update_by_id id_of id f coll).
Proof.
  intros Hrefl. induction coll as [|x rest IH]; simpl; intros Hf.
  - constructor.
  - destruct (String.eqb (id_of x) id).
    + constructor; [apply Hf; now left|].
      clear IH Hf. induction rest; constructor; auto.
    + constructor; [apply Hrefl|]. apply IH. intros y Hy. apply Hf.
      now right.
Qed.

End CollectionFacts.

(* ================================================================== *)
(** * Dates *)
(* ================================================================== *)

(** Moving the minutes of a date thirty ahead moves the date by thirty
    minutes, whatever the hour: the fields carry over. *)
Lemma in_30_minutes_spec (tza d : Z) :
  Controller.in_30_minutes tza d = (d + 30 * JS.msPerMinute)%Z.
Proof.
  unfold Controller.in_30_minutes, JS.setMinutes, JS.getMinutes, JS.UTC,
    JS.LocalTime, JS.MakeDate, JS.MakeTime, JS.Day, JS.HourFromTime,
    JS.MinFromTime, JS.SecFromTime, JS.msFromTime, JS.msPerDay, JS.msPerHour,
    JS.msPerMinute.
  remember (d + tza)%Z as l eqn:Hl.
  Z.div_mod_to_equations. lia.
Qed.

(* ================================================================== *)
(** * Assignment, completion and rejection *)
(* ================================================================== *)

Section Lifecycle.

Import Controller.
Local Open Scope string_scope.

Variable mode : save_mode.
Variable tza : Z.

Lemma save_order_loaded (orderId : ObjectId) (loaded : Order.t)
      (changes : Order.t -> Order.t) (s : Store) :
  findById Order._id orderId (orders s) = Some loaded ->
  save_order mode loaded changes (orders s)
  = update_by_id Order._id orderId changes (orders s).
Proof.
  intros H. pose proof (findById_id _ _ _ H) as Hid.
  unfold save_order. rewrite save_as_loaded; rewrite Hid; auto.
Qed.

Lemma save_agent_loaded (req : Principal) (loaded : DeliveryAgent.t)
      (changes : DeliveryAgent.t -> DeliveryAgent.t) (s : Store) :
  unique_agents s ->
  agent_of req s = Some loaded ->
  save_agent mode loaded changes (agents s)
  = update_by_id DeliveryAgent._id (DeliveryAgent._id loaded) changes
      (agents s).
Proof.
  intros Hu H. unfold save_agent. apply save_as_loaded.
  eapply findOne_findById; eauto.
Qed.

(** C2: a verified, available agent that accepts a confirmed order
    nobody has taken succeeds; the stored order is then out for
    delivery, assigned to that agent, due thirty minutes after the
    current time, with one more history entry, and the order's id is
    added to the agent's active orders. *)
Theorem acceptOrder_assigns (req : Principal) (orderId : ObjectId)
        (now : clock) (s : Store) (agent : DeliveryAgent.t) (o : Order.t) :
  unique_agents s ->
  agent_of req s = Some agent ->
  DeliveryAgent.isVerified agent = true ->
  DeliveryAgent.isAvailable agent = true ->
  findById Order._id orderId (orders s) = Some o ->
  Order.status o = "confirmed" ->
  Order.deliveryAgent o = None ->
  exists (o' : Order.t) (agent' : DeliveryAgent.t) (entry : StatusEntry),
    answer (acceptOrder mode tza req orderId now s)
    = Success 200 "Order accepted for delivery" (P_order o')
    /\ findById Order._id orderId
         (orders (after (acceptOrder mode tza req orderId now s)))
       = Some o'
    /\ Order.status o' = "out_for_delivery"
    /\ Order.deliveryAgent o' = Some (DeliveryAgent._id agent)
    /\ Order.estimatedDeliveryTime o'
       = Some (now 0%nat + 30 * JS.msPerMinute)%Z
    /\ Order.statusHistory o' = (Order.statusHistory o ++ [entry])%list
    /\ entry_status entry = "out_for_delivery"
    /\ agent_of req (after (acceptOrder mode tza req orderId now s))
       = Some agent'
    /\ DeliveryAgent.activeOrders agent'
       = (DeliveryAgent.activeOrders agent ++ [orderId])%list.
Proof.
  intros Hu Ha Hv Hav Ho Hst Hda.
  pose proof (findById_id _ _ _ Ho) as Hid.
  unfold acceptOrder. rewrite Ha, Hv, Hav, Ho, Hda, Hst. simpl.
  rewrite save_order_loaded with (orderId := orderId) by assumption.
  set (est := in_30_minutes tza (now 0%nat)).
  set (changes := accept_changes req agent est (now 1%nat)).
  rewrite Hid.
  rewrite save_agent_loaded with (req := req) by assumption.
  exists (changes o), (DeliveryAgent.push_activeOrders orderId agent).
  eexists. repeat split.
  - simpl. apply findById_update; [reflexivity | assumption].
  - simpl. unfold est. now rewrite in_30_minutes_spec.
  - simpl. unfold agent_of. apply findOne_update; try assumption.
    unfold by_user; simpl. unfold agent_of, findOne in Ha.
    apply find_some in Ha. apply Ha.
Qed.

(** C4: when an order is assigned to one agent and another agent asks to
    complete it, the answer is the 403 failure, nothing is emitted and
    the store, hence the order with its status, agent, history and
    delivery time, stays as it was. *)
Theorem completeDelivery_forbidden (req : Principal) (orderId : ObjectId)
        (now : clock) (s : Store) (other : DeliveryAgent.t) (o : Order.t)
        (owner : ObjectId) :
  agent_of req s = Some other ->
  findById Order._id orderId (orders s) = Some o ->
  Order.deliveryAgent o = Some owner ->
  owner <> DeliveryAgent._id other ->
  completeDelivery mode req orderId now s
  = mkOutcome (Failure 403 "This order is not assigned to you") s [].
Proof.
  intros Ha Ho Hd Hne. unfold completeDelivery.
  rewrite Ha, Ho, Hd. unfold equals.
  destruct (String.eqb owner (DeliveryAgent._id other)) eqn:E.
  - apply String.eqb_eq in E. contradiction.
  - reflexivity.
Qed.

(** The owner's completion, for comparison: the order becomes delivered
    with one more history entry. *)
Lemma completeDelivery_delivers (req : Principal) (orderId : ObjectId)
      (now : clock) (s : Store) (agent : DeliveryAgent.t) (o : Order.t) :
  agent_of req s = Some agent ->
  findById Order._id orderId (orders s) = Some o ->
  Order.deliveryAgent o = Some (DeliveryAgent._id agent) ->
  Order.status o = "out_for_delivery" ->
  let o' := complete_changes agent (now 0%nat) (now 1%nat) o in
  answer (completeDelivery mode req orderId now s)
  = Success 200 "Delivery completed successfully" (P_order o')
  /\ findById Order._id orderId
       (orders (after (completeDelivery mode req orderId now s)))
     = Some o'.
Proof.
  intros Ha Ho Hd Hst. unfold completeDelivery.
  rewrite Ha, Ho, Hd, Hst. unfold equals. rewrite String.eqb_refl. simpl.
  split; [reflexivity|].
  rewrite save_order_loaded with (orderId := orderId) by assumption.
  apply findById_update; [reflexivity | assumption].
Qed.

(** ** Rejection *)

Lemma includes_In (ids : list ObjectId) (i : ObjectId) :
  includes ids i = true <-> In i ids.
Proof.
  unfold includes. rewrite existsb_exists. split.
  - intros [x [Hx E]]. apply String.eqb_eq in E. now subst.
  - intros H. exists i. split; [assumption | apply String.eqb_refl].
Qed.

Lemma includes_count (ids : list ObjectId) (i : ObjectId) :
  includes ids i = false -> count_occ string_dec ids i = 0%nat.
Proof.
  intros H. apply count_occ_not_In. intros Hin.
  apply includes_In in Hin. congruence.
Qed.

Lemma rejected_after_changes (agent : DeliveryAgent.t) (orderId : ObjectId) :
  rejected_or_empty (reject_changes agent orderId agent)
  = (rejected_or_empty agent ++ [orderId])%list.
Proof.
  unfold reject_changes, rejected_or_empty,
    DeliveryAgent.push_rejectedOrders.
  destruct (DeliveryAgent.rejectedOrders agent) eqn:E; simpl;
    now rewrite ?E.
Qed.

(** One rejection, spelled out. *)
Lemma rejectOrder_once (req : Principal) (orderId : ObjectId) (s : Store)
      (agent : DeliveryAgent.t) (o : Order.t) :
  unique_agents s ->
  agent_of req s = Some agent ->
  DeliveryAgent.isVerified agent = true ->
  DeliveryAgent.isAvailable agent = true ->
  findById Order._id orderId (orders s) = Some o ->
  Order.deliveryAgent o = None ->
  rejectOrder mode req orderId s
  = mkOutcome
      (Success 200 "Order rejected successfully" (P_orderId orderId))
      (if includes (rejected_or_empty agent) orderId then s
       else with_agents
              (update_by_id DeliveryAgent._id (DeliveryAgent._id agent)
                 (reject_changes agent orderId) (agents s)) s)
      [].
Proof.
  intros Hu Ha Hv Hav Ho Hd.
  pose proof (findById_id _ _ _ Ho) as Hid.
  unfold rejectOrder. rewrite Ha, Hv, Hav, Ho, Hd, Hid. simpl.
  destruct (includes (rejected_or_empty agent) orderId); simpl;
    [reflexivity|].
  now rewrite save_agent_loaded with (req := req) by assumption.
Qed.

(** C5: a verified, available agent rejecting an unassigned order twice
    is answered with success both times; the second call changes
    nothing, the orders are as before the first, and the agent's
    rejected orders hold the order's id exactly once. *)
Theorem rejectOrder_idempotent (req : Principal) (orderId : ObjectId)
        (s : Store) (agent : DeliveryAgent.t) (o : Order.t) :
  unique_agents s ->
  agent_of req s = Some agent ->
  DeliveryAgent.isVerified agent = true ->
  DeliveryAgent.isAvailable agent = true ->
  findById Order._id orderId (orders s) = Some o ->
  Order.deliveryAgent o = None ->
  (count_occ string_dec (rejected_or_empty agent) orderId <= 1)%nat ->
  let once := rejectOrder mode req orderId s in
  let twice := rejectOrder mode req orderId (after once) in
  answer once = Success 200 "Order rejected successfully" (P_orderId orderId)
  /\ answer twice
     = Success 200 "Order rejected successfully" (P_orderId orderId)
  /\ after twice = after once
  /\ orders (after twice) = orders s
  /\ findById Order._id orderId (orders (after twice)) = Some o
  /\ exists agent',
       agent_of req (after twice) = Some agent'
       /\ count_occ string_dec (rejected_or_empty agent') orderId = 1%nat.
Proof.
  intros Hu Ha Hv Hav Ho Hd Hc.
  assert (Hby : by_user (id req) agent = true).
  { unfold agent_of, findOne in Ha. apply find_some in Ha. apply Ha. }
  cbv zeta.
  rewrite (@rejectOrder_once req orderId s agent o Hu Ha Hv Hav Ho Hd).
  destruct (includes (rejected_or_empty agent) orderId) eqn:Hin; simpl.
  - (* already rejected: neither call writes *)
    rewrite (@rejectOrder_once req orderId s agent o Hu Ha Hv Hav Ho Hd), Hin. simpl.
    refine (conj _ (conj _ (conj _ (conj _ (conj _ _)))));
      try reflexivity; try assumption.
    exists agent. split; [assumption|].
    apply includes_In in Hin.
    apply (count_occ_In string_dec) in Hin. lia.
  - (* the first call writes, the second finds the id *)
    set (agent1 := reject_changes agent orderId agent).
    set (s1 := with_agents _ s).
    assert (Hu1 : unique_agents s1).
    { unfold unique_agents, s1. simpl. rewrite update_by_id_ids; auto.
      intros x. unfold reject_changes.
      destruct (DeliveryAgent.rejectedOrders agent); reflexivity. }
    assert (Ha1 : agent_of req s1 = Some agent1).
    { unfold agent_of, s1. simpl. apply findOne_update; try assumption.
      unfold reject_changes.
      destruct (DeliveryAgent.rejectedOrders agent); exact Hby. }
    assert (Hin1 : includes (rejected_or_empty agent1) orderId = true).
    { unfold agent1. rewrite rejected_after_changes. apply includes_In.
      apply in_or_app. right. now left. }
    assert (Hflags : DeliveryAgent.isVerified agent1 = true
                     /\ DeliveryAgent.isAvailable agent1 = true).
    { unfold agent1, reject_changes.
      destruct (DeliveryAgent.rejectedOrders agent); simpl; auto. }
    destruct Hflags as [Hv1 Hav1].
    assert (Ho1 : findById Order._id orderId (orders s1) = Some o)
      by exact Ho.
    rewrite (@rejectOrder_once req orderId s1 agent1 o Hu1 Ha1 Hv1 Hav1 Ho1 Hd), Hin1.
    simpl.
    refine (conj _ (conj _ (conj _ (conj _ (conj _ _)))));
      try reflexivity; try assumption.
    exists agent1. split; [assumption|].
    unfold agent1. rewrite rejected_after_changes, count_occ_app.
    pose proof (@includes_count _ _ Hin) as Hz.
    unfold ObjectId in *. rewrite Hz. simpl.
    destruct (string_dec orderId orderId); [reflexivity | contradiction].
Qed.

(** ** The orders after a request *)

Lemma acceptOrder_orders (req : Principal) (orderId : ObjectId)
      (now : clock) (s : Store) :
  let out := acceptOrder mode tza req orderId now s in
  (orders (after out) = orders s
   /\ forall code msg body, answer out <> Success code msg body)
  \/ exists agent o,
       findById Order._id orderId (orders s) = Some o
       /\ answer out
          = Success 200 "Order accepted for delivery"
              (P_order
                 (accept_changes req agent (in_30_minutes tza (now 0%nat))
                    (now 1%nat) o))
       /\ orders (after out)
          = update_by_id Order._id orderId
              (accept_changes req agent (in_30_minutes tza (now 0%nat))
                 (now 1%nat)) (orders s).
Proof.
  cbv zeta. unfold acceptOrder.
  destruct (agent_of req s) as [agent|];
    [|left; split; [reflexivity | discriminate]].
  destruct (negb (DeliveryAgent.isVerified agent));
    [left; split; [reflexivity | discriminate]|].
  destruct (negb (DeliveryAgent.isAvailable agent));
    [left; split; [reflexivity | discriminate]|].
  destruct (findById Order._id orderId (orders s)) as [o|] eqn:Ho;
    [|left; split; [reflexivity | discriminate]].
  destruct (is_some (Order.deliveryAgent o));
    [left; split; [reflexivity | discriminate]|].
  destruct (negb (String.eqb (Order.status o) "confirmed"));
    [left; split; [reflexivity | discriminate]|].
  right. exists agent, o. simpl.
  rewrite save_order_loaded with (orderId := orderId) by assumption.
  auto.
Qed.

Lemma completeDelivery_orders (req : Principal) (orderId : ObjectId)
      (now : clock) (s : Store) :
  let out := completeDelivery mode req orderId now s in
  (orders (after out) = orders s
   /\ forall code msg body, answer out <> Success code msg body)
  \/ exists agent o,
       findById Order._id orderId (orders s) = Some o
       /\ answer out
          = Success 200 "Delivery completed successfully"
              (P_order (complete_changes agent (now 0%nat) (now 1%nat) o))
       /\ orders (after out)
          = update_by_id Order._id orderId
              (complete_changes agent (now 0%nat) (now 1%nat)) (orders s).
Proof.
  cbv zeta. unfold completeDelivery.
  destruct (agent_of req s) as [agent|];
    [|left; split; [reflexivity | discriminate]].
  destruct (findById Order._id orderId (orders s)) as [o|] eqn:Ho;
    [|left; split; [reflexivity | discriminate]].
  match goal with
  | |- context [if ?c then _ else _] => destruct c
  end; [left; split; [reflexivity | discriminate]|].
  destruct (negb (String.eqb (Order.status o) "out_for_delivery"));
    [left; split; [reflexivity | discriminate]|].
  right. exists agent, o. simpl.
  rewrite save_order_loaded with (orderId := orderId) by assumption.
  auto.
Qed.

End Lifecycle.

Section OtherRoutes.

Import Controller.

Variable P : Platform.

(** The other routes leave the orders alone. *)
Lemma other_routes_orders (r : request) (now : clock) (s : Store) :
  match r with
  | AcceptOrder _ _ | CompleteDelivery _ _ => True
  | _ => orders (after (handle P r now s)) = orders s
  end.
Proof.
  destruct r; simpl; try exact I.
  - unfold registerAsDeliveryAgent. destruct (agent_of req s); reflexivity.
  - unfold updateAvailability.
    destruct isAvailable; try reflexivity.
    destruct (agent_of req s); reflexivity.
  - unfold updateLocation.
    match goal with
    | |- context [if ?c then _ else _] => destruct c
    end; [reflexivity|].
    destruct (agent_of req s); reflexivity.
  - unfold getNearbyOrders.
    destruct (agent_of req s) as [agent|]; [|reflexivity].
    destruct (negb (DeliveryAgent.isVerified agent)); [reflexivity|].
    destruct (negb (DeliveryAgent.isAvailable agent)); [reflexivity|].
    destruct (destructure (DeliveryAgent.currentLocation agent)) as [e|[a b]];
      [reflexivity|].
    match goal with
    | |- context [match ?x with inl _ => _ | inr _ => _ end] => destruct x
    end; reflexivity.
  - unfold getAgentProfile. destruct (agent_of req s); reflexivity.
  - unfold verifyDeliveryAgent.
    destruct isVerified; try reflexivity.
    destruct (findById DeliveryAgent._id agentId (agents s)); reflexivity.
  - reflexivity.
  - unfold getConfirmedOrders. destruct (agent_of req s); reflexivity.
  - unfold rejectOrder.
    destruct (agent_of req s) as [agent|]; [|reflexivity].
    destruct (negb (DeliveryAgent.isVerified agent)); [reflexivity|].
    destruct (negb (DeliveryAgent.isAvailable agent)); [reflexivity|].
    destruct (findById Order._id orderId (orders s)) as [o|]; [|reflexivity].
    destruct (is_some (Order.deliveryAgent o)); [reflexivity|].
    simpl.
    destruct (negb (includes (rejected_or_empty agent) (Order._id o)));
      reflexivity.
Qed.

End OtherRoutes.

(* ================================================================== *)
(** * The status history *)
(* ================================================================== *)

Lemma chronological_snoc (h : list StatusEntry) (e : StatusEntry) :
  chronological h -> not_after (timestamp e) h -> chronological (h ++ [e]).
Proof.
  unfold chronological, not_after.
  induction h as [|x rest IH]; simpl; intros Hs Hb.
  - repeat constructor.
  - inversion Hs as [|? ? Hrest Hhd]; subst.
    inversion Hb as [|? ? Hx Hb']; subst.
    constructor.
    + now apply IH.
    + destruct rest as [|y rest']; simpl in *.
      * constructor. exact Hx.
      * constructor. now inversion Hhd.
Qed.

Lemma grows_refl (now : clock) (o : Order.t) : grows now o o.
Proof.
  exists []. unfold extended_by. rewrite app_nil_r. auto.
Qed.

Lemma grows_push (now : clock) (o o' : Order.t) (e : StatusEntry) :
  Order._id o' = Order._id o ->
  Order.statusHistory o' = Order.statusHistory o ++ [e] ->
  timestamp e = now 1%nat ->
  grows now o o'.
Proof.
  intros Hid Hh Ht. exists [e]. unfold extended_by.
  repeat split; auto.
  - rewrite Hh, length_app. simpl. lia.
  - intros Hs Hb. rewrite Hh. apply chronological_snoc; auto.
    now rewrite Ht.
Qed.


(* ================================================================== *)
(** * Location updates *)
(* ================================================================== *)

Lemma truthy_number (v : JS.jsval) :
  JS.truthy v = true -> JS.is_number v = true -> nonzero_number v.
Proof.
  destruct v as [| |b|n|str]; simpl; try discriminate.
  destruct n as [|sg|q]; simpl; try discriminate; auto.
  intros H _ Hq. apply Qeq_bool_iff in Hq. rewrite Hq in H. discriminate.
Qed.

(** C10: a location update whose longitude or latitude is the number 0 is
    refused with the 400 validation failure and leaves the store, and so
    the agent's stored location, as it was; and an update that succeeds
    had two numbers other than zero. *)
Theorem updateLocation_zero_refused (m : save_mode) (req : Principal)
        (longitude latitude : JS.jsval) (now : clock) (s : Store) :
  (is_zero longitude \/ is_zero latitude ->
   Controller.updateLocation m req longitude latitude now s
   = mkOutcome
       (Failure 400 "Valid longitude and latitude coordinates are required")
       s [])
  /\ (forall code msg body,
        answer (Controller.updateLocation m req longitude latitude now s)
        = Success code msg body ->
        nonzero_number longitude /\ nonzero_number latitude).
Proof.
  split.
  - intros [[q [-> Hq]] | [q [-> Hq]]]; unfold Controller.updateLocation;
      simpl; apply Qeq_bool_iff in Hq; rewrite Hq; simpl.
    + reflexivity.
    + now rewrite orb_true_r.
  - intros code msg body. unfold Controller.updateLocation.
    destruct (JS.truthy longitude) eqn:T1; simpl; [|discriminate].
    destruct (JS.truthy latitude) eqn:T2; simpl; [|discriminate].
    destruct (JS.is_number longitude) eqn:N1; simpl; [|discriminate].
    destruct (JS.is_number latitude) eqn:N2; simpl; [|discriminate].
    intros _. split; now apply truthy_number.
Qed.

(** An update with two numbers other than zero does go through. *)
Example updateLocation_accepts :
  exists agent,
    Controller.agent_of Sample.asha
      (after (Controller.updateLocation ModifiedPaths Sample.asha
                (JS.VNumber (JS.Num (775 # 10))) (JS.VNumber (JS.Num (13 # 1)))
                Sample.ticking Sample.store)) = Some agent
    /\ DeliveryAgent.currentLocation agent
       = Some (mkGeoPoint "Point"
                 (Some [JS.VNumber (JS.Num (775 # 10));
                        JS.VNumber (JS.Num (13 # 1))])).
Proof.
  eexists. split; reflexivity.
Qed.

(* ================================================================== *)
(** * The fan-out of a change *)
(* ================================================================== *)

(** The statement with the colon does not hold: the rooms are spelled with
    an underscore. *)
Lemma change_fan_out_not_with_colon :
  ~ (forall (c : ChangeStreams.Change) (o : Order.t),
       observed c ->
       ChangeStreams.fullDocument c = Some o ->
       rooms c = rooms_with_colon o).
Proof.
  intros H.
  specialize (H (ChangeStreams.mkChange "update" (Some Sample.order1))
                Sample.order1).
  simpl in H. discriminate H; [now left | reflexivity].
Qed.

(** C8, amended: an observed change that carries the order's document is
    sent to [order_<id>] and [user_<id>], then to [agent_<id>] exactly
    when [<id>] is the order's agent; that is two or three rooms. *)
Theorem change_fan_out (c : ChangeStreams.Change) (o : Order.t) :
  observed c ->
  ChangeStreams.fullDocument c = Some o ->
  rooms c
  = [("order_" ++ Order._id o)%string; ("user_" ++ Order.user o)%string]
    ++ match Order.deliveryAgent o with
       | Some a => [("agent_" ++ a)%string]
       | None => []
       end
  /\ (2 <= List.length (rooms c) <= 3)%nat
  /\ (forall a, In ("agent_" ++ a)%string (rooms c)
                <-> Order.deliveryAgent o = Some a).
Proof.
  intros Hobs Hdoc.
  assert (E : rooms c
    = [("order_" ++ Order._id o)%string; ("user_" ++ Order.user o)%string]
      ++ match Order.deliveryAgent o with
         | Some a => [("agent_" ++ a)%string]
         | None => []
         end).
  { unfold rooms, ChangeStreams.on_change. rewrite Hdoc.
    unfold observed in Hobs. simpl in Hobs.
    destruct Hobs as [<- | [<- | [<- | []]]]; simpl;
      destruct (Order.deliveryAgent o); reflexivity. }
  rewrite E. split; [reflexivity|]. split.
  - destruct (Order.deliveryAgent o); simpl; lia.
  - intros a. simpl. split.
    + intros [H | [H | H]]; try discriminate.
      destruct (Order.deliveryAgent o) as [a'|]; [|contradiction].
      destruct H as [H | []]. now injection H as ->.
    + intros ->. right. right. now left.
Qed.

(* ================================================================== *)
(** * Racing assignments *)
(* ================================================================== *)

Section Racing.

Import Controller Interleaving.
Local Open Scope string_scope.

Variable m : save_mode.
Variable tza : Z.

(** Left alone, the four steps are the handler. *)
Lemma accept_steps_alone (req : Principal) (orderId : ObjectId)
      (now : clock) (s : Store) :
  steps m tza 4 req orderId now s Received
  = (after (acceptOrder m tza req orderId now s),
     Responded (answer (acceptOrder m tza req orderId now s))
       (emitted (acceptOrder m tza req orderId now s))).
Proof.
  unfold steps, accept_step, acceptOrder.
  destruct (agent_of req s) as [agent|]; [|reflexivity].
  destruct (negb (DeliveryAgent.isVerified agent)); [reflexivity|].
  destruct (negb (DeliveryAgent.isAvailable agent)); [reflexivity|].
  destruct (findById Order._id orderId (orders s)) as [o|]; [|reflexivity].
  destruct (is_some (Order.deliveryAgent o)); [reflexivity|].
  destruct (negb (String.eqb (Order.status o) "confirmed")); reflexivity.
Qed.

(** One after the other: once an agent has the order, the next attempt
    on it is turned away as a conflict and writes nothing. *)
Lemma acceptOrder_then_conflict (req req' : Principal) (orderId : ObjectId)
      (now now' : clock) (s : Store) (agent agent' : DeliveryAgent.t)
      (o : Order.t) :
  unique_agents s ->
  agent_of req s = Some agent ->
  DeliveryAgent.isVerified agent = true ->
  DeliveryAgent.isAvailable agent = true ->
  findById Order._id orderId (orders s) = Some o ->
  Order.status o = "confirmed" ->
  Order.deliveryAgent o = None ->
  let s1 := after (acceptOrder m tza req orderId now s) in
  agent_of req' s1 = Some agent' ->
  DeliveryAgent.isVerified agent' = true ->
  DeliveryAgent.isAvailable agent' = true ->
  acceptOrder m tza req' orderId now' s1
  = mkOutcome
      (Failure 400 "This order has already been assigned to a delivery agent")
      s1 [].
Proof.
  intros Hu Ha Hv Hav Ho Hst Hd s1 Ha' Hv' Hav'.
  assert (Ho1 : exists o1,
            findById Order._id orderId (orders s1) = Some o1
            /\ Order.deliveryAgent o1 = Some (DeliveryAgent._id agent)).
  { unfold s1, acceptOrder. rewrite Ha, Hv, Hav, Ho, Hd, Hst. simpl.
    rewrite save_order_loaded with (orderId := orderId) by assumption.
    eexists. split; [apply findById_update; [reflexivity | exact Ho]|].
    reflexivity. }
  destruct Ho1 as (o1 & Ho1 & Hd1). unfold acceptOrder.
  rewrite Ha', Hv', Hav', Ho1, Hd1. reflexivity.
Qed.

End Racing.

(** C1, what the code does: two agents whose attempts on the same
    confirmed order alternate at the awaits are both answered with
    success, both hold the order as active, and the stored order names
    the agent that saved last, whichever way [save] writes. *)
Theorem accept_race_both_succeed (m : save_mode) :
  let (s, rs) :=
    Interleaving.run m 19800000 alternating Sample.store both_attempts in
  map Interleaving.succeeded rs = [true; true]
  /\ map Interleaving.conflicted rs = [false; false]
  /\ option_map Order.deliveryAgent (findById Order._id "o1"%string (orders s))
     = Some (Some "a2"%string)
  /\ map DeliveryAgent.activeOrders (agents s)
     = [["o1"%string]; ["o1"%string]].
Proof.
  destruct m; vm_compute; repeat split.
Qed.

(* ================================================================== *)
(** * Shutting the change feed down *)
(* ================================================================== *)

Section Feed.

Import ChangeStreams.

(** The ['close'] listener looks at the state of the connection and at
    nothing else: a stream closed by [closeChangeStreams] and a stream
    that ended by itself are answered alike. *)
Lemma close_listener_blind (time : Z) (h : nat) (w : Watcher) :
  orderChangeStream w = Some h ->
  timers (react time Shutdown w) = timers (react time (StreamCloses h) w)
  /\ watching (react time Shutdown w)
     = watching (react time (StreamCloses h) w).
Proof.
  intros H. simpl. unfold closeChangeStreams. rewrite H. simpl. auto.
Qed.

(** While the connection is open, closing the feed leaves a timer for
    [createOrderChangeStream] behind. *)
Lemma shutdown_sets_timer (time : Z) (h : nat) (w : Watcher) :
  orderChangeStream w = Some h ->
  In h (watching w) ->
  readyState w = 1%nat ->
  orderChangeStream (react time Shutdown w) = None
  /\ ~ In h (watching (react time Shutdown w))
  /\ timers (react time Shutdown w) = timers w ++ [(time + delay)%Z].
Proof.
  intros Hs Hin Hr. simpl. unfold closeChangeStreams, closes. rewrite Hs.
  assert (E : existsb (Nat.eqb h) (watching w) = true).
  { apply existsb_exists. exists h. split; [assumption|].
    apply Nat.eqb_refl. }
  rewrite E. unfold on_close. simpl. rewrite Hr. simpl.
  repeat split.
  intros Hf. apply filter_In in Hf. destruct Hf as [_ Hf].
  now rewrite Nat.eqb_refl in Hf.
Qed.

(** With the connection down the listener stays quiet. *)
Lemma shutdown_quiet_when_disconnected (time : Z) (w : Watcher) :
  readyState w <> 1%nat ->
  timers (react time Shutdown w) = timers w.
Proof.
  intros Hr. simpl. unfold closeChangeStreams, closes, on_close.
  destruct (orderChangeStream w) as [h|]; [|reflexivity]. simpl.
  destruct (existsb (Nat.eqb h) (watching w)); [|reflexivity]. simpl.
  apply Nat.eqb_neq in Hr. now rewrite Hr.
Qed.

End Feed.

(** C9, what the code does: the feed is shut down at time 0 while the
    connection is open, as [gracefulShutdown] does; the listener of
    ['close'] sets the timer, and when it fires at 5000 a new stream is
    opened and stored in [orderChangeStream]. *)
Theorem shutdown_reconnects :
  let stopped := ChangeStreams.react 0 ChangeStreams.Shutdown watcher_at_work in
  let later :=
    ChangeStreams.history
      [(0%Z, ChangeStreams.Shutdown); (5000%Z, ChangeStreams.TimerFires false)]
      watcher_at_work in
  ChangeStreams.orderChangeStream stopped = None
  /\ ChangeStreams.watching stopped = []
  /\ ChangeStreams.timers stopped = [5000%Z]
  /\ ChangeStreams.orderChangeStream later = Some 1%nat
  /\ ChangeStreams.watching later = [1%nat]
  /\ ChangeStreams.reconnects_between watcher_at_work later = 1%nat.
Proof.
  vm_compute. repeat split.
Qed.

(* ================================================================== *)
(** * The text of a distance *)
(* ================================================================== *)

Section Digits.

Local Open Scope string_scope.

Lemma all_digits_app (a b : string) :
  all_digits (a ++ b) = all_digits a && all_digits b.
Proof.
  induction a as [|c a IH]; simpl; [reflexivity|].
  now rewrite IH, andb_assoc.
Qed.

Lemma length_app (a b : string) :
  String.length (a ++ b) = (String.length a + String.length b)%nat.
Proof.
  induction a as [|c a IH]; simpl; [reflexivity | now rewrite IH].
Qed.

Lemma all_digits_uint (d : Decimal.uint) :
  all_digits (NilEmpty.string_of_uint d) = true.
Proof.
  induction d; simpl; auto.
Qed.

Lemma decimal_digits (n : Z) : all_digits (JS.decimal n) = true.
Proof.
  unfold JS.decimal, NilZero.string_of_uint.
  destruct (N.to_uint (Z.to_N n)); try reflexivity;
    apply all_digits_uint.
Qed.

Lemma decimal_nonempty (n : Z) : (1 <= String.length (JS.decimal n))%nat.
Proof.
  unfold JS.decimal, NilZero.string_of_uint.
  destruct (N.to_uint (Z.to_N n)); simpl; lia.
Qed.

Lemma zeros_digits (k : nat) : all_digits (JS.zeros k) = true.
Proof.
  induction k; simpl; auto.
Qed.

Lemma zeros_length (k : nat) : String.length (JS.zeros k) = k.
Proof.
  induction k; simpl; auto.
Qed.

(** Cutting a string in two at [a]. *)
Lemma substring_split (s : string) (a : nat) :
  (a <= String.length s)%nat ->
  substring 0 a s ++ substring a (String.length s - a) s = s
  /\ String.length (substring 0 a s) = a
  /\ String.length (substring a (String.length s - a) s)
     = (String.length s - a)%nat.
Proof.
  revert a. induction s as [|c s IH]; intros a Ha; simpl in Ha.
  - assert (a = 0%nat) by lia. subst. simpl. auto.
  - destruct a as [|a].
    + simpl. clear IH Ha.
      assert (H : forall t, substring 0 (String.length t) t = t).
      { induction t as [|x t IHt]; simpl; [reflexivity | now rewrite IHt]. }
      rewrite H. auto.
    + simpl. destruct (IH a) as (E1 & E2 & E3); [lia|].
      rewrite E1, E2, E3. auto.
Qed.

End Digits.

Section Formatting.

Import JS.
Local Open Scope string_scope.

Variable shortest : Q -> string.

(** [toFixed (2)] of a value that is not negative and below [10^21]: an
    integer part, the point, and exactly two digits. *)
Lemma toFixed_two_decimals (x : Q) :
  (0 <= x)%Q -> (x < ten21)%Q ->
  exists ip fp,
    toFixed shortest 2 (Num x) = ip ++ "." ++ fp
    /\ String.length fp = 2%nat
    /\ (1 <= String.length ip)%nat
    /\ all_digits ip = true
    /\ all_digits fp = true
    /\ ip ++ fp = hundredths x.
Proof.
  intros H0 H21. unfold toFixed.
  assert (Habs : (Qabs x == x)%Q) by now apply Qabs_pos.
  assert (E1 : Qle_bool ten21 (Qabs x) = false).
  { destruct (Qle_bool ten21 (Qabs x)) eqn:E; [|reflexivity].
    apply Qle_bool_iff in E. rewrite Habs in E.
    exfalso. apply (Qlt_irrefl x). eapply Qlt_le_trans; eassumption. }
  assert (E2 : Qle_bool 0 x = true) by now apply Qle_bool_iff.
  rewrite E1, E2.
  assert (En : Qfloor (Qabs x * inject_Z (10 ^ Z.of_nat 2) + (1 # 2))
               = Qfloor (x * 100 + (1 # 2))).
  { apply Qfloor_comp. rewrite Habs. reflexivity. }
  rewrite En. fold (hundredths x).
  set (m := hundredths x).
  assert (Hk : (3 <= String.length m)%nat).
  { unfold m, hundredths. cbv zeta. rewrite length_app, zeros_length. lia. }
  assert (Hd : all_digits m = true).
  { unfold m, hundredths. cbv zeta.
    now rewrite all_digits_app, zeros_digits, decimal_digits. }
  destruct (substring_split m (a := String.length m - 2)) as (S1 & S2 & S3);
    [lia|].
  replace (String.length m - (String.length m - 2))%nat with 2%nat in *
    by lia.
  exists (substring 0 (String.length m - 2) m),
         (substring (String.length m - 2) 2 m).
  rewrite <- S1 in Hd. rewrite all_digits_app in Hd.
  apply andb_true_iff in Hd. destruct Hd as [Hd1 Hd2].
  repeat split; auto. lia.
Qed.

(** [Math.round] then the template literal, for a value from 0 to below
    1000: the decimal digits of the nearest integer. *)
Lemma rounded_metres (q : Q) :
  (0 <= q)%Q -> (q < 1000)%Q ->
  Number_toString shortest (Math_round (Num q))
  = decimal (Qfloor (q + (1 # 2))).
Proof.
  intros H0 H1. unfold Math_round, Number_toString.
  set (n := Qfloor (q + (1 # 2))).
  assert (Hn0 : (0 <= n)%Z).
  { unfold n. apply Qfloor_resp_le with (x := 0%Q) (y := (q + (1 # 2))%Q).
    lra. }
  assert (Hn1 : (n <= 1000)%Z).
  { assert (Hlt : (n < 1001)%Z); [|lia].
    rewrite Zlt_Qlt. apply Qle_lt_trans with (y := (q + (1 # 2))%Q).
    - unfold n. apply Qfloor_le.
    - change (inject_Z 1001) with 1001%Q. lra. }
  assert (E1 : is_integer (inject_Z n) = true).
  { unfold is_integer. rewrite Qfloor_Z. apply Qeq_bool_iff. reflexivity. }
  assert (E2 : Qle_bool ten21 (Qabs (inject_Z n)) = false).
  { destruct (Qle_bool ten21 (Qabs (inject_Z n))) eqn:E; [|reflexivity].
    apply Qle_bool_iff in E.
    assert (Hq : (Qabs (inject_Z n) == inject_Z n)%Q).
    { apply Qabs_pos. unfold Qle. simpl. lia. }
    rewrite Hq in E. unfold ten21 in E. rewrite <- Zle_Qle in E. lia. }
  assert (E3 : Qle_bool 0 (inject_Z n) = true).
  { apply Qle_bool_iff. unfold Qle. simpl. lia. }
  rewrite E1, E2, E3. cbn [andb negb]. now rewrite Qfloor_Z.
Qed.

End Formatting.

(** ** Rounding to binary64 *)

Section Rounding.

Import JS.

Lemma Qpow2_pos (p : Z) : (0 < Qpow2 p)%Q.
Proof. unfold Qpow2. apply Qpower_0_lt. lra. Qed.

Lemma Qpow2_add (a b : Z) : (Qpow2 (a + b) == Qpow2 a * Qpow2 b)%Q.
Proof. unfold Qpow2. apply Qpower_plus. lra. Qed.

Lemma Qpow2_Z (a : Z) : (0 <= a)%Z -> (Qpow2 a == inject_Z (2 ^ a))%Q.
Proof. intros H. unfold Qpow2. now rewrite Zpower_Qpower. Qed.

Lemma Qlog2_spec (x : Q) : (0 < x)%Q -> (Qpow2 (Qlog2 x) <= x)%Q.
Proof.
  intros Hx. unfold Qlog2.
  destruct (Qle_bool _ x) eqn:E; [now apply Qle_bool_iff|]. clear E.
  destruct x as [a b].
  assert (Ha : (0 < a)%Z).
  { unfold Qlt in Hx. simpl in Hx. lia. }
  cbn [Qnum Qden].
  set (la := Z.log2 a). set (lb := Z.log2 (Zpos b)).
  destruct (Z.log2_spec a Ha) as [Ha1 _]. fold la in Ha1.
  destruct (Z.log2_spec (Zpos b) (Pos2Z.is_pos b)) as [_ Hb2]. fold lb in Hb2.
  assert (Hla : (0 <= la)%Z) by apply Z.log2_nonneg.
  assert (Hlb : (0 <= lb)%Z) by apply Z.log2_nonneg.
  pose proof (Qpow2_add (la - lb - 1) (Z.succ lb)) as Hadd.
  replace (la - lb - 1 + Z.succ lb)%Z with la in Hadd by lia.
  rewrite (@Qpow2_Z la Hla) in Hadd.
  rewrite (@Qpow2_Z (Z.succ lb)) in Hadd by lia.
  pose proof (Qpow2_pos (la - lb - 1)) as Hp.
  set (P := Qpow2 (la - lb - 1)) in *.
  rewrite (Qmake_Qdiv a b).
  apply Qle_shift_div_l.
  - unfold Qlt. simpl. lia.
  - apply Qle_trans with (y := inject_Z (2 ^ la)).
    + rewrite Hadd. apply Qmult_le_l; [exact Hp|]. rewrite <- Zle_Qle. lia.
    + rewrite <- Zle_Qle. exact Ha1.
Qed.

Lemma round_half_even_bounds (y : Q) :
  (0 <= y)%Q ->
  (0 <= round_half_even y)%Z /\ (inject_Z (round_half_even y) <= y + (1 # 2))%Q.
Proof.
  intros Hy. unfold round_half_even.
  set (f := Qfloor y).
  assert (Hf0 : (0 <= f)%Z).
  { unfold f. apply Qfloor_resp_le with (x := 0%Q) (y := y). exact Hy. }
  pose proof (Qfloor_le y) as Hfl. fold f in Hfl.
  assert (Hup : ((1 # 2) <= y - inject_Z f)%Q ->
                (inject_Z (f + 1) <= y + (1 # 2))%Q).
  { intros H. rewrite inject_Z_plus. change (inject_Z 1) with 1%Q. lra. }
  destruct (y - inject_Z f ?= 1 # 2)%Q eqn:C.
  - apply Qeq_alt in C.
    destruct (Z.even f); split; try lia; [lra | apply Hup; lra].
  - split; [lia | lra].
  - apply Qgt_alt in C. split; [lia | apply Hup; lra].
Qed.

Lemma round_pos_bounds (x : Q) :
  (1 <= x)%Q -> (x * (3 # 2) < Qpow2 1024)%Q ->
  exists r, round_pos x = Num r /\ (0 <= r)%Q /\ (r <= x * (3 # 2))%Q.
Proof.
  intros H1 Hbig. unfold round_pos.
  set (p := Z.max (Qlog2 x - 52) (-1074)).
  pose proof (Qpow2_pos p) as Hp.
  assert (Hpx : (Qpow2 p <= x)%Q).
  { unfold p. destruct (Z.max_spec (Qlog2 x - 52) (-1074)) as [[_ ->]|[_ ->]].
    - apply Qle_trans with (y := 1%Q); [|exact H1].
      unfold Qpow2, Qle. simpl. lia.
    - pose proof (Qpow2_add (Qlog2 x - 52) 52) as Hadd.
      replace (Qlog2 x - 52 + 52)%Z with (Qlog2 x) in Hadd by lia.
      pose proof (@Qlog2_spec x) as Hs.
      pose proof (Qpow2_pos (Qlog2 x - 52)) as Hq.
      assert (H52 : (1 <= Qpow2 52)%Q) by (unfold Qpow2, Qle; simpl; lia).
      assert (Hx0 : (0 < x)%Q) by lra. specialize (Hs Hx0).
      set (a := Qpow2 (Qlog2 x - 52)) in *. set (b := Qpow2 52) in *.
      set (c := Qpow2 (Qlog2 x)) in *. nra. }
  set (y := (x / Qpow2 p)%Q).
  assert (Hy : (0 <= y)%Q).
  { unfold y. apply Qle_shift_div_l; [exact Hp | lra]. }
  destruct (@round_half_even_bounds y Hy) as [Hm0 Hm1].
  set (m := round_half_even y) in *.
  assert (Hr0 : (0 <= inject_Z m * Qpow2 p)%Q).
  { apply Qmult_le_0_compat; [|lra]. unfold Qle. simpl. lia. }
  assert (Hr1 : (inject_Z m * Qpow2 p <= x * (3 # 2))%Q).
  { assert (Hyp : (y * Qpow2 p == x)%Q).
    { unfold y. field. lra. }
    assert (Hstep : (inject_Z m * Qpow2 p <= (y + (1 # 2)) * Qpow2 p)%Q).
    { apply Qmult_le_compat_r; [exact Hm1 | lra]. }
    set (P := Qpow2 p) in *. set (M := inject_Z m) in *. nra. }
  assert (E : Qle_bool (Qpow2 1024) (inject_Z m * Qpow2 p) = false).
  { destruct (Qle_bool _ _) eqn:E; [|reflexivity].
    apply Qle_bool_iff in E. set (B := Qpow2 1024) in *.
    set (R := (inject_Z m * Qpow2 p)%Q) in *. lra. }
  rewrite E. eexists. split; [reflexivity|]. split; assumption.
Qed.

Lemma kilometres (q : Q) :
  (1000 <= q)%Q -> (q < inject_Z (2 ^ 53 - 1))%Q ->
  exists x, number_div (Num q) (Num 1000) = Num x
            /\ (0 <= x)%Q /\ (x < ten21)%Q.
Proof.
  intros H1 H2. unfold number_div.
  change (1000 ?= 0)%Q with Gt. cbv iota.
  unfold round_binary64.
  assert (Hpos : (0 < q / 1000)%Q).
  { apply Qlt_shift_div_l; lra. }
  rewrite (proj1 (Qgt_alt _ _) Hpos).
  assert (Hone : (1 <= q / 1000)%Q).
  { apply Qle_shift_div_l; lra. }
  assert (Hmax : (inject_Z (2 ^ 53 - 1) == 9007199254740991)%Q) by reflexivity.
  assert (Hk : (q / 1000 * 1000 == q)%Q) by (field; lra).
  assert (Hbig : (q / 1000 * (3 # 2) < Qpow2 1024)%Q).
  { apply Qlt_le_trans with (y := inject_Z (10 ^ 21)).
    - change (inject_Z (10 ^ 21)) with 1000000000000000000000%Q.
      rewrite Hmax in H2. set (k := (q / 1000)%Q) in *. lra.
    - unfold Qpow2, Qle. simpl. lia. }
  destruct (@round_pos_bounds (q / 1000) Hone Hbig) as (r & -> & Hr0 & Hr1).
  exists r. split; [reflexivity|]. split; [exact Hr0|].
  unfold ten21. change (inject_Z (10 ^ 21)) with 1000000000000000000000%Q.
  rewrite Hmax in H2. set (k := (q / 1000)%Q) in *. lra.
Qed.

End Rounding.

Lemma append_assoc (a b c : string) :
  ((a ++ b) ++ c = a ++ b ++ c)%string.
Proof.
  induction a as [|x a IH]; simpl; [reflexivity | now rewrite IH].
Qed.

Section Annotation.

Import JS.
Local Open Scope string_scope.

Variable calc : jsval -> jsval -> jsval -> jsval -> Controller.throws number.
Variable sh : Q -> string.

(** The annotation, for a distance function that returns: for a
    candidate whose distance is computed as [d >= 0] metres, the text is
    the integer nearest to [d] followed by [" m"] when [d < 1000];
    otherwise it is [d / 1000] with an integer part, a point and exactly
    two digits, followed by [" km"]; and [withinDeliveryRange] is true
    exactly when [d <= 2000]. *)
Lemma distance_annotation (latitude longitude : jsval) (o : Order.t)
        (q : Q) :
  Controller.exact_distance calc latitude longitude o = inr (Num q) ->
  (0 <= q)%Q ->
  let l := Controller.with_distance calc sh latitude longitude o in
  value (distance l) = Num q
  /\ ((q < 1000)%Q ->
      text (distance l) = decimal (Qfloor (q + (1 # 2))) ++ " m")
  /\ ((1000 <= q)%Q -> (q < inject_Z (2 ^ 53 - 1))%Q ->
      exists x ip fp,
        number_div (Num q) (Num 1000) = Num x
        /\ text (distance l) = ip ++ "." ++ fp ++ " km"
        /\ String.length fp = 2%nat
        /\ (1 <= String.length ip)%nat
        /\ all_digits ip = true
        /\ all_digits fp = true
        /\ ip ++ fp = hundredths x)
  /\ (withinDeliveryRange l = Some true <-> (q <= 2000)%Q)
  /\ (withinDeliveryRange l = Some false <-> ~ (q <= 2000)%Q).
Proof.
  intros Hd H0. cbv zeta. unfold Controller.with_distance. rewrite Hd.
  cbn [value distance text withinDeliveryRange].
  split; [reflexivity|]. split; [|split; [|split]].
  - intros Hlt. unfold Controller.distance_text.
    assert (E : number_lt (Num q) (Num 1000) = true).
    { simpl. destruct (Qle_bool 1000 q) eqn:E; [|reflexivity].
      apply Qle_bool_iff in E. lra. }
    rewrite E. now rewrite rounded_metres.
  - intros Hge Hmax. unfold Controller.distance_text.
    assert (E : number_lt (Num q) (Num 1000) = false).
    { simpl. apply negb_false_iff. now apply Qle_bool_iff. }
    rewrite E.
    destruct (@kilometres q Hge Hmax) as (x & Hx & Hx0 & Hx1).
    destruct (@toFixed_two_decimals sh x Hx0 Hx1)
      as (ip & fp & Ht & Hl & Hi & Hdi & Hdf & Hh).
    exists x, ip, fp. rewrite Hx, Ht.
    repeat split; auto.
    now rewrite !append_assoc.
  - unfold Controller.maxDistance. simpl. split.
    + intros H. injection H as H. now apply Qle_bool_iff.
    + intros H. f_equal. now apply Qle_bool_iff.
  - unfold Controller.maxDistance. simpl. split.
    + intros H. injection H as H. intros Hle.
      apply Qle_bool_iff in Hle. congruence.
    + intros H. f_equal. destruct (Qle_bool q 2000) eqn:E; [|reflexivity].
      apply Qle_bool_iff in E. contradiction.
Qed.
End Annotation.

Section AsWritten.

Import JS Controller.
Local Open Scope string_scope.

Variable geoNear : list jsval -> number -> Order.t -> bool.
Variable shortest : Q -> string.

(** No call of the distance function returns. *)
Lemma exact_distance_throws (latitude longitude : jsval) (o : Order.t) :
  exists e,
    exact_distance calculateDistance_as_written latitude longitude o = inl e
    /\ e = match destructure (Order.pickupLocation o) with
           | inl e' => e'
           | inr _ => not_defined "calculateDistance"
           end.
Proof.
  unfold exact_distance.
  destruct (destructure (Order.pickupLocation o)) as [e|[a b]];
    eexists; split; reflexivity.
Qed.

Lemma with_distance_as_written (latitude longitude : jsval) (o : Order.t) :
  with_distance calculateDistance_as_written shortest latitude longitude o
  = marked_unknown o.
Proof.
  unfold with_distance.
  destruct (exact_distance_throws latitude longitude o) as (e & -> & _).
  reflexivity.
Qed.

(** Orders that are all marked alike keep their order when sorted. *)
Lemma sort_marked_unknown (l : list Order.t) :
  sort by_distance (map marked_unknown l) = map marked_unknown l.
Proof.
  induction l as [|x rest IH]; [reflexivity|].
  cbn [map sort]. rewrite IH.
  destruct rest as [|y rest']; reflexivity.
Qed.

Lemma ordersWithDistance_as_written (rejected : list ObjectId) (all : bool)
      (longitude latitude : jsval) (s : Store) :
  ordersWithDistance calculateDistance_as_written geoNear shortest rejected
    all longitude latitude s
  = map marked_unknown
      (filter (candidate geoNear rejected all longitude latitude) (orders s)).
Proof.
  unfold ordersWithDistance.
  rewrite (map_ext _ marked_unknown (with_distance_as_written latitude longitude)).
  apply sort_marked_unknown.
Qed.

(** The listing for an agent that is delivering nothing. *)
Lemma idle_listing_as_written (req : Principal) (query : jsval) (s : Store)
      (agent : DeliveryAgent.t) (longitude latitude : jsval) :
  agent_of req s = Some agent ->
  DeliveryAgent.isVerified agent = true ->
  DeliveryAgent.isAvailable agent = true ->
  destructure (DeliveryAgent.currentLocation agent)
  = inr (longitude, latitude) ->
  find_in (DeliveryAgent.activeOrders agent) ["out_for_delivery"] (orders s)
  = [] ->
  let all :=
    match query with
    | VString q => String.eqb q "true"
    | _ => false
    end in
  let found :=
    filter (candidate geoNear (rejected_or_empty agent) all longitude
              latitude) (orders s) in
  getNearbyOrders calculateDistance_as_written geoNear shortest req query s
  = mkOutcome
      (Success 200
         (if all then "All confirmed orders fetched successfully"
          else "Nearby orders fetched successfully")
         (P_orders (List.length found) all maxDistance
            (map marked_unknown found)))
      s [].
Proof.
  intros Ha Hv Hav Hloc Hact. cbv zeta. unfold getNearbyOrders.
  rewrite Ha, Hv, Hav, Hloc. cbn [negb].
  rewrite ordersWithDistance_as_written, Hact.
  cbn [activeOrdersWithDistance]. now rewrite app_nil_r, length_map.
Qed.

(** C7, what the code does: the module never defines [calculateDistance],
    so no distance is computed for any order at any position: every
    candidate is returned with the value [Number.MAX_SAFE_INTEGER], the
    text ["Unknown"], the error ["Invalid coordinates"] and
    [withinDeliveryRange] false.  So is the confirmed order 1500 m from
    the agent, which the listing returns as its one candidate, with all
    confirmed orders asked for and, where the proximity query finds it,
    without. *)
Theorem distance_never_computed (latitude longitude : jsval) (o : Order.t) :
  (forall d,
     exact_distance calculateDistance_as_written latitude longitude o
     <> inr d)
  /\ with_distance calculateDistance_as_written shortest latitude longitude o
     = marked_unknown o
  /\ answer (getNearbyOrders calculateDistance_as_written geoNear shortest
               Sample.asha (VString "true") Sequel.scenario)
     = Success 200 "All confirmed orders fetched successfully"
         (P_orders 1 true maxDistance [marked_unknown Sequel.order5])
  /\ (geoNear [Sequel.longitude; Sequel.latitude] maxDistance Sequel.order5
      = true ->
      answer (getNearbyOrders calculateDistance_as_written geoNear shortest
                Sample.asha (VString "false") Sequel.scenario)
      = Success 200 "Nearby orders fetched successfully"
          (P_orders 1 false maxDistance [marked_unknown Sequel.order5])).
Proof.
  split; [|split; [apply with_distance_as_written|split]].
  - intros d H.
    destruct (exact_distance_throws latitude longitude o) as (e & E & _).
    congruence.
  - rewrite (@idle_listing_as_written Sample.asha (VString "true")
               Sequel.scenario Sample.agentA Sequel.longitude
               Sequel.latitude eq_refl eq_refl eq_refl eq_refl eq_refl).
    reflexivity.
  - intros Hnear.
    rewrite (@idle_listing_as_written Sample.asha (VString "false")
               Sequel.scenario Sample.agentA Sequel.longitude
               Sequel.latitude eq_refl eq_refl eq_refl eq_refl eq_refl).
    cbn [answer]. unfold candidate. cbn [orders Sequel.scenario filter].
    rewrite Hnear. reflexivity.
Qed.


End AsWritten.

(* ================================================================== *)
(** * The ranked candidates *)
(* ================================================================== *)

Section Sorting.

Import JS Controller.

Variable A : Type.
Variable comparefn : A -> A -> number.

Lemma insert_Permutation (x : A) (l : list A) :
  Permutation (x :: l) (insert comparefn x l).
Proof.
  induction l as [|y rest IH]; simpl; [reflexivity|].
  destruct (goes_after comparefn x y); [|reflexivity].
  rewrite perm_swap. now apply perm_skip.
Qed.

(** Sorting rearranges, it neither drops nor adds. *)
Lemma sort_Permutation (l : list A) : Permutation l (sort comparefn l).
Proof.
  induction l as [|x rest IH]; simpl; [reflexivity|].
  rewrite <- insert_Permutation. now apply perm_skip.
Qed.

(** An ordering the comparison function agrees with. *)
Variable le : A -> A -> Prop.
Variable ok : A -> Prop.
Hypothesis le_trans : forall a b c, ok a -> ok b -> ok c ->
                                    le a b -> le b c -> le a c.
Hypothesis before : forall a b, ok a -> ok b ->
                                goes_after comparefn a b = false -> le a b.
Hypothesis behind : forall a b, ok a -> ok b ->
                                goes_after comparefn a b = true -> le b a.

Lemma insert_ok (x : A) (l : list A) :
  ok x -> Forall ok l -> Forall ok (insert comparefn x l).
Proof.
  intros Hx Hl. apply (Permutation_Forall (insert_Permutation x l)).
  now constructor.
Qed.




End Sorting.

Section Ranking.

Import JS Controller.
Local Open Scope string_scope.

Variable calculateDistance :
  jsval -> jsval -> jsval -> jsval -> throws number.
Variable geoNear : list jsval -> number -> Order.t -> bool.
Variable shortest : Q -> string.









Lemma order_with_distance (latitude longitude : jsval) (l : list Order.t) :
  map order (map (with_distance calculateDistance shortest latitude longitude) l)
  = l.
Proof.
  rewrite map_map. rewrite <- (map_id l) at 2. apply map_ext.
  intros o. unfold with_distance.
  destruct (exact_distance calculateDistance latitude longitude o);
    reflexivity.
Qed.



End Ranking.

(* ================================================================== *)
(** * The handlers case by case *)
(* ================================================================== *)

Section Cases.

Import Controller.
Local Open Scope string_scope.

Variable mode : save_mode.
Variable tza : Z.

Lemma refused_not_succeeded (s : Store) (out : Outcome) :
  refused s out -> ~ went_through out.
Proof.
  intros [(c & m & H) _] (c' & m' & b & H'). congruence.
Qed.

Ltac refuse := left; split; [do 2 eexists; reflexivity | split; reflexivity].

Lemma acceptOrder_cases (req : Principal) (orderId : ObjectId) (now : clock)
      (s : Store) :
  refused s (acceptOrder mode tza req orderId now s)
  \/ exists agent o,
       may_accept req orderId s agent o
       /\ went_through (acceptOrder mode tza req orderId now s).
Proof.
  unfold acceptOrder, may_accept.
  destruct (agent_of req s) as [agent|]; [|refuse].
  destruct (DeliveryAgent.isVerified agent) eqn:Hv; [|refuse].
  destruct (DeliveryAgent.isAvailable agent) eqn:Hav; [|refuse].
  destruct (findById Order._id orderId (orders s)) as [o|] eqn:Ho; [|refuse].
  destruct (Order.deliveryAgent o) eqn:Hd; [refuse|].
  destruct (String.eqb (Order.status o) "confirmed") eqn:Hst; [|refuse].
  apply String.eqb_eq in Hst. right. exists agent, o. simpl.
  split; [auto 10|]. do 3 eexists. reflexivity.
Qed.

(** X1: [acceptOrder] succeeds exactly when the asking user has an agent
    profile that is verified and available and the order exists, has no
    agent and is confirmed; in every other case it answers a failure,
    writes nothing and emits nothing. *)
Theorem acceptOrder_succeeds_iff (req : Principal) (orderId : ObjectId)
        (now : clock) (s : Store) :
  (went_through (acceptOrder mode tza req orderId now s)
   <-> exists agent o, may_accept req orderId s agent o)
  /\ (~ went_through (acceptOrder mode tza req orderId now s) ->
      refused s (acceptOrder mode tza req orderId now s)).
Proof.
  destruct (acceptOrder_cases req orderId now s) as [Hr|(agent & o & Hm & Hs)].
  - pose proof (refused_not_succeeded Hr) as Hn. split; [|auto].
    split; [contradiction|].
    intros (agent & o & Ha & Hv & Hav & Ho & Hd & Hst). exfalso. apply Hn.
    unfold acceptOrder. rewrite Ha, Hv, Hav, Ho, Hd, Hst. simpl.
    do 3 eexists. reflexivity.
  - split; [|contradiction]. split; eauto.
Qed.

Lemma completeDelivery_cases (req : Principal) (orderId : ObjectId)
      (now : clock) (s : Store) :
  refused s (completeDelivery mode req orderId now s)
  \/ exists agent o,
       may_complete req orderId s agent o
       /\ went_through (completeDelivery mode req orderId now s).
Proof.
  unfold completeDelivery, may_complete.
  destruct (agent_of req s) as [agent|]; [|refuse].
  destruct (findById Order._id orderId (orders s)) as [o|] eqn:Ho; [|refuse].
  destruct (Order.deliveryAgent o) as [owner|] eqn:Hd; [|refuse].
  unfold equals.
  destruct (String.eqb owner (DeliveryAgent._id agent)) eqn:E; [|refuse].
  apply String.eqb_eq in E. subst owner. simpl.
  destruct (String.eqb (Order.status o) "out_for_delivery") eqn:Hst;
    [|refuse].
  apply String.eqb_eq in Hst. right. exists agent, o. simpl.
  split; [auto 10|]. do 3 eexists. reflexivity.
Qed.

(** X2: [completeDelivery] succeeds exactly when the asking user has an
    agent profile and the order exists, is assigned to that agent and is
    out for delivery; otherwise it answers a failure, writes nothing and
    emits nothing. *)
Theorem completeDelivery_succeeds_iff (req : Principal) (orderId : ObjectId)
        (now : clock) (s : Store) :
  (went_through (completeDelivery mode req orderId now s)
   <-> exists agent o, may_complete req orderId s agent o)
  /\ (~ went_through (completeDelivery mode req orderId now s) ->
      refused s (completeDelivery mode req orderId now s)).
Proof.
  destruct (completeDelivery_cases req orderId now s)
    as [Hr|(agent & o & Hm & Hs)].
  - pose proof (refused_not_succeeded Hr) as Hn. split; [|auto].
    split; [contradiction|].
    intros (agent & o & Ha & Ho & Hd & Hst). exfalso. apply Hn.
    unfold completeDelivery. rewrite Ha, Ho, Hd, Hst. unfold equals.
    rewrite String.eqb_refl. simpl. do 3 eexists. reflexivity.
  - split; [|contradiction]. split; eauto.
Qed.

End Cases.

Section Found.

Variable doc : Type.
Variable id_of : doc -> ObjectId.

(** An update changes the document that a lookup by the id finds, and no
    other. *)
Lemma update_by_id_found (id : ObjectId) (f : doc -> doc) (coll : list doc) :
  Forall2 (fun x y => y = x \/ (findById id_of id coll = Some x /\ y = f x))
    coll (update_by_id id_of id f coll).
Proof.
  unfold findById. induction coll as [|x rest IH]; simpl; [constructor|].
  destruct (String.eqb (id_of x) id) eqn:E.
  - constructor; [right; auto|].
    clear. induction rest; constructor; auto.
  - constructor; [left; reflexivity | exact IH].
Qed.

Lemma Forall2_same (R : doc -> doc -> Prop) (l : list doc) :
  (forall x, R x x) -> Forall2 R l l.
Proof.
  intros H. induction l; constructor; auto.
Qed.

Lemma Forall2_nth (R : doc -> doc -> Prop) (l l' : list doc) (i : nat)
      (x : doc) :
  Forall2 R l l' -> nth_error l i = Some x ->
  exists y, nth_error l' i = Some y /\ R x y.
Proof.
  intros H. revert i. induction H as [|a b l l' Hab _ IH]; intros i Hi.
  - destruct i; discriminate.
  - destruct i as [|i]; simpl in *.
    + injection Hi as ->. eauto.
    + now apply IH.
Qed.

Lemma Forall2_both (R S : doc -> doc -> Prop) (l l' : list doc) :
  Forall2 R l l' -> Forall2 S l l' ->
  Forall2 (fun x y => R x y /\ S x y) l l'.
Proof.
  intros H. induction H as [|a b l l' Hab _ IH]; intros H2.
  - constructor.
  - inversion H2; subst. constructor; [split; assumption | now apply IH].
Qed.

End Found.

Section Moves.

Import Controller.
Local Open Scope string_scope.

Variable P : Platform.

(** Under one request every order keeps its place and makes one move. *)
Lemma handle_order_moves (r : request) (now : clock) (s : Store) :
  Forall2 order_move (orders s) (orders (after (handle P r now s))).
Proof.
  assert (Hsame : forall l : list Order.t, Forall2 order_move l l).
  { intros l. apply Forall2_same. intros x. now left. }
  pose proof (other_routes_orders P r now s) as Hother.
  destruct r; try (rewrite Hother; apply Hsame); simpl.
  - destruct (acceptOrder_orders (mode P) (tza P) req orderId now s)
      as [[E _]|(agent & o & Ho & Hans & E)]; rewrite E; [apply Hsame|].
    destruct (acceptOrder_cases (mode P) (tza P) req orderId now s)
      as [[(c & m & Hf) _]|(agent' & o' & Hm & _)]; [congruence|].
    destruct Hm as (_ & _ & _ & Ho' & Hd & Hst).
    rewrite Ho in Ho'. injection Ho' as <-.
    eapply Forall2_impl; [|apply update_by_id_found].
    intros x y [-> | [Hx ->]]; [now left|].
    rewrite Ho in Hx. injection Hx as <-.
    right. left. repeat split; auto. discriminate.
  - destruct (completeDelivery_orders (mode P) req orderId now s)
      as [[E _]|(agent & o & Ho & Hans & E)]; rewrite E; [apply Hsame|].
    destruct (completeDelivery_cases (mode P) req orderId now s)
      as [[(c & m & Hf) _]|(agent' & o' & Hm & _)]; [congruence|].
    destruct Hm as (_ & Ho' & Hd & Hst).
    rewrite Ho in Ho'. injection Ho' as <-.
    eapply Forall2_impl; [|apply update_by_id_found].
    intros x y [-> | [Hx ->]]; [now left|].
    rewrite Ho in Hx. injection Hx as <-.
    right. right. repeat split; auto. rewrite Hd. discriminate.
Qed.

(** Under one request every order keeps its id and its history is
    continued by at most one entry. *)
Lemma handle_order_grows (r : request) (now : clock) (s : Store) :
  Forall2 (grows now) (orders s) (orders (after (handle P r now s))).
Proof.
  assert (Hsame : forall l : list Order.t, Forall2 (grows now) l l).
  { intros l. apply Forall2_same. apply grows_refl. }
  pose proof (other_routes_orders P r now s) as Hother.
  destruct r; try (rewrite Hother; apply Hsame); simpl.
  - destruct (acceptOrder_orders (mode P) (tza P) req orderId now s)
      as [[E _]|(agent & o & Ho & _ & E)]; rewrite E; [apply Hsame|].
    apply update_by_id_Forall2; [apply grows_refl|].
    intros x _. eapply grows_push; reflexivity.
  - destruct (completeDelivery_orders (mode P) req orderId now s)
      as [[E _]|(agent & o & Ho & _ & E)]; rewrite E; [apply Hsame|].
    apply update_by_id_Forall2; [apply grows_refl|].
    intros x _. eapply grows_push; reflexivity.
Qed.

(** X3: whatever the request, every stored order keeps its place and its
    id, and either stays as it is, goes from confirmed without agent to
    out for delivery with an agent, or goes from out for delivery to
    delivered under the same agent: no request makes an order, removes
    one, takes an agent off an order or moves a status back. *)
Theorem orders_move_forward (r : request) (now : clock) (s : Store) :
  Forall2 (fun o o' => Order._id o' = Order._id o /\ order_move o o')
    (orders s) (orders (after (handle P r now s))).
Proof.
  apply Forall2_both; [|apply handle_order_moves].
  eapply Forall2_impl; [|apply (handle_order_grows r now s)].
  intros o o' (added & [Hid _] & _). exact Hid.
Qed.

(** X4: an order that is neither confirmed nor out for delivery, such as
    a delivered or a cancelled one, is left exactly as it is by every
    request. *)
Theorem settled_orders_stay (r : request) (now : clock) (s : Store)
        (i : nat) (o : Order.t) :
  nth_error (orders s) i = Some o ->
  Order.status o <> "confirmed" ->
  Order.status o <> "out_for_delivery" ->
  nth_error (orders (after (handle P r now s))) i = Some o.
Proof.
  intros Hi H1 H2.
  destruct (Forall2_nth i (handle_order_moves r now s) Hi)
    as (y & Hy & [-> | [(Hc & _) | (Hc & _)]]); [exact Hy | |]; contradiction.
Qed.

(** X5: if every stored order has an agent exactly when it is out for
    delivery or delivered, this is still so after any request. *)
Theorem assigned_when_moving_kept (r : request) (now : clock) (s : Store) :
  Forall assigned_when_moving (orders s) ->
  Forall assigned_when_moving (orders (after (handle P r now s))).
Proof.
  intros Hall. pose proof (handle_order_moves r now s) as Hm.
  induction Hm as [|o o' l l' Hoo' _ IH]; [constructor|].
  inversion Hall as [|? ? Ho Hl]; subst.
  constructor; [|now apply IH].
  destruct Hoo' as [-> | [(_ & _ & Hs & Hd) | (_ & Hd0 & Hs & Hd)]];
    [exact Ho | |]; unfold assigned_when_moving; rewrite Hs.
  - split; auto.
  - rewrite Hd. split; auto.
Qed.

End Moves.

Section Completion.

Import Controller.
Local Open Scope string_scope.

Variable mode : save_mode.
Variable tza : Z.

Lemma agent_by_user (req : Principal) (s : Store) (agent : DeliveryAgent.t) :
  agent_of req s = Some agent -> by_user (id req) agent = true.
Proof.
  unfold agent_of, findOne. intros H. apply find_some in H. apply H.
Qed.

(** X6: when the agent an order is assigned to completes it, the stored
    order is delivered, with the first clock reading as its delivery
    time, the same agent and one more history entry; the order's id is
    gone from the agent's active orders and is the last of the agent's
    delivery history; and the owner of the order is notified once. *)
Theorem completeDelivery_completes (req : Principal) (orderId : ObjectId)
        (now : clock) (s : Store) (agent : DeliveryAgent.t) (o : Order.t) :
  unique_agents s ->
  may_complete req orderId s agent o ->
  exists (o' : Order.t) (agent' : DeliveryAgent.t) (entry : StatusEntry),
    answer (completeDelivery mode req orderId now s)
    = Success 200 "Delivery completed successfully" (P_order o')
    /\ findById Order._id orderId
         (orders (after (completeDelivery mode req orderId now s)))
       = Some o'
    /\ Order.status o' = "delivered"
    /\ Order.actualDeliveryTime o' = Some (now 0%nat)
    /\ Order.deliveryAgent o' = Some (DeliveryAgent._id agent)
    /\ Order.statusHistory o' = (Order.statusHistory o ++ [entry])%list
    /\ entry_status entry = "delivered"
    /\ timestamp entry = now 1%nat
    /\ agent_of req (after (completeDelivery mode req orderId now s))
       = Some agent'
    /\ DeliveryAgent.activeOrders agent'
       = filter (fun i => negb (equals i orderId))
           (DeliveryAgent.activeOrders agent)
    /\ ~ In orderId (DeliveryAgent.activeOrders agent')
    /\ DeliveryAgent.deliveryHistory agent'
       = (DeliveryAgent.deliveryHistory agent ++ [orderId])%list
    /\ map room (emitted (completeDelivery mode req orderId now s))
       = ["user_" ++ Order.user o].
Proof.
  intros Hu (Ha & Ho & Hd & Hst).
  pose proof (findById_id _ _ _ Ho) as Hid.
  unfold completeDelivery. rewrite Ha, Ho, Hd, Hst. unfold equals.
  rewrite String.eqb_refl. simpl.
  rewrite save_order_loaded with (orderId := orderId) by assumption.
  rewrite Hid.
  rewrite save_agent_loaded with (req := req) by assumption.
  set (changes := complete_changes agent (now 0%nat) (now 1%nat)).
  exists (changes o), (complete_agent_changes agent orderId agent).
  eexists.
  refine (conj eq_refl (conj _ (conj eq_refl (conj eq_refl (conj _
           (conj eq_refl (conj eq_refl (conj eq_refl (conj _
           (conj eq_refl (conj _ (conj eq_refl eq_refl)))))))))))).
  - simpl. apply findById_update; [reflexivity | assumption].
  - simpl. exact Hd.
  - simpl. unfold agent_of. apply findOne_update; try assumption.
    exact (@agent_by_user req s agent Ha).
  - simpl. intros Hin. apply filter_In in Hin. destruct Hin as [_ Hin].
    unfold equals in Hin. now rewrite String.eqb_refl in Hin.
Qed.

(** What a successful acceptance writes. *)
Lemma accept_writes (req : Principal) (orderId : ObjectId) (now : clock)
      (s : Store) (agent : DeliveryAgent.t) (o : Order.t) :
  unique_agents s ->
  may_accept req orderId s agent o ->
  let out := acceptOrder mode tza req orderId now s in
  let changes :=
    accept_changes req agent (in_30_minutes tza (now 0%nat)) (now 1%nat) in
  answer out = Success 200 "Order accepted for delivery" (P_order (changes o))
  /\ orders (after out) = update_by_id Order._id orderId changes (orders s)
  /\ agents (after out)
     = update_by_id DeliveryAgent._id (DeliveryAgent._id agent)
         (DeliveryAgent.push_activeOrders orderId) (agents s).
Proof.
  intros Hu (Ha & Hv & Hav & Ho & Hd & Hst).
  pose proof (findById_id _ _ _ Ho) as Hid.
  cbv zeta. unfold acceptOrder. rewrite Ha, Hv, Hav, Ho, Hd, Hst. simpl.
  rewrite save_order_loaded with (orderId := orderId) by assumption.
  rewrite Hid.
  rewrite save_agent_loaded with (req := req) by assumption.
  auto.
Qed.

(** What a successful completion writes. *)
Lemma complete_writes (req : Principal) (orderId : ObjectId) (now : clock)
      (s : Store) (agent : DeliveryAgent.t) (o : Order.t) :
  unique_agents s ->
  may_complete req orderId s agent o ->
  let out := completeDelivery mode req orderId now s in
  let changes := complete_changes agent (now 0%nat) (now 1%nat) in
  answer out
  = Success 200 "Delivery completed successfully" (P_order (changes o))
  /\ orders (after out) = update_by_id Order._id orderId changes (orders s)
  /\ agents (after out)
     = update_by_id DeliveryAgent._id (DeliveryAgent._id agent)
         (complete_agent_changes agent orderId) (agents s).
Proof.
  intros Hu (Ha & Ho & Hd & Hst).
  pose proof (findById_id _ _ _ Ho) as Hid.
  cbv zeta. unfold completeDelivery. rewrite Ha, Ho, Hd, Hst. unfold equals.
  rewrite String.eqb_refl. simpl.
  rewrite save_order_loaded with (orderId := orderId) by assumption.
  rewrite Hid.
  rewrite save_agent_loaded with (req := req) by assumption.
  auto.
Qed.

Lemma filter_other_snoc (l : list ObjectId) (i : ObjectId) :
  filter (fun k => negb (equals k i)) (l ++ [i])
  = filter (fun k => negb (equals k i)) l.
Proof.
  rewrite filter_app. simpl. unfold equals at 2.
  rewrite String.eqb_refl. simpl. apply app_nil_r.
Qed.

(** X7: an agent that accepts an order and then completes it: both calls
    succeed, the order ends delivered with the two entries added to its
    history, and the agent's active orders are those it had before,
    without the order, while its delivery history ends with the order. *)
Theorem accept_then_complete (req : Principal) (orderId : ObjectId)
        (now now' : clock) (s : Store) (agent : DeliveryAgent.t)
        (o : Order.t) :
  unique_agents s ->
  may_accept req orderId s agent o ->
  let s1 := after (acceptOrder mode tza req orderId now s) in
  let done := completeDelivery mode req orderId now' s1 in
  exists (o2 : Order.t) (agent2 : DeliveryAgent.t) (e1 e2 : StatusEntry),
    went_through done
    /\ findById Order._id orderId (orders (after done)) = Some o2
    /\ Order.status o2 = "delivered"
    /\ Order.deliveryAgent o2 = Some (DeliveryAgent._id agent)
    /\ Order.statusHistory o2 = (Order.statusHistory o ++ [e1; e2])%list
    /\ agent_of req (after done) = Some agent2
    /\ DeliveryAgent.activeOrders agent2
       = filter (fun i => negb (equals i orderId))
           (DeliveryAgent.activeOrders agent)
    /\ DeliveryAgent.deliveryHistory agent2
       = (DeliveryAgent.deliveryHistory agent ++ [orderId])%list.
Proof.
  intros Hu Hm s1 done.
  pose proof Hm as (Ha & Hv & Hav & Ho & Hd & Hst).
  pose proof (@agent_by_user req s agent Ha) as Hby.
  destruct (@accept_writes req orderId now s agent o Hu Hm) as (_ & Eo & Ea). cbv zeta in Eo, Ea.
  fold s1 in Eo, Ea.
  set (o1 := accept_changes req agent (in_30_minutes tza (now 0%nat))
               (now 1%nat) o) in *.
  set (a1 := DeliveryAgent.push_activeOrders orderId agent).
  assert (Hu1 : unique_agents s1).
  { unfold unique_agents. rewrite Ea.
    rewrite update_by_id_ids; [exact Hu | reflexivity]. }
  assert (Hm1 : may_complete req orderId s1 a1 o1).
  { unfold may_complete, agent_of. rewrite Eo, Ea.
    split; [apply findOne_update; assumption|].
    split; [apply findById_update; [reflexivity | exact Ho]|].
    split; reflexivity. }
  destruct (@complete_writes req orderId now' s1 a1 o1 Hu1 Hm1)
    as (Hans & Eo2 & Ea2).
  cbv zeta in Hans, Eo2, Ea2. fold done in Hans, Eo2, Ea2.
  destruct Hm1 as (Ha1 & Ho1 & _).
  exists (complete_changes a1 (now' 0%nat) (now' 1%nat) o1),
         (complete_agent_changes a1 orderId a1).
  eexists. eexists.
  split; [do 3 eexists; exact Hans|].
  split; [rewrite Eo2; apply findById_update; [reflexivity | exact Ho1]|].
  split; [reflexivity|]. split; [reflexivity|].
  split; [simpl; rewrite <- app_assoc; reflexivity|].
  split; [unfold agent_of; rewrite Ea2; apply findOne_update;
          [exact Hu1 | exact Hby | exact Ha1]|].
  split; [simpl; apply filter_other_snoc | reflexivity].
Qed.

End Completion.

Section Listing.

Import JS Controller.
Local Open Scope string_scope.

Variable calculateDistance :
  jsval -> jsval -> jsval -> jsval -> throws number.
Variable geoNear : list jsval -> number -> Order.t -> bool.
Variable shortest : Q -> string.

(** The orders behind the ranked candidates are those the query finds. *)
Lemma ranked_orders (rejected : list ObjectId) (all : bool)
      (longitude latitude : jsval) (s : Store) :
  Permutation
    (map order
       (ordersWithDistance calculateDistance geoNear shortest rejected all
          longitude latitude s))
    (filter (candidate geoNear rejected all longitude latitude) (orders s)).
Proof.
  unfold ordersWithDistance.
  rewrite <- (sort_Permutation by_distance).
  now rewrite order_with_distance.
Qed.

Lemma listed_is_candidate (rejected : list ObjectId) (all : bool)
      (longitude latitude : jsval) (s : Store) (l : Listed) :
  In l (ordersWithDistance calculateDistance geoNear shortest rejected all
          longitude latitude s) ->
  In (order l) (orders s)
  /\ candidate geoNear rejected all longitude latitude (order l) = true.
Proof.
  intros H. apply (in_map order) in H.
  apply (Permutation_in _ (ranked_orders rejected all longitude latitude s))
    in H.
  now apply filter_In in H.
Qed.

(** X8: an order that an agent has rejected is not among the candidates
    listed to that agent afterwards, near or far, whether all confirmed
    orders are asked for or not. *)
Theorem rejected_order_not_listed (m : save_mode) (req : Principal)
        (orderId : ObjectId) (s : Store) (agent : DeliveryAgent.t)
        (o : Order.t) :
  unique_agents s ->
  may_reject req orderId s agent o ->
  exists agent',
    agent_of req (after (rejectOrder m req orderId s)) = Some agent'
    /\ In orderId (rejected_or_empty agent')
    /\ forall all longitude latitude l,
         In l (ordersWithDistance calculateDistance geoNear shortest
                 (rejected_or_empty agent') all longitude latitude
                 (after (rejectOrder m req orderId s))) ->
         Order._id (order l) <> orderId.
Proof.
  intros Hu (Ha & Hv & Hav & Ho & Hd).
  rewrite (@rejectOrder_once m req orderId s agent o Hu Ha Hv Hav Ho Hd).
  cbn [after].
  assert (Hex : exists agent',
    agent_of req
      (if includes (rejected_or_empty agent) orderId then s
       else with_agents
              (update_by_id DeliveryAgent._id (DeliveryAgent._id agent)
                 (reject_changes agent orderId) (agents s)) s)
    = Some agent'
    /\ In orderId (rejected_or_empty agent')).
  { destruct (includes (rejected_or_empty agent) orderId) eqn:Hin.
    - exists agent. split; [exact Ha | now apply includes_In].
    - exists (reject_changes agent orderId agent). split.
      + unfold agent_of. simpl. apply findOne_update; try assumption.
        unfold agent_of, findOne in Ha. apply find_some in Ha.
        unfold reject_changes.
        destruct (DeliveryAgent.rejectedOrders agent); apply Ha.
      + rewrite rejected_after_changes. apply in_or_app. right. now left. }
  destruct Hex as (agent' & Ha' & Hin'). exists agent'.
  split; [exact Ha'|]. split; [exact Hin'|].
  intros all longitude latitude l Hl Heq.
  apply listed_is_candidate in Hl. destruct Hl as [_ Hc].
  unfold candidate in Hc. rewrite Heq in Hc.
  apply includes_In in Hin'. rewrite Hin' in Hc. discriminate.
Qed.

Lemma update_by_id_unique (id : ObjectId) (f : Order.t -> Order.t)
      (coll : list Order.t) (o x : Order.t) :
  (forall y, Order._id (f y) = Order._id y) ->
  NoDup (map Order._id coll) ->
  findById Order._id id coll = Some o ->
  In x (update_by_id Order._id id f coll) ->
  Order._id x = id ->
  x = f o.
Proof.
  intros Hf. unfold findById.
  induction coll as [|y rest IH]; simpl; intros Hnd Ho Hin Hid;
    [discriminate|].
  inversion Hnd as [|? ? Hy Hrest]; subst.
  destruct (String.eqb (Order._id y) (Order._id x)) eqn:E.
  - injection Ho as ->. destruct Hin as [Hin | Hin]; [now subst|].
    exfalso. apply Hy. apply String.eqb_eq in E. rewrite E.
    now apply in_map.
  - destruct Hin as [Hin | Hin].
    + subst. rewrite String.eqb_refl in E. discriminate.
    + now apply IH.
Qed.

(** X9: once an agent has accepted an order, the order is a candidate for
    nobody: no listing, for any agent, position or rejection list, shows
    it among the orders to take. *)
Theorem accepted_order_not_listed (m : save_mode) (tza : Z)
        (req : Principal) (orderId : ObjectId) (now : clock) (s : Store)
        (agent : DeliveryAgent.t) (o : Order.t) :
  unique_orders s ->
  may_accept req orderId s agent o ->
  forall rejected all longitude latitude l,
    In l (ordersWithDistance calculateDistance geoNear shortest rejected all
            longitude latitude (after (acceptOrder m tza req orderId now s)))
    ->
    Order._id (order l) <> orderId.
Proof.
  intros Hu (Ha & Hv & Hav & Ho & Hd & Hst) rejected all longitude latitude l
         Hl Heq.
  apply listed_is_candidate in Hl. destruct Hl as [Hin Hc].
  revert Hin. unfold acceptOrder. rewrite Ha, Hv, Hav, Ho, Hd, Hst. simpl.
  rewrite save_order_loaded with (orderId := orderId) by assumption.
  intros Hin.
  pose proof (@update_by_id_unique orderId
                (accept_changes req agent (in_30_minutes tza (now 0%nat))
                   (now 1%nat))
                (orders s) o (order l) (fun y => eq_refl) Hu Ho Hin Heq)
    as Hx.
  unfold candidate in Hc. rewrite Hx in Hc. simpl in Hc.
  rewrite andb_false_r in Hc. discriminate.
Qed.

(** The first error among the active orders is the error of the whole. *)
Lemma active_orders_throw (latitude longitude : jsval) (os : list Order.t)
      (o : Order.t) (e : string) :
  In o os ->
  exact_distance calculateDistance latitude longitude o = inl e ->
  exists e',
    activeOrdersWithDistance calculateDistance shortest latitude longitude os
    = inl e'.
Proof.
  induction os as [|x rest IH]; simpl; intros Hin He; [contradiction|].
  destruct (exact_distance calculateDistance latitude longitude x) eqn:Ex;
    [eauto|].
  destruct Hin as [-> | Hin]; [congruence|].
  destruct (IH Hin He) as (e' & ->). eauto.
Qed.

(** X10: one order that the agent is delivering and whose pickup
    coordinates cannot be read, or whose distance cannot be computed,
    makes the whole listing fail with status 500, candidates included. *)
Theorem listing_fails_on_active_order (req : Principal) (query : jsval)
        (s : Store) (agent : DeliveryAgent.t) (longitude latitude : jsval)
        (o : Order.t) (e : string) :
  agent_of req s = Some agent ->
  DeliveryAgent.isVerified agent = true ->
  DeliveryAgent.isAvailable agent = true ->
  destructure (DeliveryAgent.currentLocation agent)
  = inr (longitude, latitude) ->
  In o (orders s) ->
  In (Order._id o) (DeliveryAgent.activeOrders agent) ->
  Order.status o = "out_for_delivery" ->
  exact_distance calculateDistance latitude longitude o = inl e ->
  exists e',
    getNearbyOrders calculateDistance geoNear shortest req query s
    = mkOutcome (Failure 500 ("Error fetching nearby orders: " ++ e')) s [].
Proof.
  intros Ha Hv Hav Hloc Hin Hact Hst He.
  assert (Hf : In o (find_in (DeliveryAgent.activeOrders agent)
                       ["out_for_delivery"] (orders s))).
  { unfold find_in. apply filter_In. split; [exact Hin|].
    apply andb_true_iff. split; [now apply includes_In|].
    simpl. rewrite Hst. reflexivity. }
  destruct (active_orders_throw latitude longitude _ _ Hf He) as (e' & He').
  exists e'. unfold getNearbyOrders. rewrite Ha, Hv, Hav, Hloc. simpl.
  now rewrite He'.
Qed.

End Listing.

Section Agents.

Import JS Controller.
Local Open Scope string_scope.

Variable mode : save_mode.

Lemma locationUpdates_rooms (now : clock) (i : nat) (agent : DeliveryAgent.t)
      (os : list Order.t) :
  map room (locationUpdates now i agent os)
  = map (fun o => "order_" ++ Order._id o) os
  /\ Forall (fun e => exists orderId stamp,
                 data e = DeliveryLocationUpdate orderId
                            (DeliveryAgent._id agent)
                            (DeliveryAgent.currentLocation agent) stamp)
       (locationUpdates now i agent os).
Proof.
  revert i. induction os as [|o rest IH]; intros i; simpl.
  - split; constructor.
  - destruct (IH (S i)) as [E F]. rewrite E. split; [reflexivity|].
    constructor; [|exact F]. simpl. eauto.
Qed.

(** X11: a location update with two numbers other than zero stores the
    point [[longitude, latitude]], longitude first, on the agent and
    changes nothing else of the agent and no order; it sends one
    [deliveryLocationUpdate] carrying the new point to the room
    [order_<id>] of every active order of the agent that is confirmed,
    preparing or out for delivery, and to no other room. *)
Theorem updateLocation_stores_and_broadcasts (req : Principal)
        (longitude latitude : jsval) (now : clock) (s : Store)
        (agent : DeliveryAgent.t) :
  unique_agents s ->
  agent_of req s = Some agent ->
  nonzero_number longitude ->
  nonzero_number latitude ->
  let out := updateLocation mode req longitude latitude now s in
  let point := Some (mkGeoPoint "Point" (Some [longitude; latitude])) in
  answer out = Success 200 "Location updated successfully" (P_location point)
  /\ agent_of req (after out)
     = Some (DeliveryAgent.set_currentLocation point agent)
  /\ destructure point = inr (longitude, latitude)
  /\ orders (after out) = orders s
  /\ map room (emitted out)
     = map (fun o => "order_" ++ Order._id o)
         (find_in (DeliveryAgent.activeOrders agent)
            ["confirmed"; "preparing"; "out_for_delivery"] (orders s))
  /\ Forall (fun e => exists orderId stamp,
                 data e = DeliveryLocationUpdate orderId
                            (DeliveryAgent._id agent) point stamp)
       (emitted out).
Proof.
  intros Hu Ha Hlon Hlat. cbv zeta. unfold updateLocation.
  assert (T : forall v, nonzero_number v ->
                        truthy v = true /\ is_number v = true).
  { intros [| |b|[|sg|q]|str]; simpl; try contradiction; auto.
    intros Hq. split; [|reflexivity]. apply negb_true_iff.
    destruct (Qeq_bool q 0) eqn:E; [|reflexivity].
    apply Qeq_bool_iff in E. contradiction. }
  destruct (T _ Hlon) as [-> ->]. destruct (T _ Hlat) as [-> ->]. simpl.
  rewrite Ha.
  rewrite save_agent_loaded with (req := req) by assumption.
  cbn [answer after emitted orders with_agents].
  set (point := Some (mkGeoPoint "Point" (Some [longitude; latitude]))).
  set (agent' := DeliveryAgent.set_currentLocation point agent).
  refine (conj eq_refl (conj _ (conj eq_refl (conj eq_refl _)))).
  - unfold agent_of. simpl. apply findOne_update; try assumption.
    unfold agent_of, findOne in Ha. apply find_some in Ha. apply Ha.
  - change (DeliveryAgent.activeOrders agent')
      with (DeliveryAgent.activeOrders agent).
    destruct (DeliveryAgent.activeOrders agent) as [|a rest] eqn:Eact.
    + split; [|constructor]. simpl. unfold find_in. simpl.
      induction (orders s); simpl; auto.
    + destruct (locationUpdates_rooms now 0 agent'
                  (find_in (a :: rest)
                     ["confirmed"; "preparing"; "out_for_delivery"]
                     (orders s))) as [E F].
      split; [exact E | exact F].
Qed.

(** X12: the four routes that only read ([getNearbyOrders],
    [getAgentProfile], [getAllAgents], [getConfirmedOrders]) leave the
    whole store as it is and emit nothing, whatever they answer. *)
Theorem reading_routes_write_nothing (P : Platform) (r : request)
        (now : clock) (s : Store) :
  match r with
  | GetNearbyOrders _ _ | GetAgentProfile _ | GetAllAgents
  | GetConfirmedOrders _ =>
      after (handle P r now s) = s /\ emitted (handle P r now s) = []
  | _ => True
  end.
Proof.
  destruct r; simpl; try exact I.
  - unfold getNearbyOrders.
    destruct (agent_of req s) as [agent|]; [|auto].
    destruct (negb (DeliveryAgent.isVerified agent)); [auto|].
    destruct (negb (DeliveryAgent.isAvailable agent)); [auto|].
    destruct (destructure (DeliveryAgent.currentLocation agent)) as [e|[a b]];
      [auto|].
    match goal with
    | |- context [match ?x with inl _ => _ | inr _ => _ end] => destruct x
    end; auto.
  - unfold getAgentProfile. destruct (agent_of req s); auto.
  - auto.
  - unfold getConfirmedOrders. destruct (agent_of req s); auto.
Qed.

Variable calculateDistance :
  jsval -> jsval -> jsval -> jsval -> throws number.
Variable geoNear : list jsval -> number -> Order.t -> bool.
Variable shortest : Q -> string.
Variable tza : Z.

(** X13: availability is a gate of its own: once an agent has set itself
    unavailable, it is refused with status 400 when it asks to accept an
    order, to reject one, or for the nearby orders, verified though it
    is; and its verification is as before. *)
Theorem unavailable_agent_refused (req : Principal) (orderId : ObjectId)
        (query : jsval) (now : clock) (s : Store) (agent : DeliveryAgent.t) :
  unique_agents s ->
  agent_of req s = Some agent ->
  DeliveryAgent.isVerified agent = true ->
  let s1 := after (updateAvailability mode req (VBool false) s) in
  agent_of req s1 = Some (DeliveryAgent.set_isAvailable false agent)
  /\ acceptOrder mode tza req orderId now s1
     = mkOutcome
         (Failure 400 "You need to set yourself as available to accept orders")
         s1 []
  /\ rejectOrder mode req orderId s1
     = mkOutcome
         (Failure 400 "You need to set yourself as available to manage orders")
         s1 []
  /\ getNearbyOrders calculateDistance geoNear shortest req query s1
     = mkOutcome
         (Failure 400 "You are currently set as unavailable for deliveries")
         s1 [].
Proof.
  intros Hu Ha Hv s1.
  assert (Ha1 : agent_of req s1
                = Some (DeliveryAgent.set_isAvailable false agent)).
  { unfold s1, updateAvailability. rewrite Ha. cbn [after].
    rewrite save_agent_loaded with (req := req) by assumption.
    unfold agent_of. simpl. apply findOne_update; try assumption.
    unfold agent_of, findOne in Ha. apply find_some in Ha. apply Ha. }
  split; [exact Ha1|].
  unfold acceptOrder, rejectOrder, getNearbyOrders. rewrite Ha1. simpl.
  rewrite Hv. simpl. auto.
Qed.

(** X14: verification is a gate of its own: once an administrator has
    withdrawn an agent's verification, the agent is refused with status
    403 when it asks to accept an order, to reject one, or for the nearby
    orders, available though it may be. *)
Theorem unverified_agent_refused (req : Principal) (orderId : ObjectId)
        (query : jsval) (now : clock) (s : Store) (agent : DeliveryAgent.t) :
  unique_agents s ->
  agent_of req s = Some agent ->
  let s1 := after (verifyDeliveryAgent mode (DeliveryAgent._id agent)
                     (VBool false) s) in
  agent_of req s1 = Some (DeliveryAgent.set_isVerified false agent)
  /\ acceptOrder mode tza req orderId now s1
     = mkOutcome
         (Failure 403 "Your account is not yet verified to accept orders")
         s1 []
  /\ rejectOrder mode req orderId s1
     = mkOutcome
         (Failure 403 "Your account is not yet verified to reject orders")
         s1 []
  /\ getNearbyOrders calculateDistance geoNear shortest req query s1
     = mkOutcome
         (Failure 403 "Your account is not yet verified to accept orders")
         s1 [].
Proof.
  intros Hu Ha s1.
  assert (Hf : findById DeliveryAgent._id (DeliveryAgent._id agent) (agents s)
               = Some agent).
  { eapply findOne_findById; eauto. }
  assert (Ha1 : agent_of req s1
                = Some (DeliveryAgent.set_isVerified false agent)).
  { unfold s1, verifyDeliveryAgent. rewrite Hf. cbn [after].
    rewrite save_agent_loaded with (req := req) by assumption.
    unfold agent_of. simpl. apply findOne_update; try assumption.
    unfold agent_of, findOne in Ha. apply find_some in Ha. apply Ha. }
  split; [exact Ha1|].
  unfold acceptOrder, rejectOrder, getNearbyOrders. rewrite Ha1. simpl. auto.
Qed.

End Agents.

Section AgentMoves.

Import JS Controller.
Local Open Scope string_scope.

Variable P : Platform.

Lemma agents_unmoved (r : request) (l : list DeliveryAgent.t) :
  agents_step r l l.
Proof.
  left. apply Forall2_same. intros x. now left.
Qed.

Lemma saved_agent_moves (r : request) (req : Principal) (s : Store)
      (loaded : DeliveryAgent.t)
      (changes : DeliveryAgent.t -> DeliveryAgent.t) :
  unique_agents s ->
  agent_of req s = Some loaded ->
  edit_of r loaded changes ->
  Forall2 (agent_move r) (agents s)
    (save_agent (mode P) loaded changes (agents s)).
Proof.
  intros Hu Ha He.
  rewrite save_agent_loaded with (req := req) by assumption.
  assert (Hf : findById DeliveryAgent._id (DeliveryAgent._id loaded)
                 (agents s) = Some loaded).
  { eapply findOne_findById; eauto. }
  eapply Forall2_impl; [|apply update_by_id_found].
  intros x y [-> | [Hx ->]]; [now left|].
  rewrite Hf in Hx. injection Hx as <-. right. eauto.
Qed.

Lemma handle_agents (r : request) (now : clock) (s : Store) :
  unique_agents s ->
  agents_step r (agents s) (agents (after (handle P r now s))).
Proof.
  intros Hu. destruct r.
  - simpl. unfold registerAsDeliveryAgent.
    destruct (agent_of req s) eqn:Ha; [apply agents_unmoved|].
    right. exists req, fresh, vehicleType, vehicleNumber. auto.
  - simpl. unfold updateAvailability.
    destruct isAvailable; try apply agents_unmoved.
    destruct (agent_of req s) as [agent|] eqn:Ha; [|apply agents_unmoved].
    left. simpl. eapply saved_agent_moves; eauto. reflexivity.
  - simpl. unfold updateLocation.
    match goal with
    | |- context [if ?c then _ else _] => destruct c
    end; [apply agents_unmoved|].
    destruct (agent_of req s) as [agent|] eqn:Ha; [|apply agents_unmoved].
    left. simpl. eapply saved_agent_moves; eauto. reflexivity.
  - simpl. unfold getNearbyOrders.
    destruct (agent_of req s) as [agent|]; [|apply agents_unmoved].
    destruct (negb (DeliveryAgent.isVerified agent)); [apply agents_unmoved|].
    destruct (negb (DeliveryAgent.isAvailable agent));
      [apply agents_unmoved|].
    destruct (destructure (DeliveryAgent.currentLocation agent)) as [e|[a b]];
      [apply agents_unmoved|].
    match goal with
    | |- context [match ?x with inl _ => _ | inr _ => _ end] => destruct x
    end; apply agents_unmoved.
  - simpl. unfold acceptOrder.
    destruct (agent_of req s) as [agent|] eqn:Ha; [|apply agents_unmoved].
    destruct (negb (DeliveryAgent.isVerified agent)); [apply agents_unmoved|].
    destruct (negb (DeliveryAgent.isAvailable agent));
      [apply agents_unmoved|].
    destruct (findById Order._id orderId (orders s)) as [o|] eqn:Ho;
      [|apply agents_unmoved].
    destruct (is_some (Order.deliveryAgent o)); [apply agents_unmoved|].
    destruct (negb (String.eqb (Order.status o) "confirmed"));
      [apply agents_unmoved|].
    left. simpl. eapply saved_agent_moves; eauto. simpl.
    now rewrite (findById_id _ _ _ Ho).
  - simpl. unfold completeDelivery.
    destruct (agent_of req s) as [agent|] eqn:Ha; [|apply agents_unmoved].
    destruct (findById Order._id orderId (orders s)) as [o|] eqn:Ho;
      [|apply agents_unmoved].
    match goal with
    | |- context [if ?c then _ else _] => destruct c
    end; [apply agents_unmoved|].
    destruct (negb (String.eqb (Order.status o) "out_for_delivery"));
      [apply agents_unmoved|].
    left. simpl. eapply saved_agent_moves; eauto. simpl.
    now rewrite (findById_id _ _ _ Ho).
  - simpl. unfold getAgentProfile.
    destruct (agent_of req s); apply agents_unmoved.
  - simpl. unfold verifyDeliveryAgent.
    destruct isVerified; try apply agents_unmoved.
    destruct (findById DeliveryAgent._id agentId (agents s)) as [agent|]
      eqn:Hf; [|apply agents_unmoved].
    left. simpl. pose proof (findById_id _ _ _ Hf) as Hid.
    unfold save_agent. rewrite save_as_loaded by (now rewrite Hid).
    eapply Forall2_impl; [|apply update_by_id_found].
    intros x y [-> | [Hx ->]]; [now left|].
    rewrite Hid, Hf in Hx. injection Hx as <-. right.
    eexists. split; [|reflexivity]. reflexivity.
  - apply agents_unmoved.
  - simpl. unfold getConfirmedOrders.
    destruct (agent_of req s); apply agents_unmoved.
  - simpl. unfold rejectOrder.
    destruct (agent_of req s) as [agent|] eqn:Ha; [|apply agents_unmoved].
    destruct (negb (DeliveryAgent.isVerified agent)); [apply agents_unmoved|].
    destruct (negb (DeliveryAgent.isAvailable agent));
      [apply agents_unmoved|].
    destruct (findById Order._id orderId (orders s)) as [o|] eqn:Ho;
      [|apply agents_unmoved].
    destruct (is_some (Order.deliveryAgent o)); [apply agents_unmoved|].
    cbn [after]. rewrite (findById_id _ _ _ Ho).
    destruct (includes (rejected_or_empty agent) orderId) eqn:Hin;
      [apply agents_unmoved|].
    left. simpl. eapply saved_agent_moves; eauto. simpl. auto.
Qed.

End AgentMoves.

Section AgentInvariants.

Import JS Controller.
Local Open Scope string_scope.

Variable P : Platform.

Lemma edit_keeps_identity (r : request) (x : DeliveryAgent.t)
      (changes : DeliveryAgent.t -> DeliveryAgent.t) :
  edit_of r x changes ->
  DeliveryAgent._id (changes x) = DeliveryAgent._id x
  /\ DeliveryAgent.user (changes x) = DeliveryAgent.user x.
Proof.
  destruct r; simpl; try contradiction.
  - destruct isAvailable; try contradiction. now intros ->.
  - now intros ->.
  - now intros ->.
  - now intros ->.
  - destruct isVerified; try contradiction. now intros ->.
  - intros [-> _]. unfold reject_changes.
    destruct (DeliveryAgent.rejectedOrders x); split; reflexivity.
Qed.

Lemma moves_keep_identity (r : request) (l l' : list DeliveryAgent.t) :
  Forall2 (agent_move r) l l' ->
  map DeliveryAgent._id l' = map DeliveryAgent._id l
  /\ map DeliveryAgent.user l' = map DeliveryAgent.user l.
Proof.
  induction 1 as [|x y l l' Hxy _ [IH1 IH2]]; simpl; [auto|].
  rewrite IH1, IH2.
  destruct Hxy as [-> | (changes & He & ->)]; [auto|].
  destruct (@edit_keeps_identity _ _ _ He) as [-> ->]. auto.
Qed.

Lemma NoDup_snoc (A : Type) (l : list A) (a : A) :
  NoDup l -> ~ In a l -> NoDup (l ++ [a]).
Proof.
  intros Hl Ha. induction Hl as [|x l Hx Hl IH]; simpl.
  - repeat constructor. intros [].
  - constructor.
    + intros Hin. apply in_app_or in Hin. destruct Hin as [Hin | [-> | []]].
      * contradiction.
      * apply Ha. now left.
    + apply IH. intros Hin. apply Ha. now right.
Qed.

(** X15: ids stay unique among the agents and no user gets a second agent
    profile, whatever the request, as long as the id given to a new agent
    is not in use. *)
Theorem agents_stay_well_formed (r : request) (now : clock) (s : Store) :
  unique_agents s ->
  one_profile_per_user s ->
  (forall req fresh vt vn,
     r = Register req fresh vt vn ->
     ~ In fresh (map DeliveryAgent._id (agents s))) ->
  unique_agents (after (handle P r now s))
  /\ one_profile_per_user (after (handle P r now s)).
Proof.
  intros Hu Hp Hfresh. unfold unique_agents, one_profile_per_user in *.
  destruct (handle_agents P r now Hu)
    as [Hm | (req & fresh & vt & vn & -> & Hnone & E)].
  - destruct (moves_keep_identity Hm) as [-> ->]. auto.
  - rewrite E, !map_app. simpl. split; apply NoDup_snoc; auto.
    + eapply Hfresh. reflexivity.
    + intros Hin. apply in_map_iff in Hin. destruct Hin as (x & Hx & Hin).
      apply (find_none _ _ Hnone) in Hin. unfold by_user in Hin.
      rewrite Hx, String.eqb_refl in Hin. discriminate.
Qed.

(** X16: no agent ever holds the same order twice among its rejected
    orders: if that is so before a request it is so after it. *)
Theorem rejections_stay_distinct (r : request) (now : clock) (s : Store) :
  unique_agents s ->
  rejections_distinct s ->
  rejections_distinct (after (handle P r now s)).
Proof.
  intros Hu Hd. unfold rejections_distinct in *.
  destruct (handle_agents P r now Hu)
    as [Hm | (req & fresh & vt & vn & -> & Hnone & E)].
  - induction Hm as [|x y l l' Hxy _ IH]; [constructor|].
    inversion Hd as [|? ? Hx Hl]; subst. constructor; [|now apply IH].
    destruct Hxy as [-> | (changes & He & ->)]; [exact Hx|].
    destruct r; simpl in He; try contradiction.
    + destruct isAvailable; try contradiction. now subst.
    + now subst.
    + now subst.
    + now subst.
    + destruct isVerified; try contradiction. now subst.
    + destruct He as [-> Hin]. rewrite rejected_after_changes.
      apply NoDup_snoc; [exact Hx|]. intros H. apply includes_In in H.
      congruence.
  - rewrite E. apply Forall_app. split; [exact Hd|].
    repeat constructor.
Qed.

(** X17: only [verifyDeliveryAgent] verifies: after any other request,
    every agent that is verified was there before under the same id and
    was verified already; in particular a new agent is not. *)
Theorem verification_only_by_admin (r : request) (now : clock) (s : Store)
        (y : DeliveryAgent.t) :
  unique_agents s ->
  (forall agentId v, r <> VerifyDeliveryAgent agentId v) ->
  In y (agents (after (handle P r now s))) ->
  DeliveryAgent.isVerified y = true ->
  exists x, In x (agents s)
            /\ DeliveryAgent._id x = DeliveryAgent._id y
            /\ DeliveryAgent.isVerified x = true.
Proof.
  intros Hu Hr Hin Hv.
  destruct (handle_agents P r now Hu)
    as [Hm | (req & fresh & vt & vn & -> & Hnone & E)].
  - induction Hm as [|x y' l l' Hxy _ IH]; [contradiction|].
    destruct Hin as [<- | Hin].
    + exists x. split; [now left|].
      destruct Hxy as [-> | (changes & He & ->)]; [auto|].
      destruct r; simpl in He; try contradiction.
      * destruct isAvailable; try contradiction. now subst.
      * now subst.
      * now subst.
      * now subst.
      * exfalso. eapply Hr. reflexivity.
      * destruct He as [-> _]. revert Hv. unfold reject_changes.
        destruct (DeliveryAgent.rejectedOrders x); auto.
    + destruct (IH Hin) as (x' & Hx' & Hid & Hvx). exists x'.
      split; [now right | auto].
  - rewrite E in Hin. apply in_app_or in Hin.
    destruct Hin as [Hin | [<- | []]]; [eauto | discriminate].
Qed.

Lemma find_snoc (p : DeliveryAgent.t -> bool) (l : list DeliveryAgent.t)
      (a : DeliveryAgent.t) :
  find p l = None -> p a = true -> find p (l ++ [a]) = Some a.
Proof.
  induction l as [|x l IH]; simpl; intros Hn Hp.
  - now rewrite Hp.
  - destruct (p x); [discriminate | auto].
Qed.

(** X18: a user without an agent profile that registers gets one, not yet
    verified; a second registration of the same user is refused with
    status 400 and changes nothing; the new agent is refused with status
    403 when it asks to accept an order; and the user's roles hold
    [delivery_agent], once. *)
Theorem register_once (req : Principal) (fresh : ObjectId)
        (vehicleType vehicleNumber : jsval) (s : Store) :
  agent_of req s = None ->
  let out := registerAsDeliveryAgent req fresh vehicleType vehicleNumber s in
  let agent := new_agent req fresh vehicleType vehicleNumber in
  answer out
  = Success 201
      "Registered as delivery agent successfully. Awaiting verification."
      (P_agent agent)
  /\ agent_of req (after out) = Some agent
  /\ (forall fresh' vt vn,
        registerAsDeliveryAgent req fresh' vt vn (after out)
        = mkOutcome
            (Failure 400 "You are already registered as a delivery agent")
            (after out) [])
  /\ (forall m tza orderId now,
        acceptOrder m tza req orderId now (after out)
        = mkOutcome
            (Failure 403 "Your account is not yet verified to accept orders")
            (after out) [])
  /\ (forall u,
        findById User._id (id req) (users s) = Some u ->
        exists u',
          findById User._id (id req) (users (after out)) = Some u'
          /\ In "delivery_agent" (User.roles u')
          /\ (NoDup (User.roles u) -> NoDup (User.roles u'))).
Proof.
  intros Ha. cbv zeta.
  assert (Ha1 : agent_of req
                  (after (registerAsDeliveryAgent req fresh vehicleType
                            vehicleNumber s))
                = Some (new_agent req fresh vehicleType vehicleNumber)).
  { unfold registerAsDeliveryAgent. rewrite Ha. cbn [after].
    unfold agent_of, findOne. simpl. apply find_snoc; [exact Ha|].
    unfold by_user. simpl. apply String.eqb_refl. }
  split; [unfold registerAsDeliveryAgent; rewrite Ha; reflexivity|].
  split; [exact Ha1|]. split; [|split].
  - intros fresh' vt vn. unfold registerAsDeliveryAgent at 1.
    now rewrite Ha1.
  - intros m tza orderId now. unfold acceptOrder. now rewrite Ha1.
  - intros u Hu. unfold registerAsDeliveryAgent. rewrite Ha.
    cbn [after users with_users with_agents].
    eexists. split.
    + apply findById_update; [|exact Hu].
      intros x. destruct (existsb _ (User.roles x)); reflexivity.
    + cbv beta.
      destruct (existsb (String.eqb "delivery_agent") (User.roles u)) eqn:E.
      * split; [|auto]. apply existsb_exists in E.
        destruct E as (x & Hx & E). apply String.eqb_eq in E. now subst.
      * cbn [User.roles]. split; [apply in_or_app; right; now left|].
        intros Hnd. apply NoDup_snoc; [exact Hnd|].
        intros Hin. assert (existsb (String.eqb "delivery_agent")
                              (User.roles u) = true); [|congruence].
        apply existsb_exists. exists "delivery_agent".
        split; [exact Hin | apply String.eqb_refl].
Qed.

End AgentInvariants.

Section Sequences.

Variable P : Platform.

Lemma Forall2_chain (A : Type) (R1 R2 S T : A -> A -> Prop)
      (l l1 l2 : list A) :
  (forall a b c, R1 a b -> R2 a b -> S b c -> T a c) ->
  Forall2 R1 l l1 -> Forall2 R2 l l1 -> Forall2 S l1 l2 -> Forall2 T l l2.
Proof.
  intros HT H1. revert l2. induction H1 as [|a b l l1 Hab _ IH];
    intros l2 H2 H3.
  - inversion H3; subst. constructor.
  - inversion H2; subst. inversion H3; subst.
    constructor; [eapply HT; eauto | now apply IH].
Qed.

(** X19: over any sequence of requests served one after the other, an order
    that is neither confirmed nor out for delivery stays exactly as it
    is, and every order's history is only ever continued: what it was
    before is the beginning of what it is after. *)
Theorem served_orders_keep_their_past (rs : list (request * clock))
        (s : Store) :
  Forall2 (fun o o' =>
             Order._id o' = Order._id o
             /\ (exists added,
                   Order.statusHistory o'
                   = Order.statusHistory o ++ added)
             /\ (Order.status o <> "confirmed"%string ->
                 Order.status o <> "out_for_delivery"%string ->
                 o' = o))
    (orders s) (orders (serve P rs s)).
Proof.
  revert s. induction rs as [|[r now] rest IH]; intros s; simpl.
  - apply Forall2_same. intros x. split; [reflexivity|]. split; [|auto].
    exists []. now rewrite app_nil_r.
  - pose proof (handle_order_grows P r now s) as Hg.
    pose proof (handle_order_moves P r now s) as Hm.
    refine (Forall2_chain _ _ Hg Hm (IH (after (handle P r now s)))).
    intros a b c (added & [Hid Hh] & _) Hab (Hid2 & (added2 & Hh2) & Hfix).
    split; [congruence|]. split.
    + exists (added ++ added2). now rewrite Hh2, Hh, app_assoc.
    + intros H1 H2.
      destruct Hab as [-> | [(Hc & _) | (Hc & _)]]; try contradiction.
      now apply Hfix.
Qed.

End Sequences.

Section TextEdges.

Import JS Controller.
Local Open Scope string_scope.

Variable calculateDistance :
  jsval -> jsval -> jsval -> jsval -> throws number.
Variable shortest : Q -> string.

(** X20: a distance from 999.5 metres to just under a kilometre is shown as
    ["1000 m"], not in kilometres. *)
Theorem text_just_under_a_kilometre (q : Q) :
  (9995 # 10 <= q)%Q -> (q < 1000)%Q ->
  distance_text shortest (Num q) = "1000 m".
Proof.
  intros H1 H2. unfold distance_text.
  assert (E : number_lt (Num q) (Num 1000) = true).
  { simpl. destruct (Qle_bool 1000 q) eqn:E; [|reflexivity].
    apply Qle_bool_iff in E. lra. }
  rewrite E, rounded_metres by lra.
  assert (Hf : Qfloor (q + (1 # 2)) = 1000%Z).
  { pose proof (Qfloor_le (q + (1 # 2))) as Hlo.
    pose proof (Qlt_floor (q + (1 # 2))) as Hhi.
    set (n := Qfloor (q + (1 # 2))) in *.
    assert (Hn1 : (n < 1001)%Z).
    { rewrite Zlt_Qlt. change (inject_Z 1001) with 1001%Q. lra. }
    assert (Hn2 : (999 < n + 1)%Z).
    { rewrite Zlt_Qlt. change (inject_Z 999) with 999%Q.
      rewrite inject_Z_plus in Hhi. change (inject_Z 1) with 1%Q in Hhi.
      rewrite inject_Z_plus. change (inject_Z 1) with 1%Q. lra. }
    assert (Hn3 : (1000 <= n)%Z).
    { apply Qfloor_resp_le with (x := 1000%Q) (y := (q + (1 # 2))%Q). lra. }
    lia. }
  rewrite Hf. reflexivity.
Qed.


End TextEdges.

Section FeedFacts.

Import ChangeStreams.
Local Open Scope string_scope.

(** X23: a change is sent nowhere exactly when its operation is not an
    update, an insert or a replace, or when it carries no document. *)
Theorem on_change_silent_iff (c : Change) :
  on_change c = [] <-> (~ observed c \/ fullDocument c = None).
Proof.
  unfold on_change, observed. split.
  - destruct (String.eqb (operationType c) "update") eqn:E1;
      [|destruct (String.eqb (operationType c) "insert") eqn:E2;
        [|destruct (String.eqb (operationType c) "replace") eqn:E3]];
      simpl; try (destruct (fullDocument c); [discriminate | now right]).
    intros _. left. simpl.
    apply String.eqb_neq in E1, E2, E3. intuition congruence.
  - intros [Hn | Hd].
    + destruct (String.eqb (operationType c) "update") eqn:E1;
        [|destruct (String.eqb (operationType c) "insert") eqn:E2;
          [|destruct (String.eqb (operationType c) "replace") eqn:E3]];
        simpl; try reflexivity; exfalso; apply Hn; simpl;
        apply String.eqb_eq in E1 || apply String.eqb_eq in E2
        || apply String.eqb_eq in E3; auto.
    + rewrite Hd. destruct (_ || _ || _); reflexivity.
Qed.

Lemma latest_snoc (h : list StatusEntry) (e : StatusEntry) :
  latest (h ++ [e])%list = Some e.
Proof.
  unfold latest. destruct h as [|x rest]; simpl; [reflexivity|].
  now rewrite last_last.
Qed.

(** X24: the change of an order that an agent has just accepted goes to
    the order's room, to its user's room and to the room of that agent;
    the event for the order's room carries the status
    [out_for_delivery] and, as latest entry, the one the acceptance
    added. *)
Theorem accepted_order_fans_out (m : save_mode) (tza : Z) (req : Principal)
        (orderId : ObjectId) (now : clock) (s : Store)
        (agent : DeliveryAgent.t) (o : Order.t) :
  unique_agents s ->
  may_accept req orderId s agent o ->
  exists o' entry,
    findById Order._id orderId
      (orders (after (Controller.acceptOrder m tza req orderId now s)))
    = Some o'
    /\ rooms (mkChange "update" (Some o'))
       = ["order_" ++ orderId; "user_" ++ Order.user o;
          "agent_" ++ DeliveryAgent._id agent]
    /\ (exists updatedAt,
          map data (firstn 1 (on_change (mkChange "update" (Some o'))))
          = [OrderRoomUpdate orderId "out_for_delivery" updatedAt
               (Some entry)])
    /\ entry_status entry = "out_for_delivery"
    /\ timestamp entry = now 1%nat.
Proof.
  intros Hu (Ha & Hv & Hav & Ho & Hd & Hst).
  pose proof (findById_id _ _ _ Ho) as Hid.
  unfold Controller.acceptOrder. rewrite Ha, Hv, Hav, Ho, Hd, Hst. simpl.
  rewrite save_order_loaded with (orderId := orderId) by assumption.
  eexists. eexists. split.
  - apply findById_update; [reflexivity | exact Ho].
  - unfold rooms, on_change. simpl. rewrite Hid, latest_snoc.
    split; [reflexivity|]. split; [eexists; reflexivity|].
    split; reflexivity.
Qed.

Lemma closes_spec (h : nat) (t : Z) (w : Watcher) :
  one_stream w ->
  one_stream (closes h t w)
  /\ orderChangeStream (closes h t w) = orderChangeStream w
  /\ (orderChangeStream w = Some h -> watching (closes h t w) = []).
Proof.
  intros Hw. unfold closes.
  destruct Hw as [Hw | (k & Hk & Hw)].
  - rewrite Hw. simpl. split; [now left|]. split; [reflexivity | auto].
  - rewrite Hw. simpl. rewrite orb_false_r.
    destruct (Nat.eqb h k) eqn:E.
    + apply Nat.eqb_eq in E. subst k.
      assert (Hu : watching (on_close t (unwatch h w)) = []
                   /\ orderChangeStream (on_close t (unwatch h w))
                      = orderChangeStream w).
      { unfold on_close, unwatch. simpl.
        destruct (Nat.eqb (readyState w) 1); simpl; rewrite Hw; simpl;
          rewrite Nat.eqb_refl; auto. }
      destruct Hu as [Hu1 Hu2]. split; [now left|]. split; auto.
    + split; [right; eauto|]. split; [reflexivity|].
      intros Hs. assert (Hhk : h = k) by congruence. subst k.
      rewrite Nat.eqb_refl in E. discriminate.
Qed.

Lemma create_one_stream (b : bool) (t : Z) (w : Watcher) :
  one_stream w -> one_stream (fst (createOrderChangeStream b t w)).
Proof.
  intros Hw. unfold createOrderChangeStream.
  assert (Hw1 : watching
                  (match orderChangeStream w with
                   | Some h => closes h t w
                   | None => w
                   end) = []).
  { destruct (orderChangeStream w) as [h|] eqn:Es.
    - now apply closes_spec.
    - destruct Hw as [Hw | (k & Hk & _)]; [exact Hw | congruence]. }
  destruct b; simpl.
  - left. exact Hw1.
  - right. eexists. split; [reflexivity|]. now rewrite Hw1.
Qed.

(** X25: at most one stream is ever open, and it is the one the module
    holds: whatever happens to the watcher, this stays so. *)
Theorem one_stream_kept (time : Z) (o : occurrence) (w : Watcher) :
  one_stream w -> one_stream (react time o w).
Proof.
  intros Hw. destruct o; simpl.
  - now apply closes_spec.
  - destruct (existsb (Nat.eqb h) (watching w)); exact Hw.
  - apply create_one_stream. exact Hw.
  - exact Hw.
  - destruct (timers w); [exact Hw|]. apply create_one_stream. exact Hw.
  - unfold closeChangeStreams.
    destruct (orderChangeStream w) as [h|] eqn:Es; [|exact Hw].
    left. simpl. now apply closes_spec.
Qed.

(** X26: an error on an open stream always sets the reconnect timer,
    five seconds ahead, whether the connection is up or down, whereas a
    stream that closes sets it only while the connection is up. *)
Theorem error_always_retries (time : Z) (h : nat) (w : Watcher) :
  In h (watching w) ->
  timers (react time (StreamErrors h) w) = (timers w ++ [(time + 5000)%Z])%list
  /\ (readyState w <> 1%nat ->
      timers (react time (StreamCloses h) w) = timers w).
Proof.
  intros Hin.
  assert (E : existsb (Nat.eqb h) (watching w) = true).
  { apply existsb_exists. exists h. split; [exact Hin | apply Nat.eqb_refl]. }
  simpl. unfold closes. rewrite E. split; [reflexivity|].
  intros Hr. unfold on_close. simpl. apply Nat.eqb_neq in Hr.
  now rewrite Hr.
Qed.

Lemma restless_fire (t : Z) (w : Watcher) :
  restless w ->
  restless (react t (TimerFires false) w)
  /\ created (react t (TimerFires false) w) = S (created w).
Proof.
  intros (Hr & (h & Hs & Hw) & Ht).
  destruct w as [stream ready open made pending]. simpl in *. subst.
  destruct pending as [|d pending]; [contradiction|].
  unfold createOrderChangeStream, closes, on_close, unwatch. simpl.
  rewrite Nat.eqb_refl. simpl.
  split; [|reflexivity]. unfold restless. simpl.
  split; [reflexivity|]. split; [eauto|].
  destruct pending; discriminate.
Qed.

(** X27: once a reconnect timer is pending while a stream is open and the
    connection is up, the feed never settles: every timer that fires
    closes the open stream, whose close listener sets the next timer,
    and opens another stream, so after [n] firings [Order.watch] has been
    called [n] more times and a timer is pending again. *)
Theorem reconnect_never_settles (times : list Z) (w : Watcher) :
  restless w ->
  restless (history (timers_fire times) w)
  /\ created (history (timers_fire times) w)
     = (created w + List.length times)%nat.
Proof.
  revert w. induction times as [|t rest IH]; intros w Hw.
  - simpl. split; [exact Hw | lia].
  - destruct (restless_fire t Hw) as [Hw1 Hc].
    destruct (IH _ Hw1) as [Hw2 Hc2].
    change (history (timers_fire (t :: rest)) w)
      with (history (timers_fire rest) (react t (TimerFires false) w)).
    split; [exact Hw2|]. rewrite Hc2, Hc. simpl. lia.
Qed.

End FeedFacts.

(* ================================================================== *)
(** * Who may ask *)
(* ================================================================== *)

Section AuthFacts.

Import Auth.
Local Open Scope string_scope.

Variable jwt_verify : string -> string -> option (option ObjectId).
Variable User_findById :
  option ObjectId -> Controller.throws (option UserDoc).
Variable SECRET_KEY : option string.

Lemma substring_all (s : string) : substring 0 (String.length s) s = s.
Proof.
  induction s as [|c s IH]; simpl; [reflexivity | now rewrite IH].
Qed.

Lemma bearer_token (t : string) (cookie : option string) :
  token_of (mkRequest (Some ("Bearer " ++ t)) cookie) = Some t.
Proof.
  unfold token_of, substring7. cbn [authorization]. simpl.
  assert (E : prefix "" t = true) by (destruct t; reflexivity).
  rewrite E, Nat.sub_0_r. now rewrite substring_all.
Qed.

(** X28: a request whose Authorization header starts with ["Bearer "] is
    judged by that header alone, the token being what follows the
    prefix: the cookie is not looked at, and a header that is just
    ["Bearer "] is answered 401 even when a token cookie is there. *)
Theorem header_decides (t : string) (c1 c2 : option string) :
  isAuthenticated jwt_verify User_findById SECRET_KEY
    (mkRequest (Some ("Bearer " ++ t)) c1)
  = isAuthenticated jwt_verify User_findById SECRET_KEY
      (mkRequest (Some ("Bearer " ++ t)) c2)
  /\ token_of (mkRequest (Some ("Bearer " ++ t)) c1) = Some t
  /\ (t = "" ->
      isAuthenticated jwt_verify User_findById SECRET_KEY
        (mkRequest (Some ("Bearer " ++ t)) c1)
      = Answered 401 "You are not authenticated").
Proof.
  unfold isAuthenticated. rewrite !bearer_token.
  split; [reflexivity|]. split; [reflexivity|]. now intros ->.
Qed.

(** X29: the middleware calls [next] exactly when the request carries a
    token that is not empty, [jwt.verify] accepts it under the secret key
    and the user of its [userId] is found; [req.user] is then that
    user's id, name and address, as administrator only if the user
    document says so.  In every other case it answers 401 or 404
    itself. *)
Theorem passes_iff (req : Request) :
  (forall rid u,
     isAuthenticated jwt_verify User_findById SECRET_KEY req = Next rid u
     <-> exists token user,
           token_of req = Some token
           /\ token <> ""
           /\ jwt_verify token (secretKey SECRET_KEY) = Some rid
           /\ User_findById rid = inr (Some user)
           /\ u = mkReqUser (_id user) (username user) (email user)
                    (if JS.truthy (isAdmin user) then isAdmin user
                     else JS.VBool false))
  /\ ((forall rid u,
         isAuthenticated jwt_verify User_findById SECRET_KEY req
         <> Next rid u) ->
      exists code msg,
        isAuthenticated jwt_verify User_findById SECRET_KEY req
        = Answered code msg
        /\ (code = 401%nat \/ code = 404%nat)).
Proof.
  unfold isAuthenticated. split.
  - intros rid u. split.
    + destruct (token_of req) as [token|]; [|discriminate].
      unfold nonempty.
      destruct (String.eqb token "") eqn:E; simpl; [discriminate|].
      apply String.eqb_neq in E.
      destruct (jwt_verify token (secretKey SECRET_KEY)) as [userId|] eqn:Ej;
        [|discriminate].
      destruct (User_findById userId) as [e|[user|]] eqn:Eu;
        try discriminate.
      intros H. injection H as <- <-. exists token, user. auto.
    + intros (token & user & -> & Hne & Hj & Hu & ->).
      unfold nonempty. apply String.eqb_neq in Hne. rewrite Hne. simpl.
      now rewrite Hj, Hu.
  - intros Hn.
    destruct (token_of req) as [token|]; [|eauto].
    destruct (negb (nonempty token)); [eauto|].
    destruct (jwt_verify token (secretKey SECRET_KEY)) as [userId|];
      [|eauto].
    destruct (User_findById userId) as [e|[user|]]; eauto.
    exfalso. eapply Hn. reflexivity.
Qed.

End AuthFacts.

(** X30: the [origin] function lets every origin in, listed or not; what
    the list decides is only whether a warning is written, which is when
    the request names an origin that is not listed. *)
Theorem every_origin_allowed (o : option string) :
  fst (Cors.origin o) = true
  /\ (snd (Cors.origin o) = true
      <-> exists origin, o = Some origin /\ origin <> ""%string
                         /\ ~ In origin Cors.allowedOrigins).
Proof.
  unfold Cors.origin. destruct o as [origin|]; simpl.
  - destruct (String.eqb origin "") eqn:E; simpl.
    + apply String.eqb_eq in E. split; [reflexivity|]. split; [discriminate|].
      intros (x & Hx & Hne & _). congruence.
    + apply String.eqb_neq in E.
      destruct (Cors.listed origin) eqn:L; simpl; split; try reflexivity.
      * split; [discriminate|]. intros (x & Hx & _ & Hn).
        injection Hx as <-. exfalso. apply Hn.
        unfold Cors.listed in L. apply existsb_exists in L.
        destruct L as (y & Hy & Ey). apply String.eqb_eq in Ey. now subst.
      * split; [|reflexivity]. intros _. exists origin.
        split; [reflexivity|]. split; [exact E|]. intros Hin.
        assert (Cors.listed origin = true); [|congruence].
        unfold Cors.listed. apply existsb_exists. exists origin.
        split; [exact Hin | apply String.eqb_refl].
  - split; [reflexivity|]. split; [discriminate|].
    intros (x & Hx & _). discriminate.
Qed.

(* ================================================================== *)
(** * The statements on the sample data *)
(* ================================================================== *)

Lemma sample_unique_agents : unique_agents Sample.store.
Proof.
  unfold unique_agents. simpl.
  repeat constructor; simpl; intuition discriminate.
Defined.

(** The agent of the sample accepts the first order. *)
Lemma acceptOrder_assigns_witness :
  exists o',
    findById Order._id "o1"%string
      (orders (after (Controller.acceptOrder ModifiedPaths 19800000
                        Sample.asha "o1"%string Sample.ticking Sample.store)))
    = Some o'
    /\ Order.status o' = "out_for_delivery"%string
    /\ Order.deliveryAgent o' = Some "a1"%string
    /\ Order.estimatedDeliveryTime o' = Some 1802000%Z.
Proof.
  destruct (@acceptOrder_assigns ModifiedPaths 19800000 Sample.asha
              "o1"%string Sample.ticking Sample.store Sample.agentA
              Sample.order1 sample_unique_agents eq_refl eq_refl eq_refl
              eq_refl eq_refl eq_refl)
    as (o' & a' & e & _ & Hf & Hs & Hd & He & _).
  exists o'. repeat split; assumption.
Defined.


(** The second agent of the sample may not complete what the first has. *)
Lemma completeDelivery_forbidden_witness :
  let s := after (Controller.acceptOrder ModifiedPaths 19800000 Sample.asha
                    "o1"%string Sample.ticking Sample.store) in
  Controller.completeDelivery ModifiedPaths Sample.ravi "o1"%string
    Sample.ticking s
  = mkOutcome (Failure 403 "This order is not assigned to you") s [].
Proof.
  cbv zeta.
  eapply (@completeDelivery_forbidden ModifiedPaths Sample.ravi "o1"%string
            Sample.ticking _ Sample.agentB _ "a1"%string).
  - reflexivity.
  - reflexivity.
  - reflexivity.
  - discriminate.
Defined.

(** The agent of the sample rejects the second order twice. *)
Lemma rejectOrder_idempotent_witness :
  let once := Controller.rejectOrder ModifiedPaths Sample.asha "o2"%string
                Sample.store in
  let twice := Controller.rejectOrder ModifiedPaths Sample.asha "o2"%string
                 (after once) in
  after twice = after once /\ orders (after twice) = orders Sample.store.
Proof.
  destruct (@rejectOrder_idempotent ModifiedPaths Sample.asha "o2"%string
              Sample.store Sample.agentA Sample.order2 sample_unique_agents
              eq_refl eq_refl eq_refl eq_refl eq_refl (Nat.le_0_l 1))
    as (_ & _ & H1 & H2 & _).
  split; assumption.
Defined.

(** A change of an order that has an agent goes to three rooms. *)
Lemma change_fan_out_witness :
  rooms (ChangeStreams.mkChange "replace"
           (Some (Order.set_deliveryAgent (Some "a1"%string) Sample.order1)))
  = ["order_o1"; "user_u9"; "agent_a1"]%string.
Proof.
  refine (proj1 (@change_fan_out
                   (ChangeStreams.mkChange "replace"
                      (Some (Order.set_deliveryAgent (Some "a1"%string)
                               Sample.order1)))
                   (Order.set_deliveryAgent (Some "a1"%string) Sample.order1)
                   _ eq_refl)).
  right. right. left. reflexivity.
Defined.

(** Longitude zero is refused on the sample. *)
Lemma updateLocation_zero_refused_witness :
  Controller.updateLocation ModifiedPaths Sample.asha
    (JS.VNumber (JS.Num 0)) (JS.VNumber (JS.Num (13 # 1))) Sample.ticking
    Sample.store
  = mkOutcome
      (Failure 400 "Valid longitude and latitude coordinates are required")
      Sample.store [].
Proof.
  apply (proj1 (updateLocation_zero_refused ModifiedPaths Sample.asha
                  (JS.VNumber (JS.Num 0)) (JS.VNumber (JS.Num (13 # 1)))
                  Sample.ticking Sample.store)).
  left. exists 0%Q. split; reflexivity.
Defined.




(* ================================================================== *)
(** * The further statements on the sample data *)
(* ================================================================== *)

Lemma sequel_unique_agents : unique_agents Sequel.taken.
Proof.
  unfold unique_agents. simpl.
  repeat constructor; simpl; intuition discriminate.
Defined.

(** The first agent of the sample delivers the order it has taken. *)
Lemma completeDelivery_completes_witness :
  exists o',
    findById Order._id "o1"%string
      (orders (after (Controller.completeDelivery ModifiedPaths Sample.asha
                        "o1"%string Sample.ticking Sequel.taken)))
    = Some o'
    /\ Order.status o' = "delivered"%string
    /\ Order.actualDeliveryTime o' = Some 2000%Z.
Proof.
  destruct (@completeDelivery_completes ModifiedPaths Sample.asha
               "o1"%string Sample.ticking Sequel.taken
               (DeliveryAgent.push_activeOrders "o1"%string Sample.agentA)
               (Controller.accept_changes Sample.asha Sample.agentA
                  (Controller.in_30_minutes 19800000
                     (Sample.ticking 0%nat))
                  (Sample.ticking 1%nat) Sample.order1)
               sequel_unique_agents)
    as (o' & a' & e & _ & Hf & Hs & Ht & _).
  - unfold may_complete.
    refine (conj _ (conj _ (conj _ _))); reflexivity.
  - exists o'. repeat split; assumption.
Defined.

(** The first order of the sample, accepted and then delivered. *)
Lemma accept_then_complete_witness :
  exists o2,
    findById Order._id "o1"%string (orders Sequel.delivered) = Some o2
    /\ Order.status o2 = "delivered"%string
    /\ Order.deliveryAgent o2 = Some "a1"%string.
Proof.
  destruct (@accept_then_complete ModifiedPaths 19800000 Sample.asha
              "o1"%string Sample.ticking Sample.ticking Sample.store
              Sample.agentA Sample.order1 sample_unique_agents)
    as (o2 & a2 & e1 & e2 & _ & Hf & Hs & Hd & _).
  - unfold may_accept. repeat split; reflexivity.
  - exists o2. repeat split; assumption.
Defined.

(** The delivered order of the sample is out of the second agent's
    reach. *)
Lemma settled_orders_stay_witness :
  exists o,
    nth_error (orders Sequel.delivered) 0 = Some o
    /\ nth_error
         (orders (after (handle (Sample.platform ModifiedPaths)
                           (AcceptOrder Sample.ravi "o1"%string)
                           Sample.ticking Sequel.delivered))) 0
       = Some o.
Proof.
  eexists. split; [reflexivity|].
  apply (@settled_orders_stay (Sample.platform ModifiedPaths)
           (AcceptOrder Sample.ravi "o1"%string) Sample.ticking
           Sequel.delivered 0).
  - reflexivity.
  - simpl. discriminate.
  - simpl. discriminate.
Defined.

(** The orders of the sample after an acceptance. *)
Lemma assigned_when_moving_kept_witness :
  Forall assigned_when_moving
    (orders (after (handle (Sample.platform ModifiedPaths)
                      (AcceptOrder Sample.asha "o1"%string) Sample.ticking
                      Sample.store))).
Proof.
  apply (@assigned_when_moving_kept (Sample.platform ModifiedPaths)
           (AcceptOrder Sample.asha "o1"%string) Sample.ticking
           Sample.store).
  repeat (apply Forall_cons;
          [split; [intros H; exfalso; apply H; reflexivity
                  | intros [H | H]; discriminate H]|]).
  apply Forall_nil.
Defined.

(** The first agent of the sample rejects the second order. *)
Lemma rejected_order_not_listed_witness :
  exists agent',
    Controller.agent_of Sample.asha
      (after (Controller.rejectOrder ModifiedPaths Sample.asha "o2"%string
                Sample.store))
    = Some agent'
    /\ In "o2"%string (Controller.rejected_or_empty agent').
Proof.
  destruct (@rejected_order_not_listed Sample.sample_distance
              Sample.sample_near Sample.no_exponent ModifiedPaths
              Sample.asha "o2"%string Sample.store Sample.agentA
              Sample.order2 sample_unique_agents)
    as (agent' & Ha & Hin & _).
  - unfold may_reject. repeat split; reflexivity.
  - exists agent'. split; assumption.
Defined.

(** The first order of the sample, once taken, in the list of all
    confirmed orders. *)
Lemma accepted_order_not_listed_witness :
  Forall (fun l => Order._id (order l) <> "o1"%string)
    (Controller.ordersWithDistance Sample.sample_distance Sample.sample_near
       Sample.no_exponent [] true Sequel.longitude Sequel.latitude
       Sequel.taken).
Proof.
  apply Forall_forall. intros l Hl.
  apply (@accepted_order_not_listed Sample.sample_distance
           Sample.sample_near Sample.no_exponent ModifiedPaths 19800000
           Sample.asha "o1"%string Sample.ticking Sample.store Sample.agentA
           Sample.order1) with (rejected := []) (all := true)
           (longitude := Sequel.longitude) (latitude := Sequel.latitude).
  - unfold unique_orders. simpl.
    repeat constructor; simpl; intuition discriminate.
  - unfold may_accept. repeat split; reflexivity.
  - exact Hl.
Defined.

(** The busy agent of the sample asks for the nearby orders. *)
Lemma listing_fails_on_active_order_witness :
  exists e',
    Controller.getNearbyOrders Sample.sample_distance Sample.sample_near
      Sample.no_exponent Sample.asha (JS.VString "true") Sequel.busy
    = mkOutcome (Failure 500 ("Error fetching nearby orders: " ++ e'))
        Sequel.busy [].
Proof.
  apply (@listing_fails_on_active_order Sample.sample_distance
           Sample.sample_near Sample.no_exponent Sample.asha
           (JS.VString "true") Sequel.busy Sequel.busyA Sequel.longitude
           Sequel.latitude Sequel.order4
           "Cannot read properties of undefined (reading 'coordinates')"%string).
  - reflexivity.
  - reflexivity.
  - reflexivity.
  - reflexivity.
  - right. left. reflexivity.
  - left. reflexivity.
  - reflexivity.
  - reflexivity.
Defined.

(** The first agent of the sample reports its place. *)
Lemma updateLocation_stores_and_broadcasts_witness :
  Controller.agent_of Sample.asha
    (after (Controller.updateLocation ModifiedPaths Sample.asha
              Sequel.longitude Sequel.latitude Sample.ticking Sample.store))
  = Some (DeliveryAgent.set_currentLocation
            (Some (mkGeoPoint "Point"
                     (Some [Sequel.longitude; Sequel.latitude])))
            Sample.agentA)
  /\ emitted (Controller.updateLocation ModifiedPaths Sample.asha
                Sequel.longitude Sequel.latitude Sample.ticking Sample.store)
     = [].
Proof.
  destruct (@updateLocation_stores_and_broadcasts ModifiedPaths Sample.asha
              Sequel.longitude Sequel.latitude Sample.ticking Sample.store
              Sample.agentA sample_unique_agents eq_refl)
    as (_ & Ha & _ & _ & Hr & _).
  - simpl. unfold Qeq. simpl. lia.
  - simpl. unfold Qeq. simpl. lia.
  - split; [exact Ha|].
    apply map_eq_nil with (f := room). exact Hr.
Defined.

(** The first agent of the sample, set unavailable, asks for an order. *)
Lemma unavailable_agent_refused_witness :
  let s1 := after (Controller.updateAvailability ModifiedPaths Sample.asha
                     (JS.VBool false) Sample.store) in
  Controller.acceptOrder ModifiedPaths 19800000 Sample.asha "o1"%string
    Sample.ticking s1
  = mkOutcome
      (Failure 400 "You need to set yourself as available to accept orders")
      s1 [].
Proof.
  cbv zeta.
  destruct (@unavailable_agent_refused ModifiedPaths Sample.sample_distance
              Sample.sample_near Sample.no_exponent 19800000 Sample.asha
              "o1"%string (JS.VString "true") Sample.ticking Sample.store
              Sample.agentA sample_unique_agents eq_refl eq_refl)
    as (_ & H & _).
  exact H.
Defined.

(** The first agent of the sample, its verification withdrawn, asks for
    an order. *)
Lemma unverified_agent_refused_witness :
  let s1 := after (Controller.verifyDeliveryAgent ModifiedPaths "a1"%string
                     (JS.VBool false) Sample.store) in
  Controller.acceptOrder ModifiedPaths 19800000 Sample.asha "o1"%string
    Sample.ticking s1
  = mkOutcome
      (Failure 403 "Your account is not yet verified to accept orders")
      s1 [].
Proof.
  cbv zeta.
  destruct (@unverified_agent_refused ModifiedPaths Sample.sample_distance
              Sample.sample_near Sample.no_exponent 19800000 Sample.asha
              "o1"%string (JS.VString "true") Sample.ticking Sample.store
              Sample.agentA sample_unique_agents eq_refl)
    as (_ & H & _).
  exact H.
Defined.

Lemma sample_one_profile_per_user : one_profile_per_user Sample.store.
Proof.
  unfold one_profile_per_user. simpl.
  repeat constructor; simpl; intuition discriminate.
Defined.

(** A third user registers on the sample. *)
Lemma agents_stay_well_formed_witness :
  unique_agents
    (after (handle (Sample.platform ModifiedPaths)
              (Register Sequel.mira "a3"%string (JS.VString "bike")
                 (JS.VString "KA03"))
              Sample.ticking Sample.store)).
Proof.
  refine (proj1 (@agents_stay_well_formed (Sample.platform ModifiedPaths)
                   (Register Sequel.mira "a3"%string (JS.VString "bike")
                      (JS.VString "KA03"))
                   Sample.ticking Sample.store sample_unique_agents
                   sample_one_profile_per_user _)).
  intros req fresh vt vn E. injection E as _ <- _ _.
  simpl. intuition discriminate.
Defined.

(** The sample after a rejection. *)
Lemma rejections_stay_distinct_witness :
  rejections_distinct
    (after (handle (Sample.platform ModifiedPaths)
              (RejectOrder Sample.asha "o2"%string) Sample.ticking
              Sample.store)).
Proof.
  apply (@rejections_stay_distinct (Sample.platform ModifiedPaths)
           (RejectOrder Sample.asha "o2"%string) Sample.ticking Sample.store
           sample_unique_agents).
  unfold rejections_distinct. simpl. repeat constructor.
Defined.

(** The first agent of the sample after it has set itself unavailable. *)
Lemma verification_only_by_admin_witness :
  exists x,
    In x (agents Sample.store)
    /\ DeliveryAgent._id x = "a1"%string
    /\ DeliveryAgent.isVerified x = true.
Proof.
  apply (@verification_only_by_admin (Sample.platform ModifiedPaths)
           (UpdateAvailability Sample.asha (JS.VBool false)) Sample.ticking
           Sample.store
           (DeliveryAgent.set_isAvailable false Sample.agentA)
           sample_unique_agents).
  - intros agentId v. discriminate.
  - left. reflexivity.
  - reflexivity.
Defined.

(** A third user registers on the sample, twice. *)
Lemma register_once_witness :
  let out := Controller.registerAsDeliveryAgent Sequel.mira "a3"%string
               (JS.VString "bike") (JS.VString "KA03") Sample.store in
  Controller.registerAsDeliveryAgent Sequel.mira "a4"%string
    (JS.VString "bike") (JS.VString "KA03") (after out)
  = mkOutcome (Failure 400 "You are already registered as a delivery agent")
      (after out) [].
Proof.
  cbv zeta.
  destruct (@register_once Sequel.mira "a3"%string (JS.VString "bike")
              (JS.VString "KA03") Sample.store eq_refl)
    as (_ & _ & H & _).
  apply H.
Defined.

(** 999.6 metres. *)
Lemma text_just_under_a_kilometre_witness :
  Controller.distance_text Sample.no_exponent (JS.Num (9996 # 10))
  = "1000 m"%string.
Proof.
  apply (@text_just_under_a_kilometre Sample.no_exponent (9996 # 10)).
  - unfold Qle. simpl. lia.
  - unfold Qlt. simpl. lia.
Defined.



(** The first order of the sample, taken by the first agent. *)
Lemma accepted_order_fans_out_witness :
  exists o',
    findById Order._id "o1"%string (orders Sequel.taken) = Some o'
    /\ rooms (ChangeStreams.mkChange "update" (Some o'))
       = ["order_o1"; "user_u9"; "agent_a1"]%string.
Proof.
  destruct (@accepted_order_fans_out ModifiedPaths 19800000 Sample.asha
              "o1"%string Sample.ticking Sample.store Sample.agentA
              Sample.order1 sample_unique_agents)
    as (o' & entry & Hf & Hr & _).
  - unfold may_accept. repeat split; reflexivity.
  - exists o'. split; [exact Hf | exact Hr].
Defined.

(** The watcher at work when a timer fires. *)
Lemma one_stream_kept_witness :
  one_stream
    (ChangeStreams.react 5100 (ChangeStreams.TimerFires false)
       Sequel.stirred).
Proof.
  apply (@one_stream_kept 5100 (ChangeStreams.TimerFires false)
           Sequel.stirred).
  right. exists 0%nat. split; reflexivity.
Defined.

(** An error on the stream of the watcher at work. *)
Lemma error_always_retries_witness :
  ChangeStreams.timers
    (ChangeStreams.react 100 (ChangeStreams.StreamErrors 0) watcher_at_work)
  = [5100%Z].
Proof.
  apply (proj1 (@error_always_retries 100 0 watcher_at_work
                  (or_introl eq_refl))).
Defined.

(** Three timers after an error on the stream of the watcher at work. *)
Lemma reconnect_never_settles_witness :
  ChangeStreams.created
    (ChangeStreams.history (timers_fire [5100; 10100; 15100]%Z)
       Sequel.stirred)
  = 4%nat
  /\ ChangeStreams.timers
       (ChangeStreams.history (timers_fire [5100; 10100; 15100]%Z)
          Sequel.stirred)
     <> [].
Proof.
  destruct (@reconnect_never_settles [5100; 10100; 15100]%Z Sequel.stirred)
    as [(_ & _ & Ht) Hc].
  - unfold restless. split; [reflexivity|]. split.
    + exists 0%nat. split; reflexivity.
    + discriminate.
  - split; [exact Hc | exact Ht].
Defined.
